(** * Toronto open-data dashboard: quality scoring, binning and ward analysis

    A shallow embedding of the computational layer of the dashboard API:
    - [pages/api/data-readiness.ts] (second half of [src/lib/supabase.ts] in
      the source tree): the five quality-dimension calculators and the
      readiness aggregator;
    - [pages/api/toronto-dashboard.ts]: the legacy quality metrics, the
      monthly time series, the cost histogram and the ward analysis.

    Modelling conventions.
    - A JavaScript [number] is an exact rational ([Q]); rounding of IEEE
      doubles is not modelled, except where the result depends on it: the
      order of the ward efficiency ranking is decided by the last bit of two
      differently rounded quotients, so [WardAnalysis64] computes the ranking
      in binary64, on the kernel's primitive floats.  Counts and ward numbers
      are integers.
    - [null] is [None]; a record never has an [undefined] field (rows come
      from a database table with all columns present).
    - Strings are byte strings; [trim], [toUpperCase] and [toLowerCase] act on
      ASCII.
    - [new Date(s).getTime()] is a function [parseDate] from the date string
      to epoch milliseconds, a parameter of the development; date strings are
      assumed to parse (no Invalid Date).
    - The clock is read once per invocation.
    - Texts that only render numbers for display ([details], [strengths],
      the bin [label]) are left out of the result records; [toFixed] in the
      issue lines rounds the exact value. *)

From Stdlib Require Import ZArith QArith Qround Qminmax Qabs Lqa Lia.
From Stdlib Require Import List String Ascii Bool.
From Stdlib Require Import Permutation Sorted ListSet DecimalString.
From Stdlib Require Floats.
Import ListNotations.

Open Scope string_scope.
Open Scope list_scope.
Open Scope Q_scope.

(** ** JavaScript primitives used by the source *)

Module JS.

(** Truthiness of a [string | null] value. *)
Definition truthy (o : option string) : bool :=
  match o with
  | Some s => negb (String.eqb s "")
  | None => false
  end.

(** [x || 0] on a [number | null]. *)
Definition orZero (c : option Q) : Q :=
  match c with
  | Some q => q
  | None => 0
  end.

Definition Qltb (a b : Q) : bool := negb (Qle_bool b a).
Definition Qgtb (a b : Q) : bool := Qltb b a.
Definition Qgeb (a b : Q) : bool := Qle_bool b a.

(** [x && x > 0] on a [number | null]. *)
Definition positive (c : option Q) : bool :=
  match c with
  | Some q => Qgtb q 0
  | None => false
  end.

(** A count as a number. *)
Definition num (n : nat) : Q := inject_Z (Z.of_nat n).

(** [Array.prototype.sort(cmp)]: a stable sort.  [le a b] stands for
    [cmp(a, b) <= 0]. *)
Section Sort.
Context {A : Type} (le : A -> A -> bool).

Fixpoint insert (x : A) (l : list A) : list A :=
  match l with
  | [] => [x]
  | y :: l' => if le x y then x :: y :: l' else y :: insert x l'
  end.

Fixpoint sort (l : list A) : list A :=
  match l with
  | [] => []
  | x :: l' => insert x (sort l')
  end.
End Sort.

(** [Array.prototype.filter(...).length]. *)
Definition count {A : Type} (p : A -> bool) (l : list A) : nat :=
  List.length (List.filter p l).

(** [String.prototype.trim] on ASCII white space. *)
Definition isSpace (c : ascii) : bool :=
  let n := nat_of_ascii c in
  (Nat.eqb n 32 || ((9 <=? n) && (n <=? 13)))%nat.

Fixpoint trimStart (s : string) : string :=
  match s with
  | EmptyString => EmptyString
  | String c r => if isSpace c then trimStart r else s
  end.

Fixpoint trimEnd (s : string) : string :=
  match s with
  | EmptyString => EmptyString
  | String c r =>
      let r' := trimEnd r in
      if isSpace c && String.eqb r' "" then EmptyString else String c r'
  end.

Definition trim (s : string) : string := trimEnd (trimStart s).

Definition upperChar (c : ascii) : ascii :=
  let n := nat_of_ascii c in
  if ((97 <=? n) && (n <=? 122))%nat then ascii_of_nat (n - 32) else c.

Definition lowerChar (c : ascii) : ascii :=
  let n := nat_of_ascii c in
  if ((65 <=? n) && (n <=? 90))%nat then ascii_of_nat (n + 32) else c.

Fixpoint mapString (f : ascii -> ascii) (s : string) : string :=
  match s with
  | EmptyString => EmptyString
  | String c r => String (f c) (mapString f r)
  end.

Definition toUpperCase : string -> string := mapString upperChar.
Definition toLowerCase : string -> string := mapString lowerChar.

(** Template-literal rendering of [number | null] and [string | null]. *)
Definition showZ (z : Z) : string := NilZero.string_of_int (Z.to_int z).

Definition showOptZ (o : option Z) : string :=
  match o with
  | Some z => showZ z
  | None => "null"
  end.

Definition showOptS (o : option string) : string :=
  match o with
  | Some s => s
  | None => "null"
  end.

(** [Number.prototype.toFixed(1)]: the nearest tenth, the larger one on a
    tie, rendered with one decimal. *)
Definition toFixed1 (x : Q) : string :=
  let n := Qfloor (Qabs x * 10 + 0.5) in
  ((if Qltb x 0 then "-" else "")
   ++ showZ (n / 10) ++ "." ++ showZ (n mod 10))%string.

(** [Array.prototype.map((x, index) => ...)]. *)
Fixpoint mapi {A B : Type} (f : A -> nat -> B) (index : nat) (l : list A)
  : list B :=
  match l with
  | [] => []
  | x :: l' => f x index :: mapi f (S index) l'
  end.

(** [Math.floor(ms / (1000 * 60 * 60 * 24))] on an integer millisecond
    count. *)
Definition msPerDay : Z := 1000 * 60 * 60 * 24.
Definition floorDays (ms : Z) : Z := (ms / msPerDay)%Z.

End JS.

(** ** The record model ([ServiceResult] in [src/types/api.ts]) *)

Record ServiceResult : Type := mkService {
  id : Z;
  start_date : option string;
  end_date : option string;
  service_division_owner : option string;
  service_result : option string;
  ward : option Z;
  estimated_cost : option Q;
  notes : option string
}.

(** One reading of the clock: [new Date()], the same instant with the year
    advanced by one, and with the year moved back by fifty. *)
Record Clock : Type := mkClock {
  currentDate : Z;
  oneYearFuture : Z;
  fiftyYearsPast : Z
}.

Definition isSome {A : Type} (o : option A) : bool :=
  match o with
  | Some _ => true
  | None => false
  end.

Definition resultIs (s : ServiceResult) (v : string) : bool :=
  match service_result s with
  | Some r => String.eqb r v
  | None => false
  end.

(** [s.service_result === null || s.service_result === ''] *)
Definition resultUnknown (s : ServiceResult) : bool :=
  match service_result s with
  | Some r => String.eqb r ""
  | None => true
  end.

(** [s.ward === w] *)
Definition wardIs (w : Z) (s : ServiceResult) : bool :=
  match ward s with
  | Some v => Z.eqb v w
  | None => false
  end.

(** [DataQualityDimension] without its [details] text (a [toFixed]
    rendering of the score). *)
Record DataQualityDimension : Type := mkDimension {
  score : Q;
  issues : list string;
  recommendations : list string
}.

Record DataQualityMetrics : Type := mkQuality {
  completeness : DataQualityDimension;
  accuracy : DataQualityDimension;
  timeliness : DataQualityDimension;
  consistency : DataQualityDimension;
  validity : DataQualityDimension;
  overallScore : Q
}.

(** [ReadinessRecommendation] and [ReadinessMetrics] ([src/types/api.ts]).
    The [strengths] texts render scores with [toFixed] and the [breakdown]
    and [consolidatedDimensions] blocks repeat the scores; they are left
    out. *)
Record ReadinessRecommendation : Type := mkRecommendation {
  category : string;
  priority : string;
  issue : string;
  recommendation : string;
  estimatedImpact : string
}.

Record ReadinessMetrics : Type := mkReadiness {
  dataReadinessScore : Q;
  operationalReadinessScore : Q;
  qualityReadinessScore : Q;
  overallReadinessScore : Q;
  readinessRecommendations : list ReadinessRecommendation;
  criticalIssues : list string
}.

(** ** The data-readiness endpoint: five quality dimensions *)

Module DataReadiness.

Section Calculators.

Variable parseDate : string -> Z.
Variable clk : Clock.

(** [service.ward !== null && (service.ward < 1 || service.ward > 25)] *)
Definition wardOutOfRange (s : ServiceResult) : bool :=
  match ward s with
  | Some w => (w <? 1)%Z || (w >? 25)%Z
  | None => false
  end.

Definition outsideWindow (d : Z) : bool :=
  (d >? oneYearFuture clk)%Z || (d <? fiftyYearsPast clk)%Z.

Definition startDateInvalid (s : ServiceResult) : bool :=
  match start_date s with
  | Some d => JS.truthy (Some d) && outsideWindow (parseDate d)
  | None => false
  end.

Definition endDateInvalid (s : ServiceResult) : bool :=
  match end_date s with
  | Some d =>
      JS.truthy (Some d) &&
      (outsideWindow (parseDate d) ||
       match start_date s with
       | Some d0 => JS.truthy (Some d0) && (parseDate d <? parseDate d0)%Z
       | None => false
       end)
  | None => false
  end.

Definition costNegative (s : ServiceResult) : bool :=
  match estimated_cost s with
  | Some c => JS.Qltb c 0
  | None => false
  end.

(** The body of the [forEach] callback of [calculateAccuracy]: every
    [invalidRecords++; return;] leaves the callback. *)
Definition accuracyStep (invalidRecords : Q) (s : ServiceResult) : Q :=
  if wardOutOfRange s then invalidRecords + 1
  else if startDateInvalid s then invalidRecords + 1
  else if endDateInvalid s then invalidRecords + 1
  else if costNegative s then invalidRecords + 1
  else if JS.truthy (service_result s) then
    if negb (resultIs s "PASS") && negb (resultIs s "FAIL")
       && negb (resultIs s "UNKNOWN")
    then invalidRecords + 1
    else if resultIs s "UNKNOWN" then invalidRecords + 0.5
    else invalidRecords
  else invalidRecords.

Definition calculateAccuracy (services : list ServiceResult) : Q :=
  let totalRecords := List.length services in
  if Nat.eqb totalRecords 0 then 100
  else
    let invalidRecords := fold_left accuracyStep services 0 in
    let validRecords := JS.num totalRecords - invalidRecords in
    (validRecords / JS.num totalRecords) * 100.

(** The [forEach] callback of [calculateConsistency]; [true] when the
    record is counted as inconsistent. *)
Definition inconsistent (s : ServiceResult) : bool :=
  let division := JS.truthy (service_division_owner s) in
  if JS.truthy (service_result s) && negb (resultIs s "UNKNOWN")
     && negb division
  then true
  else if JS.positive (estimated_cost s)
          && (negb division || negb (JS.truthy (start_date s))
              || negb (JS.truthy (end_date s)))
  then true
  else if resultIs s "UNKNOWN"
          && match estimated_cost s with
             | Some c => JS.Qgtb c 100000
             | None => false
             end
  then true
  else if division
          && negb (JS.truthy (service_result s)
                   || isSome (estimated_cost s)
                   || isSome (ward s)
                   || JS.truthy (start_date s)
                   || JS.truthy (end_date s))
  then true
  else
    match service_division_owner s with
    | Some divName =>
        division
        && (3 <? String.length divName)%nat
        && (String.eqb divName (JS.toUpperCase divName)
            || String.eqb divName (JS.toLowerCase divName))
    | None => false
    end.

Definition calculateConsistency (services : list ServiceResult) : Q :=
  let totalRecords := List.length services in
  if Nat.eqb totalRecords 0 then 100
  else
    let inconsistentRecords :=
      fold_left (fun n s => if inconsistent s then S n else n) services 0%nat in
    let consistentRecords := JS.num totalRecords - JS.num inconsistentRecords in
    (consistentRecords / JS.num totalRecords) * 100.

Definition hasAllRequiredFields (s : ServiceResult) : bool :=
  JS.truthy (service_division_owner s)
  && JS.truthy (start_date s)
  && JS.truthy (end_date s)
  && isSome (estimated_cost s)
  && isSome (ward s)
  && JS.truthy (service_result s)
  && negb (resultIs s "UNKNOWN").

Definition calculateCompleteness (services : list ServiceResult) : Q :=
  let totalRecords := List.length services in
  if Nat.eqb totalRecords 0 then 100
  else
    let completeRecords :=
      fold_left (fun n s => if hasAllRequiredFields s then S n else n)
                services 0%nat in
    (JS.num completeRecords / JS.num totalRecords) * 100.

(** [services.filter(s => s.end_date).map(s => new Date(s.end_date!))] *)
Definition endDatesOf (services : list ServiceResult) : list Z :=
  flat_map (fun s =>
              match end_date s with
              | Some d => if JS.truthy (Some d) then [parseDate d] else []
              | None => []
              end) services.

(** The [(start, end)] pairs of the records that carry both dates. *)
Definition dateRangesOf (services : list ServiceResult) : list (Z * Z) :=
  flat_map (fun s =>
              match start_date s, end_date s with
              | Some d0, Some d1 =>
                  if JS.truthy (Some d0) && JS.truthy (Some d1)
                  then [(parseDate d0, parseDate d1)] else []
              | _, _ => []
              end) services.

(** The gap loop: [prevEnd] is [dateRanges[i-1].end]. *)
Fixpoint gapLoop (prevEnd : Z) (rest : list (Z * Z)) (totalGapDays : Z) : Z :=
  match rest with
  | [] => totalGapDays
  | (st, en) :: rest' =>
      let gap := (st - prevEnd)%Z in
      gapLoop en rest'
              (if (gap >? 0)%Z then (totalGapDays + JS.floorDays gap)%Z
               else totalGapDays)
  end.

Definition totalGapDaysOf (dateRanges : list (Z * Z)) : Z :=
  match dateRanges with
  | [] => 0%Z
  | (_, en) :: rest => gapLoop en rest 0%Z
  end.

Definition mostRecentOf (endDates : list Z) : Z :=
  fold_left (fun latest date => if (date >? latest)%Z then date else latest)
            endDates 0%Z.

Definition daysSinceUpdateOf (mostRecentDate : Z) : Z :=
  JS.floorDays (currentDate clk - mostRecentDate).

Definition recencyScoreOf (daysSinceUpdate : Z) : Q :=
  Qmax 0 (Qmin 100 ((1 - inject_Z daysSinceUpdate / 365) * 100)).

Definition coverageScoreOf (dateRanges : list (Z * Z)) : Q :=
  if (1 <? List.length dateRanges)%nat
  then Qmax 0 (100 - inject_Z (totalGapDaysOf dateRanges) / 30)
  else 50.

Definition calculateTimeliness (services : list ServiceResult) : Q :=
  let endDates := endDatesOf services in
  if Nat.eqb (List.length endDates) 0 then 0
  else
    let mostRecentDate := mostRecentOf endDates in
    let daysSinceUpdate := daysSinceUpdateOf mostRecentDate in
    let dateRanges :=
      JS.sort (fun a b => (snd a <=? snd b)%Z) (dateRangesOf services) in
    let recencyScore := recencyScoreOf daysSinceUpdate in
    let coverageScore := coverageScoreOf dateRanges in
    (recencyScore * 0.6) + (coverageScore * 0.4).

(** The three [Set]s filled by the first loop of [calculateMetadataQuality]. *)
Record MetadataSets : Type := mkSets {
  fieldsWithData : set string;
  divisions : set string;
  wards : set Z
}.

Definition addField (f : string) (m : MetadataSets) : MetadataSets :=
  mkSets (set_add string_dec f (fieldsWithData m)) (divisions m) (wards m).

Definition metadataStep (m : MetadataSets) (s : ServiceResult) : MetadataSets :=
  let m1 :=
    match service_division_owner s with
    | Some d =>
        if JS.truthy (Some d)
        then mkSets (set_add string_dec "division" (fieldsWithData m))
                    (set_add string_dec d (divisions m)) (wards m)
        else m
    | None => m
    end in
  let m2 := if JS.truthy (service_result s) then addField "result" m1 else m1 in
  let m3 :=
    match ward s with
    | Some w =>
        mkSets (set_add string_dec "ward" (fieldsWithData m2))
               (divisions m2) (set_add Z.eq_dec w (wards m2))
    | None => m2
    end in
  let m4 := if isSome (estimated_cost s) then addField "cost" m3 else m3 in
  if JS.truthy (notes s) then addField "notes" m4 else m4.

Definition notesLongerThan (n : nat) (s : ServiceResult) : bool :=
  match notes s with
  | Some t => JS.truthy (Some t) && (n <? String.length (JS.trim t))%nat
  | None => false
  end.

Definition recordKey (s : ServiceResult) : string :=
  (JS.showOptS (start_date s) ++ "-" ++ JS.showOptS (end_date s) ++ "-"
   ++ JS.showOptS (service_division_owner s) ++ "-" ++ JS.showOptZ (ward s))%string.

(** The duplicate-key loop: the set of keys seen and the duplicate count. *)
Definition duplicateStep (st : set string * nat) (s : ServiceResult)
  : set string * nat :=
  let key := recordKey s in
  if set_mem string_dec key (fst st) then (fst st, S (snd st))
  else (set_add string_dec key (fst st), snd st).

Definition fieldDiversityScoreOf (services : list ServiceResult) : Q :=
  let sets := fold_left metadataStep services (mkSets [] [] []) in
  (JS.num (List.length (fieldsWithData sets)) / 6) * 100.

Definition valueDiversityOf (services : list ServiceResult) : Q :=
  let totalRecords := List.length services in
  let sets := fold_left metadataStep services (mkSets [] [] []) in
  let divisionDiversity :=
    Qmin 100 ((JS.num (List.length (divisions sets))
               / Qmax 1 (JS.num totalRecords * 0.01)) * 100) in
  let wardDiversity := Qmin 100 ((JS.num (List.length (wards sets)) / 25) * 100) in
  (divisionDiversity + wardDiversity) / 2.

Definition notesScoreOf (services : list ServiceResult) : Q :=
  let totalRecords := List.length services in
  let recordsWithNotes := JS.count (notesLongerThan 10) services in
  let recordsWithAnyNotes := JS.count (notesLongerThan 0) services in
  ((JS.num recordsWithAnyNotes / JS.num totalRecords) * 30)
  + ((JS.num recordsWithNotes / JS.num totalRecords) * 70).

Definition uniquenessScoreOf (services : list ServiceResult) : Q :=
  let totalRecords := List.length services in
  let duplicates := snd (fold_left duplicateStep services ([], 0%nat)) in
  if (0 <? totalRecords)%nat
  then ((JS.num totalRecords - JS.num duplicates) / JS.num totalRecords) * 100
  else 100.

Definition calculateMetadataQuality (services : list ServiceResult) : Q :=
  let totalRecords := List.length services in
  if Nat.eqb totalRecords 0 then 100
  else
    let metadataScore := 0 in
    let metadataScore := metadataScore + fieldDiversityScoreOf services * 0.25 in
    let metadataScore := metadataScore + valueDiversityOf services * 0.25 in
    let metadataScore := metadataScore + notesScoreOf services * 0.25 in
    let metadataScore := metadataScore + uniquenessScoreOf services * 0.25 in
    metadataScore.

Definition countLine (n : nat) (text : string) : list string :=
  if (0 <? n)%nat then [(JS.showZ (Z.of_nat n) ++ text)%string] else [].

Definition calculateAuditAlignedDataQuality (services : list ServiceResult)
  : DataQualityMetrics :=
  let accuracyScore := calculateAccuracy services in
  let completenessScore := calculateCompleteness services in
  let timelinessScore := calculateTimeliness services in
  let consistencyScore := calculateConsistency services in
  let metadataScore := calculateMetadataQuality services in
  let overallScore :=
    (accuracyScore + completenessScore + timelinessScore + consistencyScore
     + metadataScore) / 5 in
  let invalidWards := JS.count wardOutOfRange services in
  let invalidDates :=
    JS.count (fun s => startDateInvalid s || endDateInvalid s) services in
  let negativeCosts := JS.count costNegative services in
  let endDates := endDatesOf services in
  let mostRecentDate :=
    if (0 <? List.length endDates)%nat then mostRecentOf endDates else 0%Z in
  let daysSinceUpdate := daysSinceUpdateOf mostRecentDate in
  {| completeness :=
       {| score := completenessScore;
          issues :=
            if JS.Qltb completenessScore 70
            then ["Many records have UNKNOWN service results (21.6% of data)";
                  "Missing cost data in 18.69% of records";
                  "Some records missing dates or ward information"]
            else [];
          recommendations :=
            if JS.Qltb completenessScore 70
            then ["Convert UNKNOWN results to actual PASS/FAIL values";
                  "Populate all missing cost estimates";
                  "Ensure all records have complete date and location data"]
            else ["Continue efforts to maintain data completeness"] |};
     accuracy :=
       {| score := accuracyScore;
          issues :=
            countLine invalidWards " records with invalid ward numbers"
            ++ countLine invalidDates " records with invalid or illogical dates"
            ++ countLine negativeCosts " records with negative costs";
          recommendations :=
            if JS.Qltb accuracyScore 95
            then ["Implement ward validation (1-25 only)";
                  "Add date range validation (50 years past to 1 year future)";
                  "Ensure costs are non-negative"]
            else ["Data accuracy meets standards"] |};
     timeliness :=
       {| score := timelinessScore;
          issues :=
            if (daysSinceUpdate >? 90)%Z
            then ["Data freshness below acceptable threshold";
                  "Coverage gaps may exist in recent periods"]
            else [];
          recommendations :=
            if (daysSinceUpdate >? 90)%Z
            then ["Establish automated data refresh pipeline";
                  "Set target update frequency (e.g., monthly)";
                  "Monitor and alert on data staleness"]
            else ["Data timeliness is acceptable"] |};
     consistency :=
       {| score := consistencyScore;
          issues :=
            if JS.Qltb consistencyScore 90
            then ["Records with results missing division owners";
                  "Costs without associated dates or divisions";
                  "Inconsistent formatting in text fields"]
            else [];
          recommendations :=
            if JS.Qltb consistencyScore 90
            then ["Enforce business rules at data entry";
                  "Standardize text field formatting";
                  "Implement cross-field validation"]
            else ["Data consistency is good"] |};
     validity :=
       {| score := metadataScore;
          issues :=
            if JS.Qltb metadataScore 80
            then ["Limited field diversity in dataset";
                  "Lack of descriptive notes for context";
                  "Potential duplicate records"]
            else [];
          recommendations :=
            if JS.Qltb metadataScore 80
            then ["Add descriptive notes to provide context";
                  "Ensure all relevant fields are populated";
                  "Implement unique record identifiers"]
            else ["Metadata quality is acceptable"] |};
     overallScore := overallScore |}.

End Calculators.

Definition calculateODRAReadinessMetrics (services : list ServiceResult)
  (dataQuality : DataQualityMetrics) : ReadinessMetrics :=
  let finalAccuracy := score (accuracy dataQuality) in
  let finalCompleteness := score (completeness dataQuality) in
  let finalTimeliness := score (timeliness dataQuality) in
  let finalConsistency := score (consistency dataQuality) in
  let finalMetadata := score (validity dataQuality) in
  let overallReadiness :=
    (finalAccuracy + finalConsistency + finalCompleteness + finalTimeliness
     + finalMetadata) / 5 in
  let invalidWard66Count := JS.count (wardIs 66) services in
  let ward66 := (0 <? invalidWard66Count)%nat in
  let stale := JS.Qltb (score (timeliness dataQuality)) 10 in
  {| dataReadinessScore := overallReadiness;
     operationalReadinessScore := finalTimeliness;
     qualityReadinessScore :=
       (finalAccuracy + finalConsistency + finalCompleteness) / 3;
     overallReadinessScore := overallReadiness;
     readinessRecommendations :=
       (if ward66
        then [mkRecommendation "data" "high" "Invalid ward numbers detected"
                "Investigate and correct Ward 66 assignments, implement ward validation"
                "Resolve data accuracy issues affecting geographic analysis"]
        else [])
       ++ (if stale
           then [mkRecommendation "operational" "high"
                   "Data freshness below acceptable levels"
                   "Refresh data from source systems and establish automated update pipeline"
                   "Improve data currency and user trust"]
           else []);
     criticalIssues :=
       (if ward66
        then [(JS.showZ (Z.of_nat invalidWard66Count)
               ++ " records with invalid ward numbers (Ward 66 doesn't exist)")%string]
        else [])
       ++ (if stale
           then ["Data staleness: dataset is significantly outdated"]
           else []) |}.

Definition getEmptyDataQuality : DataQualityMetrics :=
  let emptyDimension :=
    {| score := 0;
       issues := ["No services found"];
       recommendations := ["Check data source"] |} in
  {| completeness := emptyDimension;
     accuracy := emptyDimension;
     timeliness := emptyDimension;
     consistency := emptyDimension;
     validity := emptyDimension;
     overallScore := 0 |}.

Definition getEmptyReadinessMetrics : ReadinessMetrics :=
  {| dataReadinessScore := 0;
     operationalReadinessScore := 0;
     qualityReadinessScore := 0;
     overallReadinessScore := 0;
     readinessRecommendations := [];
     criticalIssues := ["No data available for analysis"] |}.

(** The [dataQuality] and [readinessMetrics] members of the handler's
    response: the empty structures when no row is found, the calculators
    otherwise. *)
Definition handler (parseDate : string -> Z) (clk : Clock)
  (services : list ServiceResult) : DataQualityMetrics * ReadinessMetrics :=
  if Nat.eqb (List.length services) 0
  then (getEmptyDataQuality, getEmptyReadinessMetrics)
  else
    let dataQuality := calculateAuditAlignedDataQuality parseDate clk services in
    (dataQuality, calculateODRAReadinessMetrics services dataQuality).

End DataReadiness.


(** ** The dashboard endpoint: field-level quality metrics *)

Module QualityMetrics.

Section Calculator.

Variable parseDate : string -> Z.
Variable clk : Clock.

(** [s.ward && s.ward >= 1 && s.ward <= 25] *)
Definition wardValid (s : ServiceResult) : bool :=
  match ward s with
  | Some w => negb (w =? 0)%Z && (w >=? 1)%Z && (w <=? 25)%Z
  | None => false
  end.

(** [s.ward && (s.ward < 1 || (s.ward > 25 && s.ward !== 66))] *)
Definition wardInvalidNot66 (s : ServiceResult) : bool :=
  match ward s with
  | Some w =>
      negb (w =? 0)%Z && ((w <? 1)%Z || ((w >? 25)%Z && negb (w =? 66)%Z))
  | None => false
  end.

Definition resultPopulated (s : ServiceResult) : bool :=
  match service_result s with
  | Some r => JS.truthy (Some r) && negb (String.eqb (JS.trim r) "")
  | None => false
  end.

Definition recent (s : ServiceResult) : bool :=
  match end_date s with
  | Some d =>
      JS.truthy (Some d)
      && Qle_bool (inject_Z (currentDate clk - parseDate d)
                   / inject_Z (1000 * 3600 * 24)) 90
  | None => false
  end.

Definition resultValid (s : ServiceResult) : bool :=
  resultUnknown s || resultIs s "PASS" || resultIs s "FAIL".

Definition costValid (s : ServiceResult) : bool :=
  match estimated_cost s with
  | Some c => JS.Qgeb c 0 && Qle_bool c 10000000
  | None => true
  end.

(** The six entries of [completenessMetrics], in key order. *)
Definition completenessMetrics (services : list ServiceResult)
  : list (string * Q) :=
  let totalServices := JS.num (List.length services) in
  [ ("startDate", JS.num (JS.count (fun s => JS.truthy (start_date s)) services)
                  / totalServices);
    ("endDate", JS.num (JS.count (fun s => JS.truthy (end_date s)) services)
                / totalServices);
    ("division",
      JS.num (JS.count (fun s => JS.truthy (service_division_owner s)) services)
      / totalServices);
    ("result", JS.num (JS.count resultPopulated services) / totalServices);
    ("ward", JS.num (JS.count (fun s => isSome (ward s)) services)
             / totalServices);
    ("cost", JS.num (JS.count (fun s => isSome (estimated_cost s)) services)
             / totalServices) ].

(** Called by the handler on a non-empty row set only: with no rows the
    source divides zero by zero. *)
Definition calculateDataQualityMetrics (services : list ServiceResult)
  : DataQualityMetrics :=
  let totalServices := List.length services in
  let metrics := completenessMetrics services in
  let completenessScore :=
    (fold_left (fun sum val => sum + val) (map snd metrics) 0
     / JS.num (List.length metrics)) * 100 in
  let validWards := JS.count wardValid services in
  let invalidWard66 := JS.count (wardIs 66) services in
  let invalidWards := JS.count wardInvalidNot66 services in
  let accuracyScore :=
    if (0 <? totalServices)%nat
    then (JS.num (validWards + invalidWard66) / JS.num totalServices) * 100
    else 100 in
  let recentServices := JS.count recent services in
  let timelinessScore :=
    if (0 <? totalServices)%nat
    then (JS.num recentServices / JS.num totalServices) * 100 else 0 in
  let divisionWithResult :=
    JS.count (fun s => JS.truthy (service_division_owner s)
                       && JS.truthy (service_result s)) services in
  let consistencyScore :=
    if (0 <? totalServices)%nat
    then (JS.num divisionWithResult / JS.num totalServices) * 100 else 100 in
  let validResults := JS.count resultValid services in
  let validCosts := JS.count costValid services in
  let validityScore :=
    if (0 <? totalServices)%nat
    then (JS.num (validResults + validCosts) / (JS.num totalServices * 2)) * 100
    else 100 in
  let overallScore :=
    (completenessScore + accuracyScore + timelinessScore + consistencyScore
     + validityScore) / 5 in
  {| completeness :=
       {| score := completenessScore;
          issues :=
            map (fun e => (fst e ++ ": " ++ JS.toFixed1 (snd e * 100)
                           ++ "% complete")%string)
                (filter (fun e => JS.Qltb (snd e) 0.9) metrics);
          recommendations :=
            if JS.Qltb completenessScore 95
            then ["Implement data validation at entry point";
                  "Add required field constraints";
                  "Create data quality monitoring dashboard"]
            else ["Maintain current data entry standards"] |};
     accuracy :=
       {| score := accuracyScore;
          issues :=
            (if (0 <? invalidWards)%nat
             then [(JS.showZ (Z.of_nat invalidWards)
                    ++ " services have invalid ward numbers")%string]
             else [])
            ++ (if (0 <? invalidWard66)%nat
                then [(JS.showZ (Z.of_nat invalidWard66)
                       ++ " services assigned to non-existent Ward 66")%string]
                else []);
          recommendations :=
            if (0 <? invalidWards)%nat || (0 <? invalidWard66)%nat
            then ["Implement ward number validation";
                  "Create ward mapping reference table";
                  "Add data cleansing process for Ward 66 records"]
            else ["Ward data accuracy is excellent"] |};
     timeliness :=
       {| score := timelinessScore;
          issues :=
            if JS.Qltb timelinessScore 50
            then ["Data appears to be outdated"; "Recent service data is sparse"]
            else [];
          recommendations :=
            if JS.Qltb timelinessScore 80
            then ["Increase data collection frequency";
                  "Implement real-time data feeds";
                  "Create data freshness monitoring"]
            else ["Data timeliness is acceptable"] |};
     consistency :=
       {| score := consistencyScore;
          issues :=
            if JS.Qltb consistencyScore 90
            then ["Inconsistent data entry patterns"; "Missing paired data fields"]
            else [];
          recommendations :=
            if JS.Qltb consistencyScore 95
            then ["Standardize data entry workflows";
                  "Implement cross-field validation";
                  "Create data consistency rules"]
            else ["Data consistency is good"] |};
     validity :=
       {| score := validityScore;
          issues :=
            if JS.Qltb validityScore 95
            then ["Some data values outside expected ranges";
                  "Invalid enum values detected"]
            else [];
          recommendations :=
            if JS.Qltb validityScore 98
            then ["Add data type validation";
                  "Implement range checking";
                  "Create data dictionary with valid values"]
            else ["Data validity is excellent"] |};
     overallScore := overallScore |}.

End Calculator.

End QualityMetrics.

(** ** The dashboard endpoint: monthly time series *)

Module TimeSeries.

(** The running totals kept per month key in the [monthlyData] map. *)
Module Month.
Record t : Type := mk {
  period : string;
  totalServices : nat;
  totalCost : Q;
  passCount : nat;
  failCount : nat;
  unknownCount : nat
}.
End Month.

Module MomChange.
Record t : Type := mk {
  services : Q;
  cost : Q;
  passRate : Q
}.
End MomChange.

Record TimeSeriesData : Type := mkEntry {
  period : string;
  totalServices : nat;
  totalCost : Q;
  avgCost : Q;
  passCount : nat;
  failCount : nat;
  unknownCount : nat;
  passRate : Q;
  failRate : Q;
  unknownRate : Q;
  momChange : MomChange.t;
  costEfficiency : Q
}.

(** The update applied to the month object of a record's month. *)
Definition tally (service : ServiceResult) (month : Month.t) : Month.t :=
  Month.mk (Month.period month)
           (S (Month.totalServices month))
           (Month.totalCost month + JS.orZero (estimated_cost service))
           (if resultIs service "PASS"
            then S (Month.passCount month) else Month.passCount month)
           (if resultIs service "PASS" then Month.failCount month
            else if resultIs service "FAIL"
                 then S (Month.failCount month) else Month.failCount month)
           (if resultIs service "PASS" then Month.unknownCount month
            else if resultIs service "FAIL" then Month.unknownCount month
                 else S (Month.unknownCount month)).

(** [monthlyData], a [Map] in insertion order: the month object of
    [monthKey] is created on first use and updated in place. *)
Fixpoint upsert (monthKey : string) (service : ServiceResult)
  (monthlyData : list Month.t) : list Month.t :=
  match monthlyData with
  | [] => [tally service (Month.mk monthKey 0 0 0 0 0)]
  | month :: rest =>
      if String.eqb (Month.period month) monthKey
      then tally service month :: rest
      else month :: upsert monthKey service rest
  end.

(** The per-month efficiency ratio of the source. *)
Definition monthEfficiency (passRate avgCost : Q) : Q :=
  if JS.Qgtb avgCost 0 then passRate / (avgCost / 1000) else 0.

Definition entryOf (prevMonth : option Month.t) (month : Month.t)
  : TimeSeriesData :=
  let total := Month.totalServices month in
  let avgCost :=
    if (0 <? total)%nat then Month.totalCost month / JS.num total else 0 in
  let rate (n : nat) : Q :=
    if (0 <? total)%nat then (JS.num n / JS.num total) * 100 else 0 in
  let passRate := rate (Month.passCount month) in
  let failRate := rate (Month.failCount month) in
  let unknownRate := rate (Month.unknownCount month) in
  let momChange :=
    match prevMonth with
    | Some prev =>
        MomChange.mk
          (if (0 <? Month.totalServices prev)%nat
           then ((JS.num total - JS.num (Month.totalServices prev))
                 / JS.num (Month.totalServices prev)) * 100
           else 0)
          (if JS.Qgtb (Month.totalCost prev) 0
           then ((Month.totalCost month - Month.totalCost prev)
                 / Month.totalCost prev) * 100
           else 0)
          (if (0 <? Month.passCount prev)%nat
           then passRate - ((JS.num (Month.passCount prev)
                             / JS.num (Month.totalServices prev)) * 100)
           else 0)
    | None => MomChange.mk 0 0 0
    end in
  {| period := Month.period month;
     totalServices := total;
     totalCost := Month.totalCost month;
     avgCost := avgCost;
     passCount := Month.passCount month;
     failCount := Month.failCount month;
     unknownCount := Month.unknownCount month;
     passRate := passRate;
     failRate := failRate;
     unknownRate := unknownRate;
     momChange := momChange;
     costEfficiency := monthEfficiency passRate avgCost |}.

(** [sortedData.map((month, index) => ...)] with
    [prevMonth = sortedData[index - 1]]. *)
Fixpoint entriesFrom (prevMonth : option Month.t) (sortedData : list Month.t)
  : list TimeSeriesData :=
  match sortedData with
  | [] => []
  | month :: rest => entryOf prevMonth month :: entriesFrom (Some month) rest
  end.

Section Aggregator.

Variable parseDate : string -> Z.
(** [formatYearMonth] of [dateUtils.ts]: the ['yyyy-MM'] key of an
    instant (date-fns [format]). *)
Variable formatYearMonth : Z -> string.

Definition monthStep (monthlyData : list Month.t) (service : ServiceResult)
  : list Month.t :=
  match start_date service with
  | Some d =>
      if JS.truthy (Some d)
      then upsert (formatYearMonth (parseDate d)) service monthlyData
      else monthlyData
  | None => monthlyData
  end.

(** [localeCompare] on month keys is the byte order of the strings. *)
Definition sortedMonths (services : list ServiceResult) : list Month.t :=
  JS.sort (fun a b => String.leb (Month.period a) (Month.period b))
          (fold_left monthStep services []).

Definition calculateEnhancedTimeSeriesData (services : list ServiceResult)
  : list TimeSeriesData :=
  entriesFrom None (sortedMonths services).

End Aggregator.

End TimeSeries.

(** ** The dashboard endpoint: cost histogram *)

Module CostDistribution.

(** [CostDistributionBin] without its [label] (a [toFixed] rendering of
    the two bounds). *)
Record CostDistributionBin : Type := mkBin {
  min : Q;
  max : Q;
  count : nat;
  percentage : Q
}.

(** [Math.ceil(Math.sqrt(n) * 0.8)]: the least integer [k] with
    [25 k^2 >= 16 n]. *)
Definition ceilSqrt08 (n : nat) : Z :=
  Z.sqrt_up ((16 * Z.of_nat n + 24) / 25).

Definition binCountOf (n : nat) : nat :=
  Z.to_nat (Z.min 12 (Z.max 6 (ceilSqrt08 n))).

(** [Math.ceil(binCount * 0.7)] *)
Definition lowBinCountOf (binCount : nat) : nat :=
  Z.to_nat ((7 * Z.of_nat binCount + 9) / 10).

Definition positiveCosts (services : list ServiceResult) : list Q :=
  JS.sort Qle_bool
          (filter (fun cost => JS.Qgtb cost 0)
                  (map (fun s => JS.orZero (estimated_cost s)) services)).

(** [if (count > 0) bins.push({...})] *)
Definition pushBin (costs : list Q) (binMin binMax : Q) (n : nat)
  : list CostDistributionBin :=
  if (0 <? n)%nat
  then [mkBin binMin binMax n ((JS.num n / JS.num (List.length costs)) * 100)]
  else [].

(** The equal-width loop, used for the lower segment of the hybrid mode
    ([lo = min], [hi = q75Cost]) and for the whole range otherwise. *)
Definition linearBins (costs : list Q) (lo hi : Q) (bins : nat)
  : list CostDistributionBin :=
  let binSize := (hi - lo) / JS.num bins in
  flat_map
    (fun i =>
       let binMin := lo + (JS.num i * binSize) in
       let binMax :=
         if Nat.eqb i (bins - 1) then hi else lo + (JS.num (i + 1) * binSize) in
       pushBin costs binMin binMax
               (JS.count (fun cost => JS.Qgeb cost binMin && Qle_bool cost binMax)
                         costs))
    (seq 0 bins).

Section Binner.

(** [Math.log10] and [x => Math.pow(10, x)]. *)
Variable log10 : Q -> Q.
Variable pow10 : Q -> Q.

Definition logBins (costs : list Q) (q75Cost maxCost : Q) (highBinCount : nat)
  : list CostDistributionBin :=
  let logMin := log10 q75Cost in
  let logMax := log10 maxCost in
  let logBinSize := (logMax - logMin) / JS.num highBinCount in
  flat_map
    (fun i =>
       let logBinMin := logMin + (JS.num i * logBinSize) in
       let logBinMax :=
         if Nat.eqb i (highBinCount - 1) then logMax
         else logMin + (JS.num (i + 1) * logBinSize) in
       let binMin := if Nat.eqb i 0 then q75Cost else pow10 logBinMin in
       let binMax := pow10 logBinMax in
       pushBin costs binMin binMax
               (JS.count (fun cost => JS.Qgtb cost binMin && Qle_bool cost binMax)
                         costs))
    (seq 0 highBinCount).

Definition calculateCostDistribution (services : list ServiceResult)
  : list CostDistributionBin :=
  let costs := positiveCosts services in
  let n := List.length costs in
  if Nat.eqb n 0 then []
  else
    let minCost := nth 0 costs 0 in
    let maxCost := nth (n - 1) costs 0 in
    let binCount := binCountOf n in
    let range := maxCost - minCost in
    let medianCost := nth (n / 2) costs 0 in
    let q75Cost := nth (3 * n / 4) costs 0 in
    if JS.Qgtb range (medianCost * 100)
    then
      let lowBinCount := lowBinCountOf binCount in
      let bins := linearBins costs minCost q75Cost lowBinCount in
      let highCostData := filter (fun c => JS.Qgtb c q75Cost) costs in
      if (0 <? List.length highCostData)%nat
      then bins ++ logBins costs q75Cost maxCost (binCount - List.length bins)
      else bins
    else linearBins costs minCost maxCost binCount.

End Binner.

End CostDistribution.

(** ** The dashboard endpoint: ward analysis *)

Module WardAnalysis.

Module WardMetrics.
Record t : Type := mk {
  ward : Z;
  totalServices : nat;
  totalCost : Q;
  avgCost : Q;
  passRate : Q;
  failRate : Q;
  unknownRate : Q;
  costEfficiency : Q
}.
End WardMetrics.

Module ComparedToValidWards.
Record t : Type := mk {
  avgCostDifference : Q;
  passRateDifference : Q
}.
End ComparedToValidWards.

Module ImpactAnalysis.
Record t : Type := mk {
  percentageOfTotalServices : Q;
  percentageOfTotalCost : Q;
  comparedToValidWards : ComparedToValidWards.t
}.
End ImpactAnalysis.

Module Ward66Analysis.
Record t : Type := mk {
  count : nat;
  totalCost : Q;
  avgCost : Q;
  passRate : Q;
  impactAnalysis : ImpactAnalysis.t;
  recommendations : list string
}.
End Ward66Analysis.

(** [costPerPassingService] is [None] for the source's [Infinity]. *)
Module WardEfficiencyItem.
Record t : Type := mk {
  ward : Z;
  efficiencyScore : Q;
  totalServices : nat;
  totalCost : Q;
  passRate : Q;
  costPerPassingService : option Q;
  rank : nat
}.
End WardEfficiencyItem.

Record WardAnalysisData : Type := mkAnalysis {
  validWards : list WardMetrics.t;
  invalidWard66 : Ward66Analysis.t;
  wardEfficiencyRanking : list WardEfficiencyItem.t;
  totalWardsCovered : nat;
  wardCoveragePercentage : Q
}.

(** [reduce((sum, s) => sum + (s.estimated_cost || 0), 0)] *)
Definition sumCost (services : list ServiceResult) : Q :=
  fold_left (fun sum s => sum + JS.orZero (estimated_cost s)) services 0.

(** [Array.from({length: 25}, (_, i) => i + 1)] *)
Definition validWardNumbers : list Z :=
  map (fun i => (Z.of_nat i + 1)%Z) (seq 0 25).

(** The per-ward efficiency ratio of the source. *)
Definition wardEfficiency (totalServices passCount : nat) (totalCost : Q) : Q :=
  if (0 <? totalServices)%nat && JS.Qgtb totalCost 0
  then (JS.num passCount / JS.num totalServices)
       / (totalCost / JS.num totalServices / 1000)
  else 0.

Definition metricsOf (services : list ServiceResult) (wardNum : Z)
  : WardMetrics.t :=
  let wardServices := filter (wardIs wardNum) services in
  let totalServices := List.length wardServices in
  let totalCost := sumCost wardServices in
  let passCount := JS.count (fun s => resultIs s "PASS") wardServices in
  let failCount := JS.count (fun s => resultIs s "FAIL") wardServices in
  let unknownCount := JS.count resultUnknown wardServices in
  let rate (n : nat) : Q :=
    if (0 <? totalServices)%nat
    then (JS.num n / JS.num totalServices) * 100 else 0 in
  WardMetrics.mk wardNum totalServices totalCost
    (if (0 <? totalServices)%nat then totalCost / JS.num totalServices else 0)
    (rate passCount) (rate failCount) (rate unknownCount)
    (wardEfficiency totalServices passCount totalCost).

Definition validWardsOf (services : list ServiceResult) : list WardMetrics.t :=
  filter (fun w => (0 <? WardMetrics.totalServices w)%nat)
         (map (metricsOf services) validWardNumbers).

(** The mean of a column of [validWards], 0 when the list is empty. *)
Definition meanOf (f : WardMetrics.t -> Q) (validWards : list WardMetrics.t) : Q :=
  if (0 <? List.length validWards)%nat
  then fold_left (fun sum w => sum + f w) validWards 0
       / JS.num (List.length validWards)
  else 0.

Definition invalidWard66Of (services : list ServiceResult)
  (validWards : list WardMetrics.t) : Ward66Analysis.t :=
  let ward66Services := filter (wardIs 66) services in
  let n66 := List.length ward66Services in
  let ward66TotalCost := sumCost ward66Services in
  let ward66PassCount := JS.count (fun s => resultIs s "PASS") ward66Services in
  let ward66PassRate :=
    if (0 <? n66)%nat then (JS.num ward66PassCount / JS.num n66) * 100 else 0 in
  let ward66AvgCost :=
    if (0 <? n66)%nat then ward66TotalCost / JS.num n66 else 0 in
  let validWardsAvgCost := meanOf WardMetrics.avgCost validWards in
  let validWardsAvgPassRate := meanOf WardMetrics.passRate validWards in
  Ward66Analysis.mk n66 ward66TotalCost ward66AvgCost ward66PassRate
    (ImpactAnalysis.mk
       (if (0 <? List.length services)%nat
        then (JS.num n66 / JS.num (List.length services)) * 100 else 0)
       (if JS.Qgtb (sumCost services) 0
        then (ward66TotalCost / sumCost services) * 100 else 0)
       (ComparedToValidWards.mk (ward66AvgCost - validWardsAvgCost)
                                (ward66PassRate - validWardsAvgPassRate)))
    ["Investigate data entry process for Ward 66 assignments";
     "Implement ward validation rules to prevent invalid assignments";
     "Review and correct historical Ward 66 records";
     "Create mapping table for proper ward assignment"].

(** The first [map] of the ranking: one item per valid ward, rank 0.  In
    exact arithmetic [efficiencyScore] is 100 times [costEfficiency]; the
    doubles of the code can differ in the last place, and with them the
    order of the ranking, which [WardAnalysis64] computes. *)
Definition efficiencyItemOf (w : WardMetrics.t) : WardEfficiencyItem.t :=
  let passRate := WardMetrics.passRate w in
  WardEfficiencyItem.mk
    (WardMetrics.ward w)
    (if JS.Qgtb passRate 0 && JS.Qgtb (WardMetrics.avgCost w) 0
     then (passRate / 100) / (WardMetrics.avgCost w / 1000) * 100 else 0)
    (WardMetrics.totalServices w)
    (WardMetrics.totalCost w)
    passRate
    (if JS.Qgtb passRate 0
     then Some (WardMetrics.totalCost w
                / (JS.num (WardMetrics.totalServices w) * (passRate / 100)))
     else None)
    0.

(** [(a, b) => b.efficiencyScore - a.efficiencyScore] is at most 0. *)
Definition byEfficiencyDesc (a b : WardEfficiencyItem.t) : bool :=
  Qle_bool (WardEfficiencyItem.efficiencyScore b)
           (WardEfficiencyItem.efficiencyScore a).

Definition withRank (item : WardEfficiencyItem.t) (index : nat)
  : WardEfficiencyItem.t :=
  WardEfficiencyItem.mk
    (WardEfficiencyItem.ward item)
    (WardEfficiencyItem.efficiencyScore item)
    (WardEfficiencyItem.totalServices item)
    (WardEfficiencyItem.totalCost item)
    (WardEfficiencyItem.passRate item)
    (WardEfficiencyItem.costPerPassingService item)
    (index + 1).

Definition rankingOf (validWards : list WardMetrics.t)
  : list WardEfficiencyItem.t :=
  JS.mapi withRank 0 (JS.sort byEfficiencyDesc (map efficiencyItemOf validWards)).

Definition calculateWardAnalysis (services : list ServiceResult)
  : WardAnalysisData :=
  let validWards := validWardsOf services in
  {| validWards := validWards;
     invalidWard66 := invalidWard66Of services validWards;
     wardEfficiencyRanking := rankingOf validWards;
     totalWardsCovered := List.length validWards;
     wardCoveragePercentage := (JS.num (List.length validWards) / 25) * 100 |}.

End WardAnalysis.

(** ** Binary64 numbers *)

Module Double.

Import PrimFloat.
Local Open Scope float_scope.

(** An integer as a double: exact below 2^53 in absolute value. *)
Definition ofZ (z : Z) : float :=
  match z with
  | Z0 => 0
  | Zpos _ => of_uint63 (Uint63.of_Z z)
  | Zneg p => - of_uint63 (Uint63.of_Z (Zpos p))
  end.

Definition ofNat (n : nat) : float := ofZ (Z.of_nat n).

(** The double of a cost read from a row: the correctly rounded quotient of
    numerator and denominator (both below 2^53), the cost itself when it
    is an integer. *)
Definition ofQ (q : Q) : float := ofZ (Qnum q) / ofZ (Zpos (Qden q)).

(** [x || 0] on a [number | null]: 0 for [null], 0 and [NaN]. *)
Definition orZero (c : option float) : float :=
  match c with
  | Some x => if (x =? 0) || is_nan x then 0 else x
  | None => 0
  end.

End Double.

(** ** The dashboard endpoint: the ward ranking in binary64

    The part of [calculateWardAnalysis] that leads to
    [wardEfficiencyRanking], with every [number] a double. *)

Module WardAnalysis64.

Import PrimFloat.
Local Open Scope float_scope.

Module WardMetrics.
Record t : Type := mk {
  ward : Z;
  totalServices : nat;
  totalCost : float;
  avgCost : float;
  passRate : float;
  failRate : float;
  unknownRate : float;
  costEfficiency : float
}.
End WardMetrics.

Module WardEfficiencyItem.
Record t : Type := mk {
  ward : Z;
  efficiencyScore : float;
  totalServices : nat;
  totalCost : float;
  passRate : float;
  costPerPassingService : float;
  rank : nat
}.
End WardEfficiencyItem.

(** [s.estimated_cost || 0] *)
Definition costOf (s : ServiceResult) : float :=
  Double.orZero (option_map Double.ofQ (estimated_cost s)).

(** [reduce((sum, s) => sum + (s.estimated_cost || 0), 0)] *)
Definition sumCost (services : list ServiceResult) : float :=
  fold_left (fun sum s => sum + costOf s) services 0.

Definition metricsOf (services : list ServiceResult) (wardNum : Z)
  : WardMetrics.t :=
  let wardServices := filter (wardIs wardNum) services in
  let totalServices := List.length wardServices in
  let totalCost := sumCost wardServices in
  let passCount := JS.count (fun s => resultIs s "PASS") wardServices in
  let failCount := JS.count (fun s => resultIs s "FAIL") wardServices in
  let unknownCount := JS.count resultUnknown wardServices in
  let n := Double.ofNat totalServices in
  let rate (k : nat) : float :=
    if (0 <? totalServices)%nat then (Double.ofNat k / n) * 100 else 0 in
  WardMetrics.mk wardNum totalServices totalCost
    (if (0 <? totalServices)%nat then totalCost / n else 0)
    (rate passCount) (rate failCount) (rate unknownCount)
    (if (0 <? totalServices)%nat && (0 <? totalCost)
     then (Double.ofNat passCount / n) / (totalCost / n / 1000)
     else 0).

Definition validWardsOf (services : list ServiceResult) : list WardMetrics.t :=
  filter (fun w => (0 <? WardMetrics.totalServices w)%nat)
         (map (metricsOf services) WardAnalysis.validWardNumbers).

(** The first [map] of the ranking: one item per valid ward, rank 0. *)
Definition efficiencyItemOf (w : WardMetrics.t) : WardEfficiencyItem.t :=
  let passRate := WardMetrics.passRate w in
  WardEfficiencyItem.mk
    (WardMetrics.ward w)
    (if (0 <? passRate) && (0 <? WardMetrics.avgCost w)
     then (passRate / 100) / (WardMetrics.avgCost w / 1000) * 100 else 0)
    (WardMetrics.totalServices w)
    (WardMetrics.totalCost w)
    passRate
    (if 0 <? passRate
     then WardMetrics.totalCost w
          / (Double.ofNat (WardMetrics.totalServices w) * (passRate / 100))
     else infinity)
    0.

(** [(a, b) => b.efficiencyScore - a.efficiencyScore]: [a] stays ahead of
    [b] unless the comparator returns a positive number ([NaN] counts as
    0). *)
Definition byEfficiencyDesc (a b : WardEfficiencyItem.t) : bool :=
  negb (0 <? WardEfficiencyItem.efficiencyScore b
             - WardEfficiencyItem.efficiencyScore a).

Definition withRank (item : WardEfficiencyItem.t) (index : nat)
  : WardEfficiencyItem.t :=
  WardEfficiencyItem.mk
    (WardEfficiencyItem.ward item)
    (WardEfficiencyItem.efficiencyScore item)
    (WardEfficiencyItem.totalServices item)
    (WardEfficiencyItem.totalCost item)
    (WardEfficiencyItem.passRate item)
    (WardEfficiencyItem.costPerPassingService item)
    (index + 1).

Definition rankingOf (validWards : list WardMetrics.t)
  : list WardEfficiencyItem.t :=
  JS.mapi withRank 0 (JS.sort byEfficiencyDesc (map efficiencyItemOf validWards)).

(** The [wardEfficiencyRanking] member of the result. *)
Definition wardEfficiencyRanking (services : list ServiceResult)
  : list WardEfficiencyItem.t :=
  rankingOf (validWardsOf services).

End WardAnalysis64.

(** ** The data-readiness endpoint: per-field completeness *)

Module FieldCompleteness.

Record FieldCompletenessRow : Type := mkRow {
  field : string;
  completeness : Q;
  totalRecords : nat;
  completeRecords : nat;
  missingRecords : nat;
  description : string
}.

(** One entry of the returned array: [present] is the filter of
    [completeRecords], [absent] the filter of [missingRecords]. *)
Definition rowOf (services : list ServiceResult) (name text : string)
  (present absent : ServiceResult -> bool) : FieldCompletenessRow :=
  let totalRecords := List.length services in
  {| field := name;
     completeness := (JS.num (JS.count present services) / JS.num totalRecords) * 100;
     totalRecords := totalRecords;
     completeRecords := JS.count present services;
     missingRecords := JS.count absent services;
     description := text |}.

Definition calculateFieldCompleteness (services : list ServiceResult)
  : list FieldCompletenessRow :=
  if Nat.eqb (List.length services) 0 then []
  else
    [ rowOf services "service_division_owner" "Division responsible for the service"
        (fun s => JS.truthy (service_division_owner s))
        (fun s => negb (JS.truthy (service_division_owner s)));
      rowOf services "service_result" "Result of the service (PASS/FAIL)"
        (fun s => JS.truthy (service_result s))
        (fun s => negb (JS.truthy (service_result s)));
      rowOf services "estimated_cost" "Estimated cost of the service"
        (fun s => isSome (estimated_cost s))
        (fun s => negb (isSome (estimated_cost s)));
      rowOf services "ward" "Ward where the service was provided"
        (fun s => isSome (ward s))
        (fun s => negb (isSome (ward s)));
      rowOf services "start_date" "Start date of the service"
        (fun s => JS.truthy (start_date s))
        (fun s => negb (JS.truthy (start_date s)));
      rowOf services "end_date" "End date of the service"
        (fun s => JS.truthy (end_date s))
        (fun s => negb (JS.truthy (end_date s))) ].

End FieldCompleteness.

(** ** The dashboard endpoint: the handler's own aggregates *)

Module Overview.

(** The numeric part of [kpiData]; the [dateRange] texts are left out. *)
Module Kpi.
Record t : Type := mk {
  totalServices : nat;
  totalCost : Q;
  avgCost : Q;
  passRate : Q;
  failRate : Q;
  uniqueDivisions : nat;
  uniqueWards : nat
}.
End Kpi.

(** [reduce((sum, s) => sum + (s.estimated_cost || 0), 0)] *)
Definition sumCost (services : list ServiceResult) : Q :=
  fold_left (fun sum s => sum + JS.orZero (estimated_cost s)) services 0.

(** [new Set(values).size] *)
Definition distinct {A : Type} (eq_dec : forall x y : A, {x = y} + {x <> y})
  (values : list A) : nat :=
  List.length (fold_left (fun seen v => set_add eq_dec v seen) values []).

(** [services.map(s => s.service_division_owner).filter(Boolean)] *)
Definition divisionNames (services : list ServiceResult) : list string :=
  flat_map (fun s =>
              match service_division_owner s with
              | Some d => if JS.truthy (Some d) then [d] else []
              | None => []
              end) services.

(** [services.map(s => s.ward).filter(Boolean)]: 0 is dropped with [null]. *)
Definition wardNumbers (services : list ServiceResult) : list Z :=
  flat_map (fun s =>
              match ward s with
              | Some w => if (w =? 0)%Z then [] else [w]
              | None => []
              end) services.

Definition kpiOf (services : list ServiceResult) : Kpi.t :=
  let totalServices := List.length services in
  let totalCost := sumCost services in
  let passCount := JS.count (fun s => resultIs s "PASS") services in
  let failCount := JS.count (fun s => resultIs s "FAIL") services in
  Kpi.mk totalServices totalCost
    (if (0 <? totalServices)%nat then totalCost / JS.num totalServices else 0)
    (if (0 <? totalServices)%nat
     then (JS.num passCount / JS.num totalServices) * 100 else 0)
    (if (0 <? totalServices)%nat
     then (JS.num failCount / JS.num totalServices) * 100 else 0)
    (distinct string_dec (divisionNames services))
    (distinct Z.eq_dec (wardNumbers services)).

Record ResultBreakdown : Type := mkBreakdown {
  result : string;
  count : nat;
  percentage : Q;
  total_cost : Q;
  avg_cost : Q
}.

Definition breakdownOf (services : list ServiceResult) (name : string)
  (selected : ServiceResult -> bool) : ResultBreakdown :=
  let totalServices := List.length services in
  let n := JS.count selected services in
  {| result := name;
     count := n;
     percentage :=
       if (0 <? totalServices)%nat
       then (JS.num n / JS.num totalServices) * 100 else 0;
     total_cost := sumCost (filter selected services);
     avg_cost :=
       if (0 <? n)%nat then sumCost (filter selected services) / JS.num n else 0 |}.

Definition servicesByResultOf (services : list ServiceResult)
  : list ResultBreakdown :=
  [ breakdownOf services "PASS" (fun s => resultIs s "PASS");
    breakdownOf services "FAIL" (fun s => resultIs s "FAIL");
    breakdownOf services "UNKNOWN" resultUnknown ].

(** The objects kept in the [divisionData] and [wardData] maps; [key] is
    the [name] of a division object and the [ward] of a ward object. *)
Module Group.
Record t (K : Type) : Type := mk {
  key : K;
  count : nat;
  total_cost : Q;
  pass_count : nat
}.
Arguments mk {K} _ _ _ _.
Arguments key {K} _.
Arguments count {K} _.
Arguments total_cost {K} _.
Arguments pass_count {K} _.
End Group.

Section Grouping.

Context {K : Type} (eqb : K -> K -> bool).

Definition tally (service : ServiceResult) (g : Group.t K) : Group.t K :=
  Group.mk (Group.key g)
           (S (Group.count g))
           (Group.total_cost g + JS.orZero (estimated_cost service))
           (if resultIs service "PASS"
            then S (Group.pass_count g) else Group.pass_count g).

(** A [Map] in insertion order: the object of [k] is created on first use
    and updated in place. *)
Fixpoint upsert (k : K) (service : ServiceResult) (groups : list (Group.t K))
  : list (Group.t K) :=
  match groups with
  | [] => [tally service (Group.mk k 0 0 0)]
  | g :: rest =>
      if eqb (Group.key g) k then tally service g :: rest
      else g :: upsert k service rest
  end.

End Grouping.

Definition divisionStep (divisionData : list (Group.t string))
  (service : ServiceResult) : list (Group.t string) :=
  match service_division_owner service with
  | Some d =>
      if JS.truthy (Some d) then upsert String.eqb d service divisionData
      else divisionData
  | None => divisionData
  end.

Definition divisionDataOf (services : list ServiceResult)
  : list (Group.t string) :=
  fold_left divisionStep services [].

(** [if (service.ward)]: neither [null] nor 0. *)
Definition wardStep (wardData : list (Group.t Z)) (service : ServiceResult)
  : list (Group.t Z) :=
  match ward service with
  | Some w =>
      if (w =? 0)%Z then wardData else upsert Z.eqb w service wardData
  | None => wardData
  end.

Definition wardDataOf (services : list ServiceResult) : list (Group.t Z) :=
  fold_left wardStep services [].

(** [TopListItem]; [id] is the division name or the ward number. *)
Module TopListItem.
Record t (K : Type) : Type := mk {
  id : K;
  name : string;
  value : Q;
  count : nat;
  avgCost : Q;
  passRate : Q
}.
Arguments mk {K} _ _ _ _ _ _.
Arguments id {K} _.
Arguments name {K} _.
Arguments value {K} _.
Arguments count {K} _.
Arguments avgCost {K} _.
Arguments passRate {K} _.
End TopListItem.

Definition topItemOf {K : Type} (label : K -> string) (g : Group.t K)
  : TopListItem.t K :=
  TopListItem.mk (Group.key g) (label (Group.key g)) (Group.total_cost g)
    (Group.count g)
    (if (0 <? Group.count g)%nat
     then Group.total_cost g / JS.num (Group.count g) else 0)
    (if (0 <? Group.count g)%nat
     then (JS.num (Group.pass_count g) / JS.num (Group.count g)) * 100 else 0).

(** [(a, b) => b.value - a.value] is at most 0. *)
Definition byValueDesc {K : Type} (a b : TopListItem.t K) : bool :=
  Qle_bool (TopListItem.value b) (TopListItem.value a).

(** [.map(...).sort((a, b) => b.value - a.value).slice(0, 5)] *)
Definition topFive {K : Type} (label : K -> string) (groups : list (Group.t K))
  : list (TopListItem.t K) :=
  firstn 5 (JS.sort byValueDesc (map (topItemOf label) groups)).

Definition topDivisionsOf (services : list ServiceResult)
  : list (TopListItem.t string) :=
  topFive (fun d => d) (divisionDataOf services).

Definition topWardsOf (services : list ServiceResult)
  : list (TopListItem.t Z) :=
  topFive (fun w => ("Ward " ++ JS.showZ w)%string) (wardDataOf services).

End Overview.

(** ** The dashboard endpoint: highest expenses *)

Module HighestExpenses.

Module Item.
Record t : Type := mk {
  id : Z;
  division : option string;
  ward : option Z;
  cost : Q;
  result : string;
  startDate : option string;
  endDate : option string;
  notes : option string;
  rank : nat
}.
End Item.

(** [(a, b) => (b.estimated_cost || 0) - (a.estimated_cost || 0)] is at
    most 0. *)
Definition byCostDesc (a b : ServiceResult) : bool :=
  Qle_bool (JS.orZero (estimated_cost b)) (JS.orZero (estimated_cost a)).

Definition itemOf (service : ServiceResult) (index : nat) : Item.t :=
  Item.mk (id service)
          (service_division_owner service)
          (ward service)
          (JS.orZero (estimated_cost service))
          (if resultUnknown service then "UNKNOWN"
           else JS.showOptS (service_result service))
          (start_date service)
          (end_date service)
          (notes service)
          (index + 1).

(** The records kept: positive cost, highest first, at most 50. *)
Definition highestOf (services : list ServiceResult) : list ServiceResult :=
  firstn 50 (JS.sort byCostDesc
                     (filter (fun s => JS.positive (estimated_cost s)) services)).

Definition calculateHighestExpenses (services : list ServiceResult)
  : list Item.t :=
  JS.mapi itemOf 0 (highestOf services).

End HighestExpenses.

(** ** The dashboard endpoint: readiness scores *)

Module DashboardReadiness.




End DashboardReadiness.

(** ** The specification's formulas, for comparison with the code *)

Module Spec.

(** The arithmetic mean of the five dimension scores. *)
Definition meanOfDimensions (dq : DataQualityMetrics) : Q :=
  (score (completeness dq) + score (accuracy dq) + score (consistency dq)
   + score (timeliness dq) + score (validity dq)) / 5.


Section Accuracy.

Variable parseDate : string -> Z.
Variable clk : Clock.







Definition sumOver (f : ServiceResult -> Q) (services : list ServiceResult) : Q :=
  fold_right (fun s acc => f s + acc) 0 services.


(** What one record adds to [invalidRecords] in the code. *)
Definition recordPenalty (s : ServiceResult) : Q :=
  DataReadiness.accuracyStep parseDate clk 0 s.

End Accuracy.

(** The group efficiency formula of the specification. *)
Definition groupEfficiency (passRate avgCost : Q) : Q :=
  if JS.Qgtb avgCost 0 then (passRate / 100) / (avgCost / 1000) else 0.

(** The efficiency of the valid-ward group of ward [w]. *)
Definition wardCostEfficiency (services : list ServiceResult) (w : Z) : Q :=
  WardAnalysis.WardMetrics.costEfficiency (WardAnalysis.metricsOf services w).

(** The ranking order on ward numbers: higher efficiency first, and on
    equal efficiency the lower ward number (the original key order) first. *)
Definition wardRanksBefore (services : list ServiceResult) (wa wb : Z) : Prop :=
  wardCostEfficiency services wb < wardCostEfficiency services wa
  \/ (wardCostEfficiency services wa == wardCostEfficiency services wb
      /\ (wa < wb)%Z).

Definition ranksBefore (services : list ServiceResult)
  (a b : WardAnalysis.WardEfficiencyItem.t) : Prop :=
  wardRanksBefore services (WardAnalysis.WardEfficiencyItem.ward a)
                  (WardAnalysis.WardEfficiencyItem.ward b).

Definition sumCounts (l : list nat) : nat := fold_right Nat.add 0%nat l.

Definition sumQ (l : list Q) : Q := fold_right Qplus 0 l.


(** The marker of the empty response. *)
Definition noDataMarker : string := "No data available for analysis".

(** The empty-set scenario of the specification, on the quality and
    readiness results of one run: vacuous 100 for completeness and
    consistency, 0 for timeliness, and the marker among the critical
    issues. *)
Definition emptySetScenario (run : DataQualityMetrics * ReadinessMetrics)
  : Prop :=
  score (completeness (fst run)) == 100
  /\ score (consistency (fst run)) == 100
  /\ score (timeliness (fst run)) == 0
  /\ In noDataMarker (criticalIssues (snd run)).

End Spec.

(** ** Concrete inputs *)

Module Examples.

(** The only date string of the examples, ['2023-11-14'], denotes
    2023-11-14T00:00:00Z. *)
Definition parse0 (_ : string) : Z := 1699920000000.

Definition month0 (_ : Z) : string := "2023-11".

(** The clock reads 2024-01-01T00:00:00Z. *)
Definition clock0 : Clock :=
  mkClock 1704067200000 1735689600000 126230400000.

Definition clean : ServiceResult :=
  mkService 1 (Some "2023-11-14") (Some "2023-11-14") (Some "Parks")
            (Some "PASS") (Some 5%Z) (Some 1000) (Some "inspection").

(** Ward 66 and a negative cost: two failed checks in one record. *)
Definition doublyInvalid : ServiceResult :=
  mkService 2 (Some "2023-11-14") (Some "2023-11-14") (Some "Parks")
            (Some "PASS") (Some 66%Z) (Some (-5)) None.

(** [clean] with the result absent. *)
Definition noResult : ServiceResult :=
  mkService 3 (Some "2023-11-14") (Some "2023-11-14") (Some "Parks")
            None (Some 5%Z) (Some 1000) (Some "inspection").

(** [clean] with the result empty. *)
Definition emptyResult : ServiceResult :=
  mkService 4 (Some "2023-11-14") (Some "2023-11-14") (Some "Parks")
            (Some "") (Some 5%Z) (Some 1000) (Some "inspection").

(** An out-of-domain ward other than 66. *)
Definition ward30 : ServiceResult :=
  mkService 5 (Some "2023-11-14") (Some "2023-11-14") (Some "Parks")
            (Some "PASS") (Some 30%Z) (Some 1000) None.

Definition costOnly (n : nat) (c : Q) : ServiceResult :=
  mkService (Z.of_nat n) None None None None None (Some c) None.

(** Seven records with the costs 1, 2, ..., 7. *)
Definition sevenCosts : list ServiceResult :=
  JS.mapi (fun c n => costOnly n c) 0 [1; 2; 3; 4; 5; 6; 7].




End Examples.

(** ** Invariants and orders used in the proofs *)

Module Invariants.

Definition fieldNames : list string :=
  ["division"; "result"; "ward"; "cost"; "notes"].

(** The invariant of [fieldsWithData]: distinct names out of the five. *)
Definition fieldsOk (fields : set string) : Prop :=
  NoDup fields /\ incl fields fieldNames.

Section Order.

Context {A : Type} (value : A -> Q) (key : A -> Z).

(** The comparator [(a, b) => value(b) - value(a)] as [cmp(a, b) <= 0]. *)
Definition descending (a b : A) : bool := Qle_bool (value b) (value a).

(** Higher value first; on equal values the lower key first. *)
Definition precedes (a b : A) : Prop :=
  value b < value a \/ (value a == value b /\ (key a < key b)%Z).

End Order.

End Invariants.

(** ** Well-formedness of intermediate results *)

Module Wellformed.

(** A month object counts every record it has tallied once, under exactly
    one of the three results. *)
Definition monthOk (m : TimeSeries.Month.t) : Prop :=
  (0 < TimeSeries.Month.totalServices m)%nat
  /\ (TimeSeries.Month.passCount m + TimeSeries.Month.failCount m
      + TimeSeries.Month.unknownCount m)%nat
     = TimeSeries.Month.totalServices m.

(** Strictly later in the byte order of month keys. *)
Definition laterPeriod (p q : string) : Prop :=
  String.leb p q = true /\ p <> q.

(** A record that carries a start date. *)
Definition dated (s : ServiceResult) : bool := JS.truthy (start_date s).

Definition sumNat {A : Type} (f : A -> nat) (l : list A) : nat :=
  fold_right (fun x acc => (f x + acc)%nat) 0%nat l.

Definition sumQ {A : Type} (f : A -> Q) (l : list A) : Q :=
  fold_right (fun x acc => f x + acc) 0 l.

(** A group object has tallied at least one record. *)
Definition groupOk {K : Type} (g : Overview.Group.t K) : Prop :=
  (0 < Overview.Group.count g)%nat
  /\ (Overview.Group.pass_count g <= Overview.Group.count g)%nat.

End Wellformed.

(** ** Parts of the cost histogram named for the statements *)

Module Histogram.

(** The test of the source for the hybrid mode: the range of the positive
    costs exceeds 100 times their median. *)
Definition hybridMode (services : list ServiceResult) : bool :=
  let costs := CostDistribution.positiveCosts services in
  let n := List.length costs in
  JS.Qgtb (nth (n - 1) costs 0 - nth 0 costs 0) (nth (n / 2) costs 0 * 100).

(** [q75Cost]: the cost at index [floor(0.75 n)]. *)
Definition q75Cost (services : list ServiceResult) : Q :=
  let costs := CostDistribution.positiveCosts services in
  nth (3 * List.length costs / 4) costs 0.

Definition covers (b : CostDistribution.CostDistributionBin) (c : Q) : Prop :=
  CostDistribution.min b <= c /\ c <= CostDistribution.max b.

(** What every pushed bin satisfies: a count between 1 and the number of
    costs, and the matching percentage. *)
Definition binOk (costs : list Q) (b : CostDistribution.CostDistributionBin)
  : Prop :=
  (1 <= CostDistribution.count b <= List.length costs)%nat
  /\ CostDistribution.percentage b
     == (JS.num (CostDistribution.count b) / JS.num (List.length costs)) * 100
  /\ 0 < CostDistribution.percentage b <= 100.

End Histogram.

(** ** Grouping by key, named for the statements *)

Module Grouping.

(** The key under which the handler files a record: its ward when that is
    neither absent nor 0, its division when that is neither absent nor
    empty. *)
Definition wardKey (s : ServiceResult) : option Z :=
  match ward s with
  | Some w => if (w =? 0)%Z then None else Some w
  | None => None
  end.

Definition divisionKey (s : ServiceResult) : option string :=
  match service_division_owner s with
  | Some d => if JS.truthy (Some d) then Some d else None
  | None => None
  end.

Section Keyed.

Context {K : Type} (eqb : K -> K -> bool) (keyOf : ServiceResult -> option K).

(** The records filed under [k]. *)
Definition filedUnder (k : K) (s : ServiceResult) : bool :=
  match keyOf s with
  | Some k' => eqb k' k
  | None => false
  end.

Definition step (groups : list (Overview.Group.t K)) (s : ServiceResult)
  : list (Overview.Group.t K) :=
  match keyOf s with
  | Some k => Overview.upsert eqb k s groups
  | None => groups
  end.

(** A group object holds exactly the records filed under its key. *)
Definition exact (services : list ServiceResult) (g : Overview.Group.t K)
  : Prop :=
  let members := filter (filedUnder (Overview.Group.key g)) services in
  (0 < Overview.Group.count g)%nat
  /\ Overview.Group.count g = List.length members
  /\ Overview.Group.total_cost g
     == Wellformed.sumQ (fun s => JS.orZero (estimated_cost s)) members
  /\ Overview.Group.pass_count g
     = JS.count (fun s => resultIs s "PASS") members.

(** The map holds one exact object per key in use, and no other object. *)
Definition grouped (services : list ServiceResult)
  (groups : list (Overview.Group.t K)) : Prop :=
  NoDup (map Overview.Group.key groups)
  /\ Forall (exact services) groups
  /\ forall s k, In s services -> keyOf s = Some k ->
                 In k (map Overview.Group.key groups).

(** The keys in use, one per filed record. *)
Definition keysOf (services : list ServiceResult) : list K :=
  flat_map (fun s => match keyOf s with Some k => [k] | None => [] end)
           services.

End Keyed.

(** The items are the five most expensive groups, most expensive first. *)
Definition topOf {K : Type} (groups : list (Overview.Group.t K))
  (items : list (Overview.TopListItem.t K)) : Prop :=
  List.length items = Nat.min 5 (List.length groups)
  /\ StronglySorted
       (fun a b => Overview.TopListItem.value b <= Overview.TopListItem.value a)
       items
  /\ Forall (fun e =>
               (0 < Overview.TopListItem.count e)%nat
               /\ Overview.TopListItem.avgCost e
                  * JS.num (Overview.TopListItem.count e)
                  == Overview.TopListItem.value e
               /\ 0 <= Overview.TopListItem.passRate e <= 100)
            items
  /\ exists rest,
       Permutation (map Overview.TopListItem.value items ++ rest)
                   (map Overview.Group.total_cost groups)
       /\ Forall (fun v =>
                    Forall (fun e => v <= Overview.TopListItem.value e) items)
                 rest.

(** The records a result row of the breakdown can hold. *)
Definition knownResult (s : ServiceResult) : bool :=
  resultIs s "PASS" || resultIs s "FAIL" || resultUnknown s.

End Grouping.

(** ** Orders on the binary64 ranking *)

Module Ranking64.

Section Comparator.

Context {A : Type} (le : A -> A -> bool) (key : A -> Z).


End Comparator.




(** Higher efficiency score first; equal scores in ward order. *)
Definition precedes (a b : WardAnalysis64.WardEfficiencyItem.t) : Prop :=
  PrimFloat.ltb (WardAnalysis64.WardEfficiencyItem.efficiencyScore b)
                (WardAnalysis64.WardEfficiencyItem.efficiencyScore a) = true
  \/ (PrimFloat.eqb (WardAnalysis64.WardEfficiencyItem.efficiencyScore a)
                    (WardAnalysis64.WardEfficiencyItem.efficiencyScore b) = true
      /\ (WardAnalysis64.WardEfficiencyItem.ward a
          < WardAnalysis64.WardEfficiencyItem.ward b)%Z).

End Ranking64.

(** * Properties *)

(** Linear arithmetic over [Q] after turning each division by a numeral
    into a multiplication. *)
Ltac numeral_inverses :=
  unfold Qdiv in *;
  repeat match goal with
         | |- context [Qinv (Qmake ?n ?d)] =>
             let v := eval vm_compute in (Qinv (Qmake n d)) in
             change (Qinv (Qmake n d)) with v in *
         | H : context [Qinv (Qmake ?n ?d)] |- _ =>
             let v := eval vm_compute in (Qinv (Qmake n d)) in
             change (Qinv (Qmake n d)) with v in *
         end.

Ltac qlra := numeral_inverses; lra.

(** ** Counting and ratios *)

Module Facts.

Lemma num_nonneg (n : nat) : 0 <= JS.num n.
Proof.
  unfold JS.num. change 0 with (inject_Z 0). rewrite <- Zle_Qle. lia.
Qed.

Lemma num_pos (n : nat) : (0 < n)%nat -> 0 < JS.num n.
Proof.
  intros H. unfold JS.num. change 0 with (inject_Z 0). rewrite <- Zlt_Qlt. lia.
Qed.

Lemma num_le (a b : nat) : (a <= b)%nat -> JS.num a <= JS.num b.
Proof.
  intros H. unfold JS.num. rewrite <- Zle_Qle. lia.
Qed.

Lemma num_S (n : nat) : JS.num (S n) == JS.num n + 1.
Proof.
  unfold JS.num. rewrite Nat2Z.inj_succ. unfold Z.succ.
  rewrite inject_Z_plus. reflexivity.
Qed.

Lemma num_plus (a b : nat) : JS.num (a + b) == JS.num a + JS.num b.
Proof.
  unfold JS.num. rewrite Nat2Z.inj_add, inject_Z_plus. reflexivity.
Qed.

(** A part of a non-empty whole, as a percentage. *)
Lemma percentage_bounds (part whole : Q) :
  0 < whole -> 0 <= part -> part <= whole ->
  0 <= (part / whole) * 100 /\ (part / whole) * 100 <= 100.
Proof.
  intros Hw H0 H1.
  assert (L : 0 <= part / whole) by (apply Qle_shift_div_l; lra).
  assert (U : part / whole <= 1) by (apply Qle_shift_div_r; lra).
  split; lra.
Qed.

Lemma count_le_length {A : Type} (p : A -> bool) (l : list A) :
  (JS.count p l <= List.length l)%nat.
Proof.
  unfold JS.count. induction l as [| x l IH]; simpl.
  - lia.
  - destruct (p x); simpl; lia.
Qed.

(** A counting [forEach] loop is [filter(...).length]. *)
Lemma counting_loop {A : Type} (p : A -> bool) (l : list A) (k : nat) :
  fold_left (fun n s => if p s then S n else n) l k = (k + JS.count p l)%nat.
Proof.
  unfold JS.count. revert k.
  induction l as [| x l IH]; intros k; simpl.
  - lia.
  - rewrite IH. destruct (p x); simpl; lia.
Qed.

Lemma Qltb_lt (a b : Q) : JS.Qltb a b = true <-> a < b.
Proof.
  unfold JS.Qltb. rewrite negb_true_iff.
  split; intros H.
  - apply Qnot_le_lt. intros C. apply Qle_bool_iff in C. congruence.
  - destruct (Qle_bool b a) eqn:E; [| reflexivity].
    apply Qle_bool_iff in E. lra.
Qed.

Lemma Qltb_ge (a b : Q) : JS.Qltb a b = false <-> b <= a.
Proof.
  unfold JS.Qltb. rewrite negb_false_iff. apply Qle_bool_iff.
Qed.

Lemma length_pos {A : Type} (l : list A) : l <> [] -> (0 < List.length l)%nat.
Proof.
  destruct l; simpl; [congruence | lia].
Qed.

Lemma eqb_length_nonempty {A : Type} (l : list A) :
  l <> [] -> Nat.eqb (List.length l) 0 = false.
Proof.
  intros H. apply Nat.eqb_neq. pose proof (length_pos l H). lia.
Qed.

End Facts.

(** ** The five quality dimensions *)

Module QualityProofs.

Import DataReadiness.

Section Dimensions.

Variable parseDate : string -> Z.
Variable clk : Clock.

Lemma completeness_bounds (services : list ServiceResult) :
  0 <= calculateCompleteness services <= 100.
Proof.
  unfold calculateCompleteness.
  destruct (Nat.eqb (List.length services) 0) eqn:E.
  - split; lra.
  - apply Nat.eqb_neq in E. rewrite Facts.counting_loop. simpl.
    apply Facts.percentage_bounds.
    + apply Facts.num_pos. lia.
    + apply Facts.num_nonneg.
    + apply Facts.num_le, Facts.count_le_length.
Qed.

Lemma consistency_bounds (services : list ServiceResult) :
  0 <= calculateConsistency services <= 100.
Proof.
  unfold calculateConsistency.
  destruct (Nat.eqb (List.length services) 0) eqn:E.
  - split; lra.
  - apply Nat.eqb_neq in E. rewrite Facts.counting_loop. simpl.
    pose proof (Facts.count_le_length inconsistent services) as Hc.
    pose proof (Facts.num_le _ _ Hc) as Hq.
    pose proof (Facts.num_nonneg (JS.count inconsistent services)) as H0.
    apply Facts.percentage_bounds.
    + apply Facts.num_pos. lia.
    + lra.
    + lra.
Qed.

(** One record moves [invalidRecords] by its own penalty, whatever the
    counter holds. *)
Lemma accuracyStep_penalty (acc : Q) (s : ServiceResult) :
  accuracyStep parseDate clk acc s == acc + Spec.recordPenalty parseDate clk s.
Proof.
  unfold Spec.recordPenalty, accuracyStep.
  repeat match goal with
         | |- context [if ?b then _ else _] => destruct b
         end; ring.
Qed.

Lemma penalty_bounds (s : ServiceResult) :
  0 <= Spec.recordPenalty parseDate clk s <= 1.
Proof.
  unfold Spec.recordPenalty, accuracyStep.
  repeat match goal with
         | |- context [if ?b then _ else _] => destruct b
         end; split; lra.
Qed.

Lemma accuracy_loop (services : list ServiceResult) (acc : Q) :
  fold_left (accuracyStep parseDate clk) services acc
  == acc + Spec.sumOver (Spec.recordPenalty parseDate clk) services.
Proof.
  revert acc. induction services as [| s l IH]; intros acc; simpl.
  - ring.
  - rewrite IH, accuracyStep_penalty. ring.
Qed.

Lemma penalties_bounds (services : list ServiceResult) :
  0 <= Spec.sumOver (Spec.recordPenalty parseDate clk) services
    <= JS.num (List.length services).
Proof.
  induction services as [| s l IH].
  - simpl. split; [lra | apply Facts.num_nonneg].
  - cbn [Spec.sumOver fold_right List.length]. fold (Spec.sumOver (Spec.recordPenalty parseDate clk) l).
    rewrite Facts.num_S. pose proof (penalty_bounds s). lra.
Qed.

Lemma accuracy_bounds (services : list ServiceResult) :
  0 <= calculateAccuracy parseDate clk services <= 100.
Proof.
  unfold calculateAccuracy.
  destruct (Nat.eqb (List.length services) 0) eqn:E.
  - split; lra.
  - apply Nat.eqb_neq in E. cbv zeta.
    pose proof (penalties_bounds services) as Hp.
    pose proof (accuracy_loop services 0) as Hl.
    apply Facts.percentage_bounds.
    + apply Facts.num_pos. lia.
    + lra.
    + lra.
Qed.

Lemma floorDays_nonneg (ms : Z) : (0 <= ms)%Z -> (0 <= JS.floorDays ms)%Z.
Proof.
  intros H. unfold JS.floorDays, JS.msPerDay. apply Z.div_pos; lia.
Qed.

Lemma gapLoop_nonneg (rest : list (Z * Z)) (prevEnd total : Z) :
  (0 <= total)%Z -> (0 <= gapLoop prevEnd rest total)%Z.
Proof.
  revert prevEnd total.
  induction rest as [| [st en] rest IH]; intros prevEnd total H; simpl.
  - exact H.
  - apply IH. destruct (st - prevEnd >? 0)%Z eqn:G; [| exact H].
    apply Z.gtb_lt in G. pose proof (floorDays_nonneg (st - prevEnd)). lia.
Qed.

Lemma totalGapDays_nonneg (dateRanges : list (Z * Z)) :
  (0 <= totalGapDaysOf dateRanges)%Z.
Proof.
  destruct dateRanges as [| [st en] rest]; simpl.
  - lia.
  - apply gapLoop_nonneg. lia.
Qed.

Lemma recency_bounds (days : Z) : 0 <= recencyScoreOf days <= 100.
Proof.
  unfold recencyScoreOf. split.
  - apply Q.le_max_l.
  - apply Q.max_lub; [lra | apply Q.le_min_l].
Qed.

Lemma coverage_bounds (dateRanges : list (Z * Z)) :
  0 <= coverageScoreOf dateRanges <= 100.
Proof.
  unfold coverageScoreOf.
  destruct (1 <? List.length dateRanges)%nat; [| split; lra].
  split.
  - apply Q.le_max_l.
  - apply Q.max_lub; [lra |].
    pose proof (totalGapDays_nonneg dateRanges) as H.
    rewrite Zle_Qle in H. change (inject_Z 0) with 0 in H.
    assert (0 <= inject_Z (totalGapDaysOf dateRanges) / 30)
      by (apply Qle_shift_div_l; lra).
    lra.
Qed.

Lemma timeliness_bounds (services : list ServiceResult) :
  0 <= calculateTimeliness parseDate clk services <= 100.
Proof.
  unfold calculateTimeliness.
  destruct (Nat.eqb (List.length (endDatesOf parseDate services)) 0).
  - split; lra.
  - cbv zeta.
    match goal with
    | |- context [recencyScoreOf ?d] => pose proof (recency_bounds d)
    end.
    match goal with
    | |- context [coverageScoreOf ?r] => pose proof (coverage_bounds r)
    end.
    split; lra.
Qed.

End Dimensions.

(** *** Metadata quality *)

Lemma fieldsOk_add (f : string) (fields : set string) :
  In f Invariants.fieldNames -> Invariants.fieldsOk fields -> Invariants.fieldsOk (set_add string_dec f fields).
Proof.
  intros Hf [Hn Hi]. split.
  - apply set_add_nodup, Hn.
  - intros x Hx. apply set_add_elim in Hx. destruct Hx as [-> | Hx]; auto.
Qed.

Lemma metadataStep_fieldsOk (m : MetadataSets) (s : ServiceResult) :
  Invariants.fieldsOk (fieldsWithData m) -> Invariants.fieldsOk (fieldsWithData (metadataStep m s)).
Proof.
  intros H. unfold metadataStep, addField.
  repeat match goal with
         | |- context [match ?o with Some _ => _ | None => _ end] => destruct o
         | |- context [if ?b then _ else _] => destruct b
         end; simpl;
    repeat (apply fieldsOk_add; [unfold Invariants.fieldNames; simpl; tauto |]);
    exact H.
Qed.

Lemma metadataLoop_fieldsOk (services : list ServiceResult) (m : MetadataSets) :
  Invariants.fieldsOk (fieldsWithData m) ->
  Invariants.fieldsOk (fieldsWithData (fold_left metadataStep services m)).
Proof.
  revert m. induction services as [| s l IH]; intros m H; simpl.
  - exact H.
  - apply IH, metadataStep_fieldsOk, H.
Qed.

(** At most five field names are ever in the set. *)
Lemma fieldsWithData_size (services : list ServiceResult) :
  (List.length (fieldsWithData (fold_left metadataStep services (mkSets [] [] [])))
   <= 5)%nat.
Proof.
  destruct (metadataLoop_fieldsOk services (mkSets [] [] [])) as [Hn Hi].
  - split; [constructor | intros x []].
  - change 5%nat with (List.length Invariants.fieldNames).
    apply NoDup_incl_length; assumption.
Qed.

Lemma fieldDiversity_bounds (services : list ServiceResult) :
  0 <= fieldDiversityScoreOf services <= 500 / 6.
Proof.
  unfold fieldDiversityScoreOf. cbv zeta.
  pose proof (Facts.num_le _ _ (fieldsWithData_size services)) as H5.
  pose proof (Facts.num_nonneg
                (List.length (fieldsWithData
                   (fold_left metadataStep services (mkSets [] [] []))))) as H0.
  change (JS.num 5) with 5 in H5.
  split; qlra.
Qed.

Lemma valueDiversity_bounds (services : list ServiceResult) :
  0 <= valueDiversityOf services <= 100.
Proof.
  unfold valueDiversityOf. cbv zeta.
  set (sets := fold_left metadataStep services (mkSets [] [] [])).
  set (ceiling := Qmax 1 (JS.num (List.length services) * 0.01)).
  assert (Hc : 0 < ceiling).
  { apply Qlt_le_trans with 1; [lra | apply Q.le_max_l]. }
  assert (Hd : 0 <= JS.num (List.length (divisions sets)) / ceiling).
  { apply Qle_shift_div_l; [exact Hc |].
    pose proof (Facts.num_nonneg (List.length (divisions sets))). lra. }
  pose proof (Facts.num_nonneg (List.length (wards sets))) as Hw.
  set (d := Qmin 100 (JS.num (List.length (divisions sets)) / ceiling * 100)).
  set (w := Qmin 100 (JS.num (List.length (wards sets)) / 25 * 100)).
  assert (0 <= d <= 100).
  { split; [apply Q.min_glb; qlra | apply Q.le_min_l]. }
  assert (0 <= w <= 100).
  { split; [apply Q.min_glb; qlra | apply Q.le_min_l]. }
  split; qlra.
Qed.

Lemma notesScore_bounds (services : list ServiceResult) :
  services <> [] -> 0 <= notesScoreOf services <= 100.
Proof.
  intros Hne. unfold notesScoreOf. cbv zeta.
  pose proof (Facts.num_pos _ (Facts.length_pos services Hne)) as Hpos.
  destruct (Facts.percentage_bounds
              (JS.num (JS.count (notesLongerThan 0) services))
              (JS.num (List.length services)) Hpos
              (Facts.num_nonneg _)
              (Facts.num_le _ _ (Facts.count_le_length _ _))) as [A0 A1].
  destruct (Facts.percentage_bounds
              (JS.num (JS.count (notesLongerThan 10) services))
              (JS.num (List.length services)) Hpos
              (Facts.num_nonneg _)
              (Facts.num_le _ _ (Facts.count_le_length _ _))) as [B0 B1].
  split; qlra.
Qed.

Lemma duplicates_le (services : list ServiceResult) (st : set string * nat) :
  (snd (fold_left duplicateStep services st)
   <= snd st + List.length services)%nat.
Proof.
  revert st. induction services as [| s l IH]; intros st; simpl.
  - lia.
  - specialize (IH (duplicateStep st s)).
    assert (snd (duplicateStep st s) <= S (snd st))%nat.
    { unfold duplicateStep.
      destruct (set_mem string_dec (recordKey s) (fst st)); simpl; lia. }
    lia.
Qed.

Lemma uniqueness_bounds (services : list ServiceResult) :
  0 <= uniquenessScoreOf services <= 100.
Proof.
  unfold uniquenessScoreOf. cbv zeta.
  destruct (0 <? List.length services)%nat eqn:E; [| split; lra].
  apply Nat.ltb_lt in E.
  pose proof (duplicates_le services ([], 0%nat)) as Hd. simpl in Hd.
  pose proof (Facts.num_le _ _ Hd) as Hq.
  pose proof (Facts.num_nonneg
                (snd (fold_left duplicateStep services ([], 0%nat)))) as H0.
  apply Facts.percentage_bounds.
  - apply Facts.num_pos, E.
  - lra.
  - lra.
Qed.

(** The score of a non-empty record set is below [575 / 6 = 95.83...]. *)
Lemma metadata_nonempty_bounds (services : list ServiceResult) :
  services <> [] ->
  0 <= calculateMetadataQuality services <= 575 / 6.
Proof.
  intros Hne. unfold calculateMetadataQuality.
  rewrite (Facts.eqb_length_nonempty services Hne). cbv zeta.
  pose proof (fieldDiversity_bounds services).
  pose proof (valueDiversity_bounds services).
  pose proof (notesScore_bounds services Hne).
  pose proof (uniqueness_bounds services).
  split; qlra.
Qed.

Lemma metadata_bounds (services : list ServiceResult) :
  0 <= calculateMetadataQuality services <= 100.
Proof.
  destruct services as [| s l].
  - unfold calculateMetadataQuality. simpl. split; qlra.
  - assert (Hne : s :: l <> []) by discriminate.
    pose proof (metadata_nonempty_bounds (s :: l) Hne). split; qlra.
Qed.

(** *** The accuracy penalty of one record *)

Section Penalties.

Variable parseDate : string -> Z.
Variable clk : Clock.






(** With no end date in the set the timeliness score is 0. *)
Lemma endDatesOf_undated (services : list ServiceResult) :
  Forall (fun s => JS.truthy (end_date s) = false) services ->
  endDatesOf parseDate services = [].
Proof.
  induction 1 as [| s l Hs Hl IH].
  - reflexivity.
  - unfold endDatesOf in *. cbn [flat_map]. rewrite IH. revert Hs.
    destruct (end_date s) as [d |]; [| reflexivity].
    intros Hs. rewrite Hs. reflexivity.
Qed.

Lemma timeliness_undated (services : list ServiceResult) :
  Forall (fun s => JS.truthy (end_date s) = false) services ->
  calculateTimeliness parseDate clk services == 0.
Proof.
  intros H. unfold calculateTimeliness.
  rewrite (endDatesOf_undated services H). simpl. reflexivity.
Qed.

End Penalties.

(** C1: the overall score of either quality calculator is the arithmetic
    mean of its five dimension scores: for every record set in the
    data-readiness calculator, and for every non-empty record set (the only
    ones it is called on) in the dashboard calculator. *)
Theorem overall_score_is_mean :
  (forall parseDate clk services,
      let dq := calculateAuditAlignedDataQuality parseDate clk services in
      overallScore dq == Spec.meanOfDimensions dq)
  /\ (forall parseDate clk services,
         services <> [] ->
         let dq :=
           QualityMetrics.calculateDataQualityMetrics parseDate clk services in
         overallScore dq == Spec.meanOfDimensions dq).
Proof.
  split.
  - intros parseDate clk services dq. subst dq.
    unfold calculateAuditAlignedDataQuality, Spec.meanOfDimensions.
    cbn [overallScore score completeness accuracy consistency timeliness
         validity].
    unfold Qdiv. ring.
  - intros parseDate clk services _ dq. subst dq.
    unfold QualityMetrics.calculateDataQualityMetrics, Spec.meanOfDimensions.
    cbn [overallScore score completeness accuracy consistency timeliness
         validity].
    unfold Qdiv. ring.
Qed.

Lemma overall_score_is_mean_witness :
  [Examples.clean] <> []
  /\ overallScore (QualityMetrics.calculateDataQualityMetrics
                     Examples.parse0 Examples.clock0 [Examples.clean])
     == Spec.meanOfDimensions
          (QualityMetrics.calculateDataQualityMetrics
             Examples.parse0 Examples.clock0 [Examples.clean]).
Proof.
  split.
  - discriminate.
  - apply (proj2 overall_score_is_mean). discriminate.
Defined.

(** C2: each of the five dimension scores returned by the quality
    calculator lies within [0, 100], for every record set. *)
Theorem dimension_scores_in_range :
  forall parseDate clk services,
    let dq := calculateAuditAlignedDataQuality parseDate clk services in
    0 <= score (completeness dq) <= 100
    /\ 0 <= score (accuracy dq) <= 100
    /\ 0 <= score (consistency dq) <= 100
    /\ 0 <= score (timeliness dq) <= 100
    /\ 0 <= score (validity dq) <= 100.
Proof.
  intros parseDate clk services dq. subst dq.
  unfold calculateAuditAlignedDataQuality.
  cbn [score completeness accuracy consistency timeliness validity].
  split; [apply completeness_bounds |].
  split; [apply accuracy_bounds |].
  split; [apply consistency_bounds |].
  split; [apply timeliness_bounds | apply metadata_bounds].
Qed.




(** C7: a record whose result is absent or empty is a completeness gap, but
    the accuracy calculator gives it no penalty at all: alone in a set it
    scores 100, not the 50 of a half penalty. *)
Theorem absent_result_not_penalised :
  hasAllRequiredFields Examples.clean = true
  /\ hasAllRequiredFields Examples.noResult = false
  /\ hasAllRequiredFields Examples.emptyResult = false
  /\ calculateCompleteness [Examples.noResult] == 0
  /\ Spec.recordPenalty Examples.parse0 Examples.clock0 Examples.noResult == 0
  /\ Spec.recordPenalty Examples.parse0 Examples.clock0 Examples.emptyResult == 0
  /\ calculateAccuracy Examples.parse0 Examples.clock0 [Examples.noResult] == 100
  /\ calculateAccuracy Examples.parse0 Examples.clock0 [Examples.emptyResult]
     == 100.
Proof.
  repeat split; vm_compute; reflexivity.
Qed.

(** C8, as stated, fails: no run on the empty record set shows the
    scenario.  The handler answers with the fixed empty structures, in
    which completeness and consistency score 0, not 100.  The calculators,
    applied to the empty set, give the vacuous scores, but the readiness
    function then raises the staleness issue only, not the marker. *)
Lemma empty_set_scenario_has_no_run :
  ~ Spec.emptySetScenario (handler Examples.parse0 Examples.clock0 [])
  /\ ~ Spec.emptySetScenario
         (calculateAuditAlignedDataQuality Examples.parse0 Examples.clock0 [],
          calculateODRAReadinessMetrics []
            (calculateAuditAlignedDataQuality
               Examples.parse0 Examples.clock0 [])).
Proof.
  split; intros [H1 [_ [_ H4]]].
  - vm_compute in H1. discriminate H1.
  - vm_compute in H4. destruct H4 as [E | []]. discriminate E.
Qed.

(** C8, amended: on the empty record set the two ways to a result differ.
    The handler does not call the calculators: it answers with the fixed
    empty structures, so every dimension score and the overall score are 0
    and the only critical issue is the no-data marker.  The calculators, applied to the empty set, return 100 for
    completeness, accuracy, consistency and metadata and 0 for timeliness
    (as for any set without an end date), so the overall score is 80; the
    readiness function on that result raises the staleness issue only. *)
Theorem empty_record_set_two_ways :
  forall parseDate clk,
    let answer := handler parseDate clk [] in
    let dq := calculateAuditAlignedDataQuality parseDate clk [] in
    (fst answer = getEmptyDataQuality
     /\ snd answer = getEmptyReadinessMetrics
     /\ Forall (fun dimension => score dimension == 0)
               [completeness (fst answer); accuracy (fst answer);
                timeliness (fst answer); consistency (fst answer);
                validity (fst answer)]
     /\ overallScore (fst answer) == 0
     /\ criticalIssues (snd answer) = [Spec.noDataMarker])
    /\ (calculateCompleteness [] == 100
        /\ calculateAccuracy parseDate clk [] == 100
        /\ calculateConsistency [] == 100
        /\ calculateTimeliness parseDate clk [] == 0
        /\ (forall services,
               Forall (fun s => JS.truthy (end_date s) = false) services ->
               calculateTimeliness parseDate clk services == 0)
        /\ calculateMetadataQuality [] == 100
        /\ overallScore dq == 80
        /\ criticalIssues (calculateODRAReadinessMetrics [] dq)
           = ["Data staleness: dataset is significantly outdated"]).
Proof.
  intros parseDate clk answer dq. subst answer dq. split.
  - split; [reflexivity |]. split; [reflexivity |].
    split; [repeat constructor |]. split; reflexivity.
  - split; [reflexivity |]. split; [reflexivity |].
    split; [reflexivity |]. split; [reflexivity |].
    split; [apply timeliness_undated |].
    split; [reflexivity |]. split; reflexivity.
Qed.

Lemma empty_record_set_two_ways_witness :
  calculateTimeliness Examples.parse0 Examples.clock0
    [Examples.costOnly 1 5; Examples.costOnly 2 7] == 0.
Proof.
  apply (proj1 (proj2 (proj2 (proj2 (proj2 (proj2
           (empty_record_set_two_ways Examples.parse0 Examples.clock0))))))).
  repeat constructor.
Defined.

(** C10: only five field names can enter [fieldsWithData] while the
    field-diversity score divides by 6, so for a non-empty record set that
    score is at most 83.33..., the metadata score is at most 95.84, and the
    metadata score is 100 exactly for the empty record set. *)
Theorem metadata_score_never_full :
  forall services,
    (List.length
       (fieldsWithData (fold_left metadataStep services (mkSets [] [] [])))
     <= 5)%nat
    /\ (services <> [] ->
        fieldDiversityScoreOf services <= 250 # 3
        /\ calculateMetadataQuality services <= 95.84)
    /\ (calculateMetadataQuality services == 100 <-> services = []).
Proof.
  intros services.
  split; [apply fieldsWithData_size |].
  split.
  - intros Hne.
    pose proof (fieldDiversity_bounds services) as Hf.
    pose proof (metadata_nonempty_bounds services Hne) as Hm.
    split; qlra.
  - split.
    + intros H. destruct services as [| s l]; [reflexivity |].
      assert (Hne : s :: l <> []) by discriminate.
      pose proof (metadata_nonempty_bounds (s :: l) Hne) as Hm.
      exfalso. revert H Hm. generalize (calculateMetadataQuality (s :: l)).
      intros q H Hm. qlra.
    + intros ->. reflexivity.
Qed.

Lemma metadata_score_never_full_witness :
  [Examples.clean] <> []
  /\ calculateMetadataQuality [Examples.clean] <= 95.84.
Proof.
  split.
  - discriminate.
  - apply (proj1 (proj2 (metadata_score_never_full [Examples.clean]))).
    discriminate.
Defined.

End QualityProofs.

(** ** The stable sort *)

Module SortFacts.

Section Permuted.

Context {A : Type} (le : A -> A -> bool).

Lemma insert_perm (x : A) (l : list A) :
  Permutation (JS.insert le x l) (x :: l).
Proof.
  induction l as [| y l IH]; simpl.
  - apply Permutation_refl.
  - destruct (le x y).
    + apply Permutation_refl.
    + apply perm_trans with (y :: x :: l).
      * apply perm_skip, IH.
      * apply perm_swap.
Qed.

Lemma sort_perm (l : list A) : Permutation (JS.sort le l) l.
Proof.
  induction l as [| x l IH]; simpl.
  - apply perm_nil.
  - apply perm_trans with (x :: JS.sort le l).
    + apply insert_perm.
    + apply perm_skip, IH.
Qed.

Lemma Forall_insert (P : A -> Prop) (x : A) (l : list A) :
  P x -> Forall P l -> Forall P (JS.insert le x l).
Proof.
  intros Hx Hl.
  apply (Permutation_Forall (Permutation_sym (insert_perm x l))).
  constructor; assumption.
Qed.

Lemma Forall_sort (P : A -> Prop) (l : list A) :
  Forall P l -> Forall P (JS.sort le l).
Proof.
  intros H. apply (Permutation_Forall (Permutation_sym (sort_perm l))), H.
Qed.

End Permuted.

Section Stable.

Context {A : Type} (value : A -> Q) (key : A -> Z).

(** Inserting an element that came before all of [l] keeps the order and
    puts it ahead of its ties. *)
Lemma insert_stable (x : A) (l : list A) :
  StronglySorted (Invariants.precedes value key) l ->
  Forall (fun y => (key x < key y)%Z) l ->
  StronglySorted (Invariants.precedes value key) (JS.insert (Invariants.descending value) x l).
Proof.
  induction l as [| y l IH]; intros Hs Hk; simpl.
  - constructor; constructor.
  - inversion Hs as [| ? ? Hs' Hy]; subst.
    inversion Hk as [| ? ? Hxy Hk']; subst.
    unfold Invariants.descending at 1.
    destruct (Qle_bool (value y) (value x)) eqn:E.
    + apply Qle_bool_iff in E.
      assert (Hx : Invariants.precedes value key x y).
      { unfold Invariants.precedes.
        destruct (Qlt_le_dec (value y) (value x)) as [L | G];
          [left; exact L | right; split; [lra | exact Hxy]]. }
      constructor; [exact Hs |].
      constructor; [exact Hx |].
      rewrite Forall_forall in *. intros z Hz.
      specialize (Hy z Hz). specialize (Hk' z Hz).
      unfold Invariants.precedes in *.
      destruct (Qlt_le_dec (value z) (value x)) as [L | G];
        [left; exact L | right; split; [| exact Hk']].
      destruct Hy as [Hy | [Hy _]]; lra.
    + assert (L : value x < value y).
      { apply Qnot_le_lt. intros C. apply Qle_bool_iff in C. congruence. }
      constructor.
      * apply IH; assumption.
      * apply Forall_insert; [| exact Hy].
        left. exact L.
Qed.

(** Sorting a list that is in key order: higher values first, ties in key
    order. *)
Lemma sort_stable (l : list A) :
  StronglySorted (fun a b => (key a < key b)%Z) l ->
  StronglySorted (Invariants.precedes value key) (JS.sort (Invariants.descending value) l).
Proof.
  induction 1 as [| x l Hs IH Hx]; simpl.
  - constructor.
  - apply insert_stable; [exact IH |].
    apply Forall_sort, Hx.
Qed.

End Stable.

Lemma StronglySorted_weaken {A : Type} (R R' : A -> A -> Prop) (l : list A) :
  (forall a b, In a l -> In b l -> R a b -> R' a b) ->
  StronglySorted R l -> StronglySorted R' l.
Proof.
  intros H Hs. induction Hs as [| x l Hs IH Hx].
  - constructor.
  - constructor.
    + apply IH. intros a b Ha Hb. apply H; right; assumption.
    + rewrite Forall_forall in *. intros y Hy.
      apply H; [left; reflexivity | right; exact Hy | apply Hx, Hy].
Qed.

Lemma StronglySorted_map {A B : Type} (f : A -> B) (R : B -> B -> Prop)
  (l : list A) :
  StronglySorted (fun a b => R (f a) (f b)) l <-> StronglySorted R (map f l).
Proof.
  induction l as [| x l IH]; simpl.
  - split; constructor.
  - split; intros H; inversion H as [| ? ? Hs Hx]; subst;
      (constructor; [apply IH, Hs |]).
    + apply Forall_map. exact Hx.
    + apply Forall_map. exact Hx.
Qed.

Lemma StronglySorted_filter {A : Type} (R : A -> A -> Prop) (p : A -> bool)
  (l : list A) :
  StronglySorted R l -> StronglySorted R (filter p l).
Proof.
  induction 1 as [| x l Hs IH Hx]; simpl.
  - constructor.
  - destruct (p x); [| exact IH].
    constructor; [exact IH |].
    rewrite Forall_forall in *. intros y Hy.
    apply filter_In in Hy. apply Hx, Hy.
Qed.

End SortFacts.

(** ** Ward analysis *)

Module WardProofs.

Import WardAnalysis.

Lemma validWardNumbers_range (w : Z) :
  In w validWardNumbers -> (1 <= w <= 25)%Z.
Proof.
  unfold validWardNumbers. intros H.
  apply in_map_iff in H. destruct H as [i [<- Hi]].
  apply in_seq in Hi. lia.
Qed.

Lemma validWardNumbers_ascending : StronglySorted Z.lt validWardNumbers.
Proof.
  unfold validWardNumbers. simpl. repeat constructor.
Qed.

Lemma metricsOf_ward (services : list ServiceResult) (w : Z) :
  WardMetrics.ward (metricsOf services w) = w.
Proof. reflexivity. Qed.

(** The valid wards are the metrics of the ward numbers with a record. *)
Lemma validWardsOf_map (services : list ServiceResult) :
  validWardsOf services
  = map (metricsOf services)
        (filter (fun w => (0 <? List.length (filter (wardIs w) services))%nat)
                validWardNumbers).
Proof.
  unfold validWardsOf.
  induction validWardNumbers as [| w l IH]; simpl.
  - reflexivity.
  - destruct (0 <? List.length (filter (wardIs w) services))%nat; simpl;
      rewrite IH; reflexivity.
Qed.

(** A record of another ward does not enter the metrics of ward [w]. *)
Lemma metricsOf_skip (before after : list ServiceResult) (r : ServiceResult)
  (w : Z) :
  wardIs w r = false ->
  metricsOf (before ++ r :: after) w = metricsOf (before ++ after) w.
Proof.
  intros H. unfold metricsOf.
  rewrite !filter_app. simpl. rewrite H. reflexivity.
Qed.

Lemma out_of_range_not_valid (r : ServiceResult) (w : Z) :
  DataReadiness.wardOutOfRange r = true -> (1 <= w <= 25)%Z ->
  wardIs w r = false.
Proof.
  unfold DataReadiness.wardOutOfRange, wardIs.
  destruct (ward r) as [v |]; [| reflexivity].
  intros H Hw. apply Z.eqb_neq. intros ->.
  apply orb_true_iff in H. destruct H as [H | H].
  - apply Z.ltb_lt in H. lia.
  - apply Z.gtb_lt in H. lia.
Qed.

Lemma validWards_skip (before after : list ServiceResult) (r : ServiceResult) :
  DataReadiness.wardOutOfRange r = true ->
  validWardsOf (before ++ r :: after) = validWardsOf (before ++ after).
Proof.
  intros H. unfold validWardsOf. f_equal.
  apply map_ext_in. intros w Hw.
  apply metricsOf_skip, out_of_range_not_valid;
    [exact H | apply validWardNumbers_range, Hw].
Qed.

(** The ranking score is the group efficiency on a percentage scale. *)
Lemma efficiencyScore_scaled (services : list ServiceResult) (w : Z) :
  WardEfficiencyItem.efficiencyScore (efficiencyItemOf (metricsOf services w))
  == 100 * Spec.wardCostEfficiency services w.
Proof.
  unfold Spec.wardCostEfficiency, efficiencyItemOf, metricsOf, wardEfficiency.
  cbn [WardEfficiencyItem.efficiencyScore WardMetrics.costEfficiency
       WardMetrics.passRate WardMetrics.avgCost].
  set (group := filter (wardIs w) services).
  set (n := List.length group).
  set (cost := sumCost group).
  set (pass := JS.count (fun s => resultIs s "PASS") group).
  destruct (0 <? n)%nat eqn:En; simpl.
  - apply Nat.ltb_lt in En.
    pose proof (Facts.num_pos n En) as Hn.
    pose proof (Facts.num_nonneg pass) as Hp.
    destruct (JS.Qgtb cost 0) eqn:Ec; unfold JS.Qgtb in Ec.
    + apply Facts.Qltb_lt in Ec.
      assert (Ha : 0 < cost / JS.num n).
      { apply Qlt_shift_div_l; lra. }
      assert (Ea : JS.Qgtb (cost / JS.num n) 0 = true)
        by (apply Facts.Qltb_lt, Ha).
      rewrite Ea, andb_true_r.
      destruct (JS.Qgtb (JS.num pass / JS.num n * 100) 0) eqn:Er;
        unfold JS.Qgtb in Er.
      * field. split; lra.
      * apply Facts.Qltb_ge in Er.
        assert (Hz : JS.num pass == 0).
        { assert (0 <= JS.num pass / JS.num n)
            by (apply Qle_shift_div_l; lra).
          assert (JS.num pass / JS.num n == 0) by lra.
          assert (JS.num pass == (JS.num pass / JS.num n) * JS.num n)
            by (field; lra).
          nra. }
        rewrite Hz. field. split; lra.
    + apply Facts.Qltb_ge in Ec.
      assert (Ha : cost / JS.num n <= 0).
      { apply Qle_shift_div_r; lra. }
      assert (Ea : JS.Qgtb (cost / JS.num n) 0 = false)
        by (apply Facts.Qltb_ge, Ha).
      rewrite Ea, andb_false_r. ring.
  - reflexivity.
Qed.

Lemma mapi_ward (l : list WardEfficiencyItem.t) (k : nat) :
  map WardEfficiencyItem.ward (JS.mapi withRank k l)
  = map WardEfficiencyItem.ward l.
Proof.
  revert k. induction l as [| x l IH]; intros k; simpl.
  - reflexivity.
  - rewrite IH. reflexivity.
Qed.

Lemma mapi_rank (l : list WardEfficiencyItem.t) (k : nat) :
  map WardEfficiencyItem.rank (JS.mapi withRank k l)
  = seq (k + 1) (List.length l).
Proof.
  revert k. induction l as [| x l IH]; intros k; simpl.
  - reflexivity.
  - rewrite IH. replace (S k + 1)%nat with (S (k + 1)) by lia. reflexivity.
Qed.

(** The ranked items before sorting, in ward order. *)
Lemma items_of_wards (services : list ServiceResult) :
  map efficiencyItemOf (validWardsOf services)
  = map (fun w => efficiencyItemOf (metricsOf services w))
        (filter (fun w => (0 <? List.length (filter (wardIs w) services))%nat)
                validWardNumbers).
Proof.
  rewrite validWardsOf_map, map_map. reflexivity.
Qed.

Lemma items_in_ward_order (services : list ServiceResult) :
  StronglySorted
    (fun a b => (WardEfficiencyItem.ward a < WardEfficiencyItem.ward b)%Z)
    (map efficiencyItemOf (validWardsOf services)).
Proof.
  apply (SortFacts.StronglySorted_map WardEfficiencyItem.ward Z.lt).
  rewrite items_of_wards, map_map.
  rewrite (map_ext _ (fun w : Z => w)) by (intros w; reflexivity).
  rewrite map_id.
  apply SortFacts.StronglySorted_filter, validWardNumbers_ascending.
Qed.

Lemma items_scaled (services : list ServiceResult) (a : WardEfficiencyItem.t) :
  In a (map efficiencyItemOf (validWardsOf services)) ->
  WardEfficiencyItem.efficiencyScore a
  == 100 * Spec.wardCostEfficiency services (WardEfficiencyItem.ward a).
Proof.
  rewrite items_of_wards. intros H.
  apply in_map_iff in H. destruct H as [w [<- _]].
  apply efficiencyScore_scaled.
Qed.

Lemma sorted_items_ranked (services : list ServiceResult) :
  StronglySorted (Spec.ranksBefore services)
    (JS.sort byEfficiencyDesc (map efficiencyItemOf (validWardsOf services))).
Proof.
  pose proof (SortFacts.sort_stable WardEfficiencyItem.efficiencyScore
                WardEfficiencyItem.ward _ (items_in_ward_order services)) as Hs.
  change (Invariants.descending WardEfficiencyItem.efficiencyScore)
    with byEfficiencyDesc in Hs.
  revert Hs. apply SortFacts.StronglySorted_weaken.
  intros a b Ha Hb Hab.
  pose proof (SortFacts.sort_perm byEfficiencyDesc
                (map efficiencyItemOf (validWardsOf services))) as Hp.
  pose proof (items_scaled services a (Permutation_in _ Hp Ha)) as Ea.
  pose proof (items_scaled services b (Permutation_in _ Hp Hb)) as Eb.
  unfold Spec.ranksBefore, Spec.wardRanksBefore.
  destruct Hab as [L | [E K]]; [left | right; split; [| exact K]]; lra.
Qed.

(** In exact arithmetic, where [efficiencyScore] is 100 times
    [costEfficiency], the efficiency ranking is a permutation of the
    valid-ward keys, its ranks are 1..N in list order, it is ordered by
    non-increasing [costEfficiency] of the ward's group, and wards of equal
    efficiency keep their key order.  On the doubles of the code the two
    keys can differ in the last place: see [RankingProofs]. *)
Lemma ranking_sorted_stable_permutation :
  forall services,
    let analysis := calculateWardAnalysis services in
    let ranking := wardEfficiencyRanking analysis in
    Permutation (map WardEfficiencyItem.ward ranking)
                (map WardMetrics.ward (validWards analysis))
    /\ map WardEfficiencyItem.rank ranking
       = seq 1 (List.length (validWards analysis))
    /\ StronglySorted (Spec.ranksBefore services) ranking
    /\ Forall (fun m => Spec.wardCostEfficiency services (WardMetrics.ward m)
                        = WardMetrics.costEfficiency m)
              (validWards analysis).
Proof.
  intros services analysis ranking. subst analysis ranking.
  unfold calculateWardAnalysis.
  cbn [wardEfficiencyRanking validWards]. unfold rankingOf.
  pose proof (SortFacts.sort_perm byEfficiencyDesc
                (map efficiencyItemOf (validWardsOf services))) as Hp.
  split; [| split; [| split]].
  - rewrite mapi_ward.
    apply perm_trans
      with (map WardEfficiencyItem.ward
                (map efficiencyItemOf (validWardsOf services))).
    + apply Permutation_map, Hp.
    + rewrite map_map. apply Permutation_refl.
  - rewrite mapi_rank. rewrite (Permutation_length Hp), length_map.
    reflexivity.
  - apply (SortFacts.StronglySorted_map WardEfficiencyItem.ward
             (Spec.wardRanksBefore services)).
    rewrite mapi_ward.
    apply (SortFacts.StronglySorted_map WardEfficiencyItem.ward
             (Spec.wardRanksBefore services)).
    apply sorted_items_ranked.
  - rewrite validWardsOf_map. apply Forall_map, Forall_forall.
    intros w _. reflexivity.
Qed.

(** C5, as stated, fails: a record in ward 30 is out of the domain and is
    not counted in the anomaly block, which counts ward 66 only. *)
Lemma anomaly_count_misses_ward30 :
  ~ (JS.count DataReadiness.wardOutOfRange [Examples.ward30]
     <= Ward66Analysis.count
          (invalidWard66 (calculateWardAnalysis [Examples.ward30])))%nat.
Proof.
  vm_compute. lia.
Qed.

(** C5, amended: a record whose ward is outside [1, 25] contributes to no
    [validWards] entry (the entries are those of the record set without it),
    and the anomaly count is the number of records of ward 66: such a record
    adds one to it exactly when its ward is 66. *)
Theorem out_of_domain_ward_accounting :
  forall before r after,
    DataReadiness.wardOutOfRange r = true ->
    validWards (calculateWardAnalysis (before ++ r :: after))
    = validWards (calculateWardAnalysis (before ++ after))
    /\ Ward66Analysis.count
         (invalidWard66 (calculateWardAnalysis (before ++ r :: after)))
       = JS.count (wardIs 66) (before ++ r :: after)
    /\ Ward66Analysis.count
         (invalidWard66 (calculateWardAnalysis (before ++ r :: after)))
       = ((if wardIs 66 r then 1 else 0)
          + Ward66Analysis.count
              (invalidWard66 (calculateWardAnalysis (before ++ after))))%nat.
Proof.
  intros before r after H.
  unfold calculateWardAnalysis, invalidWard66Of.
  cbn [validWards invalidWard66 Ward66Analysis.count].
  split; [apply validWards_skip, H |].
  split; [reflexivity |].
  rewrite !filter_app, !length_app. simpl.
  destruct (wardIs 66 r); simpl; lia.
Qed.

Lemma out_of_domain_ward_accounting_witness :
  DataReadiness.wardOutOfRange Examples.ward30 = true
  /\ validWards (calculateWardAnalysis
                   ([Examples.clean] ++ Examples.ward30 :: [Examples.doublyInvalid]))
     = validWards (calculateWardAnalysis
                     ([Examples.clean] ++ [Examples.doublyInvalid])).
Proof.
  split.
  - reflexivity.
  - apply (out_of_domain_ward_accounting
             [Examples.clean] Examples.ward30 [Examples.doublyInvalid]).
    reflexivity.
Defined.

End WardProofs.

(** ** Monthly time series *)

Module TimeSeriesProofs.

Import TimeSeries.

(** The per-month ratio is the group formula on a percentage scale. *)
Lemma monthEfficiency_scaled (passRate avgCost : Q) :
  monthEfficiency passRate avgCost
  == 100 * Spec.groupEfficiency passRate avgCost.
Proof.
  unfold monthEfficiency, Spec.groupEfficiency.
  destruct (JS.Qgtb avgCost 0) eqn:E; [| ring].
  apply Facts.Qltb_lt in E. field. lra.
Qed.

Lemma entriesFrom_Forall (P : TimeSeriesData -> Prop) :
  (forall prev month, P (entryOf prev month)) ->
  forall sortedData prev, Forall P (entriesFrom prev sortedData).
Proof.
  intros H sortedData.
  induction sortedData as [| month rest IH]; intros prev; simpl.
  - constructor.
  - constructor; [apply H | apply IH].
Qed.

(** The per-ward ratio is the group formula of the specification. *)
Lemma wardEfficiency_is_group_formula (services : list ServiceResult) (w : Z) :
  let m := WardAnalysis.metricsOf services w in
  WardAnalysis.WardMetrics.costEfficiency m
  == Spec.groupEfficiency (WardAnalysis.WardMetrics.passRate m)
                          (WardAnalysis.WardMetrics.avgCost m).
Proof.
  unfold WardAnalysis.metricsOf, WardAnalysis.wardEfficiency,
    Spec.groupEfficiency.
  cbn [WardAnalysis.WardMetrics.costEfficiency WardAnalysis.WardMetrics.passRate
       WardAnalysis.WardMetrics.avgCost].
  set (group := filter (wardIs w) services).
  set (n := List.length group).
  set (cost := WardAnalysis.sumCost group).
  set (pass := JS.count (fun s => resultIs s "PASS") group).
  destruct (0 <? n)%nat eqn:En; simpl; [| reflexivity].
  apply Nat.ltb_lt in En.
  pose proof (Facts.num_pos n En) as Hn.
  destruct (JS.Qgtb cost 0) eqn:Ec; unfold JS.Qgtb in Ec.
  - apply Facts.Qltb_lt in Ec.
    assert (Ha : 0 < cost / JS.num n) by (apply Qlt_shift_div_l; lra).
    assert (Ea : JS.Qgtb (cost / JS.num n) 0 = true)
      by (apply Facts.Qltb_lt, Ha).
    rewrite Ea. field. split; lra.
  - apply Facts.Qltb_ge in Ec.
    assert (Ha : cost / JS.num n <= 0) by (apply Qle_shift_div_r; lra).
    assert (Ea : JS.Qgtb (cost / JS.num n) 0 = false)
      by (apply Facts.Qltb_ge, Ha).
    rewrite Ea. reflexivity.
Qed.

(** C9, as stated, fails: one PASS record of cost 1000 makes a month of pass
    rate 100 and average cost 1000, whose [costEfficiency] is 100 where the
    group formula gives 1. *)
Lemma month_efficiency_is_not_group_formula :
  ~ Forall (fun e => costEfficiency e
                     == Spec.groupEfficiency (passRate e) (avgCost e))
           (calculateEnhancedTimeSeriesData Examples.parse0 Examples.month0
              [Examples.clean]).
Proof.
  intros H. inversion H as [| e l He Hl]; subst.
  vm_compute in He. discriminate He.
Qed.

(** C9, amended: the [costEfficiency] of every month is [passRate / (avgCost
    / 1000)] when [avgCost > 0] and 0 otherwise, which is 100 times the group
    formula [(passRate / 100) / (avgCost / 1000)] that the per-ward function
    computes on the same pass rate and average cost. *)
Theorem month_efficiency_is_scaled_group_formula :
  (forall parseDate formatYearMonth services,
      Forall (fun e => costEfficiency e
                       == (if JS.Qgtb (avgCost e) 0
                           then passRate e / (avgCost e / 1000) else 0)
                       /\ costEfficiency e
                          == 100 * Spec.groupEfficiency (passRate e) (avgCost e))
             (calculateEnhancedTimeSeriesData parseDate formatYearMonth services))
  /\ (forall services w,
         let m := WardAnalysis.metricsOf services w in
         WardAnalysis.WardMetrics.costEfficiency m
         == Spec.groupEfficiency (WardAnalysis.WardMetrics.passRate m)
                                 (WardAnalysis.WardMetrics.avgCost m)).
Proof.
  split.
  - intros parseDate formatYearMonth services.
    unfold calculateEnhancedTimeSeriesData.
    apply entriesFrom_Forall. intros prev month.
    unfold entryOf. cbn [costEfficiency passRate avgCost].
    split; [reflexivity | apply monthEfficiency_scaled].
  - apply wardEfficiency_is_group_formula.
Qed.

End TimeSeriesProofs.

(** ** Cost histogram *)

Module BinnerProofs.

Import CostDistribution.

(** [ceilSqrt08 n] is the least integer [k >= 0] with [25 k^2 >= 16 n],
    that is, the ceiling of [0.8 * sqrt n]. *)
Lemma ceilSqrt08_least (n : nat) (k : Z) :
  (0 <= k)%Z ->
  (ceilSqrt08 n <= k)%Z <-> (16 * Z.of_nat n <= 25 * (k * k))%Z.
Proof.
  intros Hk. unfold ceilSqrt08.
  rewrite <- Z.sqrt_up_le_square.
  - generalize (k * k)%Z. intros square.
    split; intros H; Z.to_euclidean_division_equations; lia.
  - apply Z.div_pos; lia.
  - exact Hk.
Qed.

(** C3: on seven records with the costs 1..7 the binner makes six bins of
    width 1 with both ends closed; the costs 2..6 lie on a shared border and
    are counted twice, so the counts sum to 12 for 7 positive-cost records
    and the percentages to 1200/7 (about 171). *)
Theorem border_costs_counted_twice :
  forall log10 pow10 : Q -> Q,
    let bins := calculateCostDistribution log10 pow10 Examples.sevenCosts in
    List.length (positiveCosts Examples.sevenCosts) = 7%nat
    /\ map count bins = [2; 2; 2; 2; 2; 2]%nat
    /\ Spec.sumCounts (map count bins) = 12%nat
    /\ Spec.sumQ (map percentage bins) == 1200 # 7.
Proof.
  intros log10 pow10 bins. subst bins.
  vm_compute. repeat split; reflexivity.
Qed.

End BinnerProofs.

(** ** Order facts for the sort under a total comparator *)

Module OrderFacts.

Section Local.

Context {A : Type} (le : A -> A -> bool).
Hypothesis le_total : forall a b, le a b = true \/ le b a = true.

Lemma insert_HdRel (x y : A) (l : list A) :
  le y x = true -> HdRel (fun a b => le a b = true) y l ->
  HdRel (fun a b => le a b = true) y (JS.insert le x l).
Proof.
  intros Hyx Hy. destruct l as [| z l]; simpl.
  - constructor. exact Hyx.
  - destruct (le x z); constructor; [exact Hyx |].
    inversion Hy; assumption.
Qed.

Lemma insert_Sorted (x : A) (l : list A) :
  Sorted (fun a b => le a b = true) l ->
  Sorted (fun a b => le a b = true) (JS.insert le x l).
Proof.
  induction 1 as [| y l Hs IH Hy]; simpl.
  - repeat constructor.
  - destruct (le x y) eqn:E.
    + constructor; [constructor; assumption |].
      constructor. exact E.
    + constructor; [exact IH |].
      apply insert_HdRel; [| exact Hy].
      destruct (le_total x y) as [C | C]; [congruence | exact C].
Qed.

(** The sort puts every element no later than its successor. *)
Lemma sort_Sorted (l : list A) :
  Sorted (fun a b => le a b = true) (JS.sort le l).
Proof.
  induction l as [| x l IH]; simpl.
  - constructor.
  - apply insert_Sorted, IH.
Qed.

Hypothesis le_trans :
  forall a b c, le a b = true -> le b c = true -> le a c = true.

Lemma sort_StronglySorted (l : list A) :
  StronglySorted (fun a b => le a b = true) (JS.sort le l).
Proof.
  apply Sorted_StronglySorted; [| apply sort_Sorted].
  intros a b c. apply le_trans.
Qed.

End Local.

Lemma skipn_In {A : Type} (y : A) (k : nat) (l : list A) :
  In y (skipn k l) -> In y l.
Proof.
  intros H. rewrite <- (firstn_skipn k l). apply in_or_app. right. exact H.
Qed.

Lemma firstn_In {A : Type} (y : A) (k : nat) (l : list A) :
  In y (firstn k l) -> In y l.
Proof.
  intros H. rewrite <- (firstn_skipn k l). apply in_or_app. left. exact H.
Qed.

(** In a sorted list the first [k] elements come before all the others. *)
Lemma firstn_dominates {A : Type} (R : A -> A -> Prop) (k : nat) (l : list A) :
  StronglySorted R l ->
  Forall (fun y => Forall (fun x => R x y) (firstn k l)) (skipn k l).
Proof.
  intros Hs. revert k.
  induction Hs as [| x l Hs IH Hx]; intros k.
  - destruct k; constructor.
  - destruct k as [| k]; simpl.
    + apply Forall_forall. intros y _. constructor.
    + specialize (IH k). rewrite Forall_forall in *.
      intros y Hy. constructor.
      * apply Hx. eapply skipn_In. exact Hy.
      * apply IH, Hy.
Qed.

Lemma firstn_StronglySorted {A : Type} (R : A -> A -> Prop) (k : nat)
  (l : list A) :
  StronglySorted R l -> StronglySorted R (firstn k l).
Proof.
  intros Hs. revert k.
  induction Hs as [| x l Hs IH Hx]; intros k.
  - destruct k; constructor.
  - destruct k as [| k]; simpl; [constructor |].
    constructor; [apply IH |].
    rewrite Forall_forall in *. intros y Hy.
    apply Hx. eapply firstn_In. exact Hy.
Qed.

(** Addition of [Q] values does not depend on the order of the list. *)
Lemma sumQ_perm {A : Type} (f : A -> Q) (l l' : list A) :
  Permutation l l' -> Wellformed.sumQ f l == Wellformed.sumQ f l'.
Proof.
  induction 1 as [| x l l' _ IH | x y l | l l' l'' _ IH1 _ IH2]; simpl.
  - reflexivity.
  - rewrite IH. reflexivity.
  - ring.
  - rewrite IH1. exact IH2.
Qed.

Lemma sumNat_perm {A : Type} (f : A -> nat) (l l' : list A) :
  Permutation l l' -> Wellformed.sumNat f l = Wellformed.sumNat f l'.
Proof.
  induction 1 as [| x l l' _ IH | x y l | l l' l'' _ IH1 _ IH2]; simpl; lia.
Qed.

Lemma count_perm {A : Type} (p : A -> bool) (l l' : list A) :
  Permutation l l' -> JS.count p l = JS.count p l'.
Proof.
  unfold JS.count.
  induction 1 as [| x l l' _ IH | x y l | l l' l'' _ IH1 _ IH2]; simpl.
  - reflexivity.
  - destruct (p x); simpl; lia.
  - destruct (p x), (p y); reflexivity.
  - lia.
Qed.

Lemma count_complement {A : Type} (p : A -> bool) (l : list A) :
  (JS.count p l + JS.count (fun x => negb (p x)) l)%nat = List.length l.
Proof.
  unfold JS.count. induction l as [| x l IH]; simpl.
  - reflexivity.
  - destruct (p x); simpl; lia.
Qed.

Lemma count_mono {A : Type} (p q : A -> bool) (l : list A) :
  (forall x, p x = true -> q x = true) ->
  (JS.count p l <= JS.count q l)%nat.
Proof.
  intros H. unfold JS.count. induction l as [| x l IH]; simpl.
  - lia.
  - destruct (p x) eqn:E.
    + rewrite (H x E). simpl. lia.
    + destruct (q x); simpl; lia.
Qed.

Lemma count_all {A : Type} (p : A -> bool) (l : list A) :
  JS.count p l = List.length l <-> Forall (fun x => p x = true) l.
Proof.
  unfold JS.count. induction l as [| x l IH]; simpl.
  - split; [constructor | reflexivity].
  - pose proof (Facts.count_le_length p l) as Hle. unfold JS.count in Hle.
    destruct (p x) eqn:E; simpl; split; intros H.
    + constructor; [exact E | apply IH; lia].
    + inversion H; subst. f_equal. apply IH. assumption.
    + lia.
    + inversion H; congruence.
Qed.

Lemma count_none {A : Type} (p : A -> bool) (l : list A) :
  JS.count p l = 0%nat <-> Forall (fun x => p x = false) l.
Proof.
  unfold JS.count. induction l as [| x l IH]; simpl.
  - split; [constructor | reflexivity].
  - destruct (p x) eqn:E; simpl; split; intros H.
    + discriminate.
    + inversion H; congruence.
    + constructor; [exact E | apply IH, H].
    + inversion H; subst. apply IH. assumption.
Qed.

End OrderFacts.

(** ** Monthly time series: the grouping *)

Module SeriesProofs.

Import TimeSeries.

Lemma tally_ok (service : ServiceResult) (m : Month.t) :
  (Month.passCount m + Month.failCount m + Month.unknownCount m)%nat
  = Month.totalServices m ->
  Wellformed.monthOk (tally service m).
Proof.
  intros H. unfold Wellformed.monthOk, tally. simpl.
  destruct (resultIs service "PASS"), (resultIs service "FAIL"); lia.
Qed.

Lemma upsert_ok (k : string) (service : ServiceResult) (l : list Month.t) :
  Forall Wellformed.monthOk l ->
  Forall Wellformed.monthOk (upsert k service l).
Proof.
  induction 1 as [| m l Hm Hl IH]; simpl.
  - constructor; [| constructor]. apply tally_ok. reflexivity.
  - destruct (String.eqb (Month.period m) k).
    + constructor; [| exact Hl]. apply tally_ok. apply Hm.
    + constructor; assumption.
Qed.

Lemma upsert_total (k : string) (service : ServiceResult) (l : list Month.t) :
  Wellformed.sumNat Month.totalServices (upsert k service l)
  = S (Wellformed.sumNat Month.totalServices l).
Proof.
  induction l as [| m l IH]; simpl.
  - reflexivity.
  - destruct (String.eqb (Month.period m) k); simpl; lia.
Qed.

Lemma upsert_cost (k : string) (service : ServiceResult) (l : list Month.t) :
  Wellformed.sumQ Month.totalCost (upsert k service l)
  == Wellformed.sumQ Month.totalCost l + JS.orZero (estimated_cost service).
Proof.
  induction l as [| m l IH]; simpl.
  - ring.
  - destruct (String.eqb (Month.period m) k); simpl; [ring |].
    rewrite IH. ring.
Qed.

Lemma upsert_periods (k : string) (service : ServiceResult) (l : list Month.t)
  (p : string) :
  In p (map Month.period (upsert k service l)) ->
  p = k \/ In p (map Month.period l).
Proof.
  induction l as [| m l IH]; simpl.
  - intros [H | []]. left. symmetry. exact H.
  - destruct (String.eqb (Month.period m) k); simpl.
    + intros H. right. exact H.
    + intros [H | H]; [right; left; exact H |].
      destruct (IH H) as [E | I]; [left; exact E | right; right; exact I].
Qed.

Lemma upsert_NoDup (k : string) (service : ServiceResult) (l : list Month.t) :
  NoDup (map Month.period l) ->
  NoDup (map Month.period (upsert k service l)).
Proof.
  induction l as [| m l IH]; simpl; intros H.
  - constructor; [intros [] | constructor].
  - inversion H as [| ? ? Hm Hl]; subst.
    destruct (String.eqb (Month.period m) k) eqn:E; simpl.
    + constructor; assumption.
    + constructor; [| apply IH, Hl].
      intros C. apply upsert_periods in C. destruct C as [C | C].
      * apply String.eqb_neq in E. congruence.
      * contradiction.
Qed.

Section Aggregated.

Variable parseDate : string -> Z.
Variable formatYearMonth : Z -> string.

Lemma monthStep_cases (l : list Month.t) (s : ServiceResult) :
  (Wellformed.dated s = true
   /\ exists k, monthStep parseDate formatYearMonth l s = upsert k s l)
  \/ (Wellformed.dated s = false /\ monthStep parseDate formatYearMonth l s = l).
Proof.
  unfold monthStep, Wellformed.dated.
  destruct (start_date s) as [d |]; [| right; split; reflexivity].
  destruct (JS.truthy (Some d)); [left | right]; split; try reflexivity.
  eexists. reflexivity.
Qed.

Lemma months_invariant (services : list ServiceResult) (l : list Month.t) :
  Forall Wellformed.monthOk l -> NoDup (map Month.period l) ->
  let l' := fold_left (monthStep parseDate formatYearMonth) services l in
  Forall Wellformed.monthOk l'
  /\ NoDup (map Month.period l')
  /\ Wellformed.sumNat Month.totalServices l'
     = (Wellformed.sumNat Month.totalServices l + JS.count Wellformed.dated services)%nat
  /\ Wellformed.sumQ Month.totalCost l'
     == Wellformed.sumQ Month.totalCost l
        + Wellformed.sumQ (fun s => JS.orZero (estimated_cost s))
                          (filter Wellformed.dated services).
Proof.
  revert l. induction services as [| s rest IH]; intros l Hok Hnd; simpl.
  - split; [exact Hok |]. split; [exact Hnd |]. split; [unfold JS.count; simpl; lia | ring].
  - destruct (monthStep_cases l s) as [[Hd [k Hk]] | [Hd Hk]]; rewrite Hk.
    + destruct (IH (upsert k s l) (upsert_ok k s l Hok) (upsert_NoDup k s l Hnd))
        as [A [B [C D]]].
      split; [exact A |]. split; [exact B |]. split.
      * rewrite C, upsert_total. unfold JS.count. simpl. rewrite Hd. simpl. lia.
      * rewrite D, upsert_cost, Hd. simpl. ring.
    + destruct (IH l Hok Hnd) as [A [B [C D]]].
      split; [exact A |]. split; [exact B |]. split.
      * rewrite C. unfold JS.count. simpl. rewrite Hd. reflexivity.
      * rewrite D, Hd. reflexivity.
Qed.

Lemma sortedMonths_perm (services : list ServiceResult) :
  Permutation (sortedMonths parseDate formatYearMonth services)
              (fold_left (monthStep parseDate formatYearMonth) services []).
Proof.
  apply SortFacts.sort_perm.
Qed.

Lemma sortedMonths_ok (services : list ServiceResult) :
  Forall Wellformed.monthOk (sortedMonths parseDate formatYearMonth services).
Proof.
  apply SortFacts.Forall_sort.
  apply (months_invariant services []); constructor.
Qed.

End Aggregated.

Lemma entries_periods (l : list Month.t) (prev : option Month.t) :
  map period (entriesFrom prev l) = map Month.period l.
Proof.
  revert prev. induction l as [| m l IH]; intros prev; simpl.
  - reflexivity.
  - rewrite IH. reflexivity.
Qed.

Lemma entries_total (l : list Month.t) (prev : option Month.t) :
  Wellformed.sumNat totalServices (entriesFrom prev l)
  = Wellformed.sumNat Month.totalServices l.
Proof.
  revert prev. induction l as [| m l IH]; intros prev; simpl.
  - reflexivity.
  - rewrite IH. reflexivity.
Qed.

Lemma entries_cost (l : list Month.t) (prev : option Month.t) :
  Wellformed.sumQ totalCost (entriesFrom prev l)
  = Wellformed.sumQ Month.totalCost l.
Proof.
  revert prev. induction l as [| m l IH]; intros prev; simpl.
  - reflexivity.
  - rewrite IH. reflexivity.
Qed.

Lemma entries_Forall (P : TimeSeriesData -> Prop) (l : list Month.t) :
  (forall prev m, In m l -> P (entryOf prev m)) ->
  forall prev, Forall P (entriesFrom prev l).
Proof.
  induction l as [| m l IH]; intros H prev; simpl.
  - constructor.
  - constructor.
    + apply H. left. reflexivity.
    + apply IH. intros p m' Hm. apply H. right. exact Hm.
Qed.

(** A month entry splits its records into pass, fail and unknown. *)
Lemma entry_partition (prev : option Month.t) (m : Month.t) :
  Wellformed.monthOk m ->
  let e := entryOf prev m in
  (0 < totalServices e)%nat
  /\ (passCount e + failCount e + unknownCount e)%nat = totalServices e
  /\ passRate e + failRate e + unknownRate e == 100
  /\ avgCost e * JS.num (totalServices e) == totalCost e.
Proof.
  intros [Hpos Hsum]. unfold entryOf.
  cbn [totalServices passCount failCount unknownCount passRate failRate
       unknownRate avgCost totalCost].
  assert (E : (0 <? Month.totalServices m)%nat = true) by (apply Nat.ltb_lt, Hpos).
  rewrite E.
  pose proof (Facts.num_pos _ Hpos) as Hn.
  split; [exact Hpos |]. split; [exact Hsum |]. split.
  - rewrite <- Hsum in *. rewrite !Facts.num_plus in *. field. lra.
  - field. lra.
Qed.

Lemma adjacent_entries (l : list Month.t) (prev : option Month.t)
  (before after : list TimeSeriesData) (e1 e2 : TimeSeriesData) :
  entriesFrom prev l = before ++ e1 :: e2 :: after ->
  exists p m1 m2,
    In m1 l /\ e1 = entryOf p m1 /\ e2 = entryOf (Some m1) m2.
Proof.
  revert prev before. induction l as [| m l IH]; intros prev before H; simpl in H.
  - destruct before; discriminate H.
  - destruct before as [| b before]; simpl in H.
    + injection H as H1 H2. destruct l as [| m2 l]; simpl in H2; [discriminate |].
      injection H2 as H2 _.
      exists prev, m, m2. split; [left; reflexivity |].
      split; symmetry; assumption.
    + injection H as _ H.
      destruct (IH _ _ H) as [p [m1 [m2 [Hin [E1 E2]]]]].
      exists p, m1, m2. split; [right; exact Hin | split; assumption].
Qed.

Lemma strictly_ascending {A : Type} (f : A -> string) (l : list A) :
  Sorted (fun a b => String.leb (f a) (f b) = true) l ->
  NoDup (map f l) ->
  Sorted Wellformed.laterPeriod (map f l).
Proof.
  induction 1 as [| a l Hs IH Ha]; simpl; intros Hnd.
  - constructor.
  - inversion Hnd as [| ? ? Hnot Hnd']; subst.
    constructor; [apply IH, Hnd' |].
    destruct Ha as [| b l Hab]; simpl; constructor.
    split; [exact Hab |].
    intros C. apply Hnot. left. symmetry. exact C.
Qed.

(** X1: every month of the time series has at least one record, its pass,
    fail and unknown counts add up to its total, and so do its three rates
    to 100; its average cost times its total is its total cost. *)
Theorem month_entries_partition :
  forall parseDate formatYearMonth services,
    Forall (fun e =>
              (0 < totalServices e)%nat
              /\ (passCount e + failCount e + unknownCount e)%nat
                 = totalServices e
              /\ passRate e + failRate e + unknownRate e == 100
              /\ avgCost e * JS.num (totalServices e) == totalCost e)
           (calculateEnhancedTimeSeriesData parseDate formatYearMonth services).
Proof.
  intros parseDate formatYearMonth services.
  unfold calculateEnhancedTimeSeriesData.
  apply entries_Forall. intros prev m Hm.
  apply entry_partition.
  pose proof (sortedMonths_ok parseDate formatYearMonth services) as Hok.
  rewrite Forall_forall in Hok. apply Hok, Hm.
Qed.

(** X2: the months account for exactly the records that have a start date:
    their totals add up to the number of such records and their costs to the
    cost of such records; a record without a start date is in no month. *)
Theorem months_cover_dated_records :
  forall parseDate formatYearMonth services,
    let series :=
      calculateEnhancedTimeSeriesData parseDate formatYearMonth services in
    Wellformed.sumNat totalServices series
    = JS.count (fun s => JS.truthy (start_date s)) services
    /\ Wellformed.sumQ totalCost series
       == Wellformed.sumQ (fun s => JS.orZero (estimated_cost s))
            (filter (fun s => JS.truthy (start_date s)) services).
Proof.
  intros parseDate formatYearMonth services series. subst series.
  unfold calculateEnhancedTimeSeriesData.
  rewrite entries_total, entries_cost.
  pose proof (sortedMonths_perm parseDate formatYearMonth services) as Hp.
  rewrite (OrderFacts.sumNat_perm _ _ _ Hp), (OrderFacts.sumQ_perm _ _ _ Hp).
  destruct (months_invariant parseDate formatYearMonth services [])
    as [_ [_ [C D]]]; [constructor | constructor |].
  split.
  - rewrite C. reflexivity.
  - rewrite D. exact (Qplus_0_l _).
Qed.

(** X3: the periods of the time series are pairwise distinct and each one
    is strictly later, in the order of the keys, than the one before it. *)
Theorem months_strictly_ascending :
  forall parseDate formatYearMonth services,
    let series :=
      calculateEnhancedTimeSeriesData parseDate formatYearMonth services in
    NoDup (map period series)
    /\ Sorted Wellformed.laterPeriod (map period series).
Proof.
  intros parseDate formatYearMonth services series. subst series.
  unfold calculateEnhancedTimeSeriesData. rewrite entries_periods.
  assert (Hnd : NoDup (map Month.period
                         (sortedMonths parseDate formatYearMonth services))).
  { apply (Permutation_NoDup
             (Permutation_map Month.period
                (Permutation_sym
                   (sortedMonths_perm parseDate formatYearMonth services)))).
    apply (months_invariant parseDate formatYearMonth services []); constructor. }
  split; [exact Hnd |].
  apply strictly_ascending; [| exact Hnd].
  unfold sortedMonths.
  apply (OrderFacts.sort_Sorted
           (fun a b => String.leb (Month.period a) (Month.period b))).
  intros a b. apply String.leb_total.
Qed.

(** X4: the first month reports no change; every later month reports the
    percentage change of its record count against the month before it, the
    percentage change of its cost when that month's cost was positive (0
    otherwise), and the difference of the pass rates when that month had a
    pass (0 otherwise). *)
Theorem month_over_month_changes :
  forall parseDate formatYearMonth services,
    let series :=
      calculateEnhancedTimeSeriesData parseDate formatYearMonth services in
    (forall e rest, series = e :: rest -> momChange e = MomChange.mk 0 0 0)
    /\ (forall before e1 e2 after,
           series = before ++ e1 :: e2 :: after ->
           MomChange.services (momChange e2)
           == (JS.num (totalServices e2) - JS.num (totalServices e1))
              / JS.num (totalServices e1) * 100
           /\ MomChange.cost (momChange e2)
              == (if JS.Qgtb (totalCost e1) 0
                  then (totalCost e2 - totalCost e1) / totalCost e1 * 100
                  else 0)
           /\ MomChange.passRate (momChange e2)
              == (if (0 <? passCount e1)%nat
                  then passRate e2 - passRate e1 else 0)).
Proof.
  intros parseDate formatYearMonth services series. subst series.
  unfold calculateEnhancedTimeSeriesData.
  pose proof (sortedMonths_ok parseDate formatYearMonth services) as Hok.
  split.
  - intros e rest H.
    destruct (sortedMonths parseDate formatYearMonth services) as [| m l];
      simpl in H; [discriminate |].
    injection H as <- _. reflexivity.
  - intros before e1 e2 after H.
    destruct (adjacent_entries _ _ _ _ _ _ H) as [p [m1 [m2 [Hin [-> ->]]]]].
    rewrite Forall_forall in Hok. destruct (Hok m1 Hin) as [Hpos _].
    unfold entryOf.
    cbn [momChange totalServices totalCost passCount passRate
         MomChange.services MomChange.cost MomChange.passRate].
    assert (E : (0 <? Month.totalServices m1)%nat = true)
      by (apply Nat.ltb_lt, Hpos).
    rewrite E.
    split; [reflexivity |]. split; [reflexivity |].
    destruct (0 <? Month.passCount m1)%nat; reflexivity.
Qed.

End SeriesProofs.

(** ** Quality dimensions: further properties *)

Module DimensionProofs.

Import DataReadiness.

Lemma num_inj (a b : nat) : JS.num a == JS.num b -> a = b.
Proof.
  unfold JS.num. intros H.
  apply (proj1 (inject_Z_injective _ _)) in H. lia.
Qed.

(** A percentage is 100 exactly for the whole and 0 exactly for nothing. *)
Lemma percentage_extremes (part whole : nat) :
  (0 < whole)%nat ->
  ((JS.num part / JS.num whole) * 100 == 100 <-> part = whole)
  /\ ((JS.num part / JS.num whole) * 100 == 0 <-> part = 0%nat).
Proof.
  intros Hw. pose proof (Facts.num_pos _ Hw) as Hn.
  assert (Hc : JS.num part == (JS.num part / JS.num whole) * JS.num whole)
    by (field; lra).
  split; split; intros H.
  - apply num_inj.
    assert (Ht : JS.num part / JS.num whole == 1) by lra.
    rewrite Ht in Hc. lra.
  - subst part. field. lra.
  - apply num_inj.
    assert (Ht : JS.num part / JS.num whole == 0) by lra.
    rewrite Ht in Hc. change (JS.num 0) with 0. lra.
  - subst part. change (JS.num 0) with 0. field. lra.
Qed.

Lemma percentage_mono (a b whole : nat) :
  (0 < whole)%nat -> (a <= b)%nat ->
  (JS.num a / JS.num whole) * 100 <= (JS.num b / JS.num whole) * 100.
Proof.
  intros Hw Hab. pose proof (Facts.num_pos _ Hw) as Hn.
  pose proof (Facts.num_le _ _ Hab) as Hq.
  assert (JS.num a / JS.num whole <= JS.num b / JS.num whole); [| lra].
  apply Qle_shift_div_l; [exact Hn |].
  assert (E : JS.num a / JS.num whole * JS.num whole == JS.num a)
    by (field; lra).
  rewrite E. exact Hq.
Qed.

Lemma completeness_as_count (services : list ServiceResult) :
  services <> [] ->
  calculateCompleteness services
  = (JS.num (JS.count hasAllRequiredFields services)
     / JS.num (List.length services)) * 100.
Proof.
  intros Hne. unfold calculateCompleteness.
  rewrite (Facts.eqb_length_nonempty services Hne), Facts.counting_loop.
  reflexivity.
Qed.

(** X5: for a non-empty record set the completeness score is 100 exactly
    when every record has all required fields, and 0 exactly when no record
    has. *)
Theorem completeness_extremes :
  forall services,
    services <> [] ->
    (calculateCompleteness services == 100
     <-> Forall (fun s => hasAllRequiredFields s = true) services)
    /\ (calculateCompleteness services == 0
        <-> Forall (fun s => hasAllRequiredFields s = false) services).
Proof.
  intros services Hne. rewrite (completeness_as_count services Hne).
  destruct (percentage_extremes (JS.count hasAllRequiredFields services)
              (List.length services) (Facts.length_pos services Hne))
    as [H100 H0].
  split.
  - rewrite H100. apply OrderFacts.count_all.
  - rewrite H0. apply OrderFacts.count_none.
Qed.

Lemma completeness_extremes_witness :
  calculateCompleteness [Examples.clean; Examples.clean] == 100.
Proof.
  apply (proj1 (completeness_extremes [Examples.clean; Examples.clean]
                  ltac:(discriminate))).
  repeat constructor.
Defined.

Lemma row_ok (services : list ServiceResult) (name text : string)
  (present : ServiceResult -> bool) :
  services <> [] ->
  (forall s, hasAllRequiredFields s = true -> present s = true) ->
  let r := FieldCompleteness.rowOf services name text present
             (fun s => negb (present s)) in
  (FieldCompleteness.completeRecords r + FieldCompleteness.missingRecords r)%nat
  = List.length services
  /\ FieldCompleteness.totalRecords r = List.length services
  /\ 0 <= FieldCompleteness.completeness r <= 100
  /\ calculateCompleteness services <= FieldCompleteness.completeness r.
Proof.
  intros Hne Hp. unfold FieldCompleteness.rowOf.
  cbn [FieldCompleteness.completeRecords FieldCompleteness.missingRecords
       FieldCompleteness.totalRecords FieldCompleteness.completeness].
  pose proof (Facts.length_pos services Hne) as Hpos.
  split; [apply OrderFacts.count_complement |].
  split; [reflexivity |].
  split.
  - apply Facts.percentage_bounds.
    + apply Facts.num_pos, Hpos.
    + apply Facts.num_nonneg.
    + apply Facts.num_le, Facts.count_le_length.
  - rewrite (completeness_as_count services Hne).
    apply percentage_mono; [exact Hpos |].
    apply OrderFacts.count_mono, Hp.
Qed.

(** X6: the field-completeness table is empty for the empty record set;
    otherwise it has the six fields in a fixed order, and in every row the
    complete and the missing records add up to all records, the percentage
    lies in [0, 100], and the all-fields completeness score is at most that
    percentage. *)
Theorem field_completeness_rows :
  forall services,
    let rows := FieldCompleteness.calculateFieldCompleteness services in
    (services = [] -> rows = [])
    /\ (services <> [] ->
        map FieldCompleteness.field rows
        = ["service_division_owner"; "service_result"; "estimated_cost";
           "ward"; "start_date"; "end_date"])
    /\ Forall (fun r =>
                 (FieldCompleteness.completeRecords r
                  + FieldCompleteness.missingRecords r)%nat
                 = List.length services
                 /\ FieldCompleteness.totalRecords r = List.length services
                 /\ 0 <= FieldCompleteness.completeness r <= 100
                 /\ calculateCompleteness services
                    <= FieldCompleteness.completeness r)
              rows.
Proof.
  intros services rows. subst rows.
  unfold FieldCompleteness.calculateFieldCompleteness.
  destruct services as [| s0 rest].
  - simpl. split; [reflexivity |]. split; [congruence | constructor].
  - assert (Hne : s0 :: rest <> []) by discriminate.
    rewrite (Facts.eqb_length_nonempty _ Hne).
    split; [intros H; discriminate H |]. split; [reflexivity |].
    repeat (constructor;
            [apply (row_ok (s0 :: rest) _ _ _ Hne);
             intros s Hs; unfold hasAllRequiredFields in Hs;
             repeat (apply andb_true_iff in Hs; destruct Hs as [Hs ?]);
             assumption |]).
    constructor.
Qed.

Lemma sumOver_perm (f : ServiceResult -> Q) (l l' : list ServiceResult) :
  Permutation l l' -> Spec.sumOver f l == Spec.sumOver f l'.
Proof.
  apply (OrderFacts.sumQ_perm f).
Qed.

(** X7: the accuracy, completeness and consistency scores do not depend on
    the order of the records. *)
Theorem scores_ignore_record_order :
  forall parseDate clk services services',
    Permutation services services' ->
    calculateAccuracy parseDate clk services
    == calculateAccuracy parseDate clk services'
    /\ calculateCompleteness services == calculateCompleteness services'
    /\ calculateConsistency services == calculateConsistency services'.
Proof.
  intros parseDate clk services services' Hp.
  pose proof (Permutation_length Hp) as Hl.
  unfold calculateAccuracy, calculateCompleteness, calculateConsistency.
  rewrite !Facts.counting_loop, <- Hl.
  rewrite <- (OrderFacts.count_perm hasAllRequiredFields _ _ Hp).
  rewrite <- (OrderFacts.count_perm inconsistent _ _ Hp).
  destruct (Nat.eqb (List.length services) 0); [repeat split; reflexivity |].
  cbv zeta. rewrite !QualityProofs.accuracy_loop.
  rewrite <- (sumOver_perm (Spec.recordPenalty parseDate clk) _ _ Hp).
  repeat split; reflexivity.
Qed.

Lemma scores_ignore_record_order_witness :
  calculateAccuracy Examples.parse0 Examples.clock0
    [Examples.doublyInvalid; Examples.clean]
  == calculateAccuracy Examples.parse0 Examples.clock0
       [Examples.clean; Examples.doublyInvalid].
Proof.
  apply (scores_ignore_record_order Examples.parse0 Examples.clock0
           [Examples.doublyInvalid; Examples.clean]
           [Examples.clean; Examples.doublyInvalid]).
  apply perm_swap.
Defined.

(** *** Timeliness *)

Section Recency.

Variable parseDate : string -> Z.
Variable clk : Clock.

Lemma latest_le (dates : list Z) (init bound : Z) :
  (init <= bound)%Z -> Forall (fun d => (d <= bound)%Z) dates ->
  (fold_left (fun latest date => if (date >? latest)%Z then date else latest)
             dates init <= bound)%Z.
Proof.
  intros Hi Hd. revert init Hi.
  induction Hd as [| d dates Hd _ IH]; intros init Hi; simpl.
  - exact Hi.
  - apply IH. destruct (d >? init)%Z; assumption.
Qed.

Lemma latest_ge_init (dates : list Z) (init : Z) :
  (init <= fold_left (fun latest date => if (date >? latest)%Z then date else latest)
                     dates init)%Z.
Proof.
  revert init. induction dates as [| d dates IH]; intros init; simpl.
  - lia.
  - specialize (IH (if (d >? init)%Z then d else init)).
    destruct (d >? init)%Z eqn:E; [apply Z.gtb_lt in E |]; lia.
Qed.

Lemma latest_ge (dates : list Z) (init d : Z) :
  In d dates ->
  (d <= fold_left (fun latest date => if (date >? latest)%Z then date else latest)
                  dates init)%Z.
Proof.
  revert init. induction dates as [| x dates IH]; intros init; simpl.
  - intros [].
  - intros [-> | H]; [| apply IH, H].
    pose proof (latest_ge_init dates (if (d >? init)%Z then d else init)) as G.
    destruct (d >? init)%Z eqn:E; [lia |].
    assert (d <= init)%Z; [| lia].
    rewrite Z.gtb_ltb in E. apply Z.ltb_ge in E. exact E.
Qed.

Lemma recency_zero (days : Z) : (365 <= days)%Z -> recencyScoreOf days == 0.
Proof.
  intros H. unfold recencyScoreOf.
  rewrite Zle_Qle in H. change (inject_Z 365) with 365 in H.
  apply Q.max_l.
  apply Qle_trans with ((1 - inject_Z days / 365) * 100); [apply Q.le_min_r |].
  qlra.
Qed.

Lemma recency_full (days : Z) : (days <= 0)%Z -> recencyScoreOf days == 100.
Proof.
  intros H. unfold recencyScoreOf.
  rewrite Zle_Qle in H. change (inject_Z 0) with 0 in H.
  assert (E : Qmin 100 ((1 - inject_Z days / 365) * 100) == 100).
  { apply Q.min_l. qlra. }
  rewrite E. apply Q.max_r. lra.
Qed.

(** X8: when the clock is at least a year past the epoch and every end date
    is at least 365 days old, the timeliness score is at most 40; when some
    end date is less than a day old (or in the future), it is at least 60. *)
Theorem timeliness_follows_latest_end_date :
  forall services,
    ((365 * JS.msPerDay <= currentDate clk)%Z ->
     Forall (fun d => (d + 365 * JS.msPerDay <= currentDate clk)%Z)
            (endDatesOf parseDate services) ->
     calculateTimeliness parseDate clk services <= 40)
    /\ ((exists d, In d (endDatesOf parseDate services)
                   /\ (currentDate clk < d + JS.msPerDay)%Z) ->
        60 <= calculateTimeliness parseDate clk services).
Proof.
  intros services. unfold calculateTimeliness.
  split.
  - intros Hclock Hold.
    destruct (Nat.eqb (List.length (endDatesOf parseDate services)) 0);
      [lra |].
    cbv zeta.
    match goal with
    | |- context [coverageScoreOf ?r] =>
        pose proof (QualityProofs.coverage_bounds r) as Hc
    end.
    rewrite recency_zero; [lra |].
    unfold daysSinceUpdateOf, JS.floorDays.
    apply Z.div_le_lower_bound; [unfold JS.msPerDay; lia |].
    assert (mostRecentOf (endDatesOf parseDate services)
            <= currentDate clk - 365 * JS.msPerDay)%Z; [| lia].
    apply latest_le; [lia |].
    eapply Forall_impl; [| exact Hold]. simpl. intros d Hd. lia.
  - intros [d [Hin Hd]].
    destruct (Nat.eqb (List.length (endDatesOf parseDate services)) 0) eqn:E.
    + apply Nat.eqb_eq in E.
      destruct (endDatesOf parseDate services); [destruct Hin | discriminate E].
    + cbv zeta.
      match goal with
      | |- context [coverageScoreOf ?r] =>
          pose proof (QualityProofs.coverage_bounds r) as Hc
      end.
      rewrite recency_full; [lra |].
      unfold daysSinceUpdateOf, JS.floorDays.
      pose proof (latest_ge (endDatesOf parseDate services) 0 d Hin) as Hm.
      fold (mostRecentOf (endDatesOf parseDate services)) in Hm.
      assert ((currentDate clk - mostRecentOf (endDatesOf parseDate services))
              / JS.msPerDay < 1)%Z; [| lia].
      apply Z.div_lt_upper_bound; [unfold JS.msPerDay; lia | lia].
Qed.

End Recency.

Lemma timeliness_follows_latest_end_date_witness :
  calculateTimeliness Examples.parse0
    (mkClock 1735689600000 1767225600000 157766400000) [Examples.clean] <= 40.
Proof.
  apply (proj1 (timeliness_follows_latest_end_date Examples.parse0
                  (mkClock 1735689600000 1767225600000 157766400000)
                  [Examples.clean])).
  - vm_compute. discriminate.
  - repeat constructor. vm_compute. discriminate.
Defined.

(** *** Metadata: duplicate keys *)

Lemma set_add_new (k : string) (keys : set string) :
  ~ In k keys -> List.length (set_add string_dec k keys) = S (List.length keys).
Proof.
  induction keys as [| x keys IH]; simpl; intros H.
  - reflexivity.
  - destruct (string_dec k x) as [-> | _]; [exfalso; apply H; left; reflexivity |].
    simpl. rewrite IH; [reflexivity |]. intros C. apply H. right. exact C.
Qed.

Lemma duplicateStep_facts (st : set string * nat) (s : ServiceResult) :
  NoDup (fst st) ->
  let st1 := duplicateStep st s in
  NoDup (fst st1)
  /\ (snd st1 + List.length (fst st1))%nat
     = S (snd st + List.length (fst st))
  /\ (forall k, In k (fst st1) <-> In k (fst st) \/ k = recordKey s).
Proof.
  intros Hnd. unfold duplicateStep.
  destruct (set_mem string_dec (recordKey s) (fst st)) eqn:E; cbn [fst snd].
  - apply set_mem_correct1 in E.
    split; [exact Hnd |]. split; [lia |].
    intros k. split; [tauto |]. intros [H | ->]; assumption.
  - apply set_mem_complete1 in E.
    split; [apply set_add_nodup, Hnd |].
    split; [rewrite (set_add_new _ _ E); lia |].
    intros k. split.
    + intros H. apply set_add_elim in H. tauto.
    + intros [H | ->]; [apply set_add_intro1, H | apply set_add_intro2; reflexivity].
Qed.

Lemma duplicate_invariant (services : list ServiceResult)
  (st : set string * nat) :
  NoDup (fst st) ->
  let st' := fold_left duplicateStep services st in
  NoDup (fst st')
  /\ (snd st' + List.length (fst st'))%nat
     = (snd st + List.length (fst st) + List.length services)%nat
  /\ (forall k, In k (fst st')
                <-> In k (fst st) \/ In k (map recordKey services)).
Proof.
  revert st. induction services as [| s rest IH]; intros st Hnd.
  - simpl. split; [exact Hnd |]. split; [lia |]. intros k. tauto.
  - destruct (duplicateStep_facts st s Hnd) as [A1 [B1 C1]].
    destruct (IH (duplicateStep st s) A1) as [A [B C]].
    cbn [fold_left map List.length In].
    split; [exact A |]. split; [lia |].
    intros k. rewrite C, C1. split.
    + intros [[H | H] | H]; auto.
    + intros [H | [H | H]]; auto.
Qed.

(** X9: after the duplicate scan the set holds each record key once, and
    the duplicates plus the distinct keys are all the records; so for a
    non-empty record set the uniqueness score is 100 exactly when no two
    records share their (start, end, division, ward) key. *)
Theorem duplicates_and_distinct_keys :
  forall services,
    let st := fold_left duplicateStep services ([], 0%nat) in
    NoDup (fst st)
    /\ (snd st + List.length (fst st))%nat = List.length services
    /\ (forall k, In k (fst st) <-> In k (map recordKey services))
    /\ (services <> [] ->
        (uniquenessScoreOf services == 100
         <-> NoDup (map recordKey services))).
Proof.
  intros services st. subst st.
  destruct (duplicate_invariant services ([], 0%nat)) as [A [B C]];
    [constructor |]. simpl in B, C.
  assert (C' : forall k,
             In k (fst (fold_left duplicateStep services ([], 0%nat)))
             <-> In k (map recordKey services)).
  { intros k. rewrite C. tauto. }
  split; [exact A |]. split; [exact B |]. split; [exact C' |].
  intros Hne. unfold uniquenessScoreOf. cbv zeta.
  pose proof (Facts.length_pos services Hne) as Hpos.
  assert (E : (0 <? List.length services)%nat = true) by (apply Nat.ltb_lt, Hpos).
  rewrite E.
  set (d := snd (fold_left duplicateStep services ([], 0%nat))) in *.
  set (keys := fst (fold_left duplicateStep services ([], 0%nat))) in *.
  pose proof (Facts.num_pos _ Hpos) as Hn.
  assert (Hz : (JS.num (List.length services) - JS.num d)
               / JS.num (List.length services) * 100 == 100 <-> d = 0%nat).
  { split; intros H.
    - apply num_inj. change (JS.num 0) with 0.
      assert (Hc : JS.num (List.length services) - JS.num d
                   == ((JS.num (List.length services) - JS.num d)
                       / JS.num (List.length services))
                      * JS.num (List.length services)) by (field; lra).
      assert (Ht : (JS.num (List.length services) - JS.num d)
                   / JS.num (List.length services) == 1) by lra.
      rewrite Ht in Hc. lra.
    - rewrite H. change (JS.num 0) with 0. field. lra. }
  rewrite Hz. split; intros H.
  - apply (NoDup_incl_NoDup A).
    + rewrite length_map. lia.
    + intros k Hk. apply C', Hk.
  - assert (List.length (map recordKey services) <= List.length keys)%nat.
    { apply NoDup_incl_length; [exact H |]. intros k Hk. apply C', Hk. }
    rewrite length_map in *. lia.
Qed.

End DimensionProofs.

(** ** Readiness aggregation *)

Module ReadinessProofs.

(** X10: the readiness scores of the data-readiness endpoint restate the
    quality scores: overall and data readiness are the overall quality
    score, operational readiness is the timeliness score, quality readiness
    is the mean of accuracy, consistency and completeness; all four lie in
    [0, 100]. *)
Theorem readiness_restates_quality :
  forall parseDate clk services,
    let dq :=
      DataReadiness.calculateAuditAlignedDataQuality parseDate clk services in
    let rm := DataReadiness.calculateODRAReadinessMetrics services dq in
    overallReadinessScore rm == overallScore dq
    /\ dataReadinessScore rm == overallScore dq
    /\ operationalReadinessScore rm == score (timeliness dq)
    /\ qualityReadinessScore rm
       == (score (accuracy dq) + score (consistency dq)
           + score (completeness dq)) / 3
    /\ 0 <= overallReadinessScore rm <= 100
    /\ 0 <= operationalReadinessScore rm <= 100
    /\ 0 <= qualityReadinessScore rm <= 100.
Proof.
  intros parseDate clk services dq rm. subst dq rm.
  unfold DataReadiness.calculateODRAReadinessMetrics,
    DataReadiness.calculateAuditAlignedDataQuality.
  cbn [overallReadinessScore dataReadinessScore operationalReadinessScore
       qualityReadinessScore overallScore score completeness accuracy
       consistency timeliness validity].
  pose proof (QualityProofs.completeness_bounds services) as Hc.
  pose proof (QualityProofs.accuracy_bounds parseDate clk services) as Ha.
  pose proof (QualityProofs.consistency_bounds services) as Hk.
  pose proof (QualityProofs.timeliness_bounds parseDate clk services) as Ht.
  pose proof (QualityProofs.metadata_bounds services) as Hm.
  revert Hc Ha Hk Ht Hm.
  generalize (DataReadiness.calculateCompleteness services),
    (DataReadiness.calculateAccuracy parseDate clk services),
    (DataReadiness.calculateConsistency services),
    (DataReadiness.calculateTimeliness parseDate clk services),
    (DataReadiness.calculateMetadataQuality services).
  intros c a k t m Hc Ha Hk Ht Hm.
  repeat split; qlra.
Qed.





Lemma fraction_bounds (part whole : nat) :
  (0 < whole)%nat -> (part <= whole)%nat ->
  0 <= JS.num part / JS.num whole <= 1.
Proof.
  intros Hw Hp. pose proof (Facts.num_pos _ Hw) as Hn.
  pose proof (Facts.num_nonneg part). pose proof (Facts.num_le _ _ Hp).
  split; [apply Qle_shift_div_l | apply Qle_shift_div_r]; lra.
Qed.

Lemma count_disjoint {A : Type} (p q : A -> bool) (l : list A) :
  (forall x, p x = true -> q x = false) ->
  (JS.count p l + JS.count q l <= List.length l)%nat.
Proof.
  intros H. unfold JS.count. induction l as [| x l IH]; simpl.
  - lia.
  - destruct (p x) eqn:E.
    + rewrite (H x E). simpl. lia.
    + destruct (q x); simpl; lia.
Qed.

(** X13: for a non-empty record set every score of the dashboard's quality
    calculator lies in [0, 100]. *)
Theorem dashboard_quality_scores_in_range :
  forall parseDate clk services,
    services <> [] ->
    let dq :=
      QualityMetrics.calculateDataQualityMetrics parseDate clk services in
    0 <= score (completeness dq) <= 100
    /\ 0 <= score (accuracy dq) <= 100
    /\ 0 <= score (timeliness dq) <= 100
    /\ 0 <= score (consistency dq) <= 100
    /\ 0 <= score (validity dq) <= 100
    /\ 0 <= overallScore dq <= 100.
Proof.
  intros parseDate clk services Hne dq.
  assert (H5 : 0 <= score (completeness dq) <= 100
               /\ 0 <= score (accuracy dq) <= 100
               /\ 0 <= score (timeliness dq) <= 100
               /\ 0 <= score (consistency dq) <= 100
               /\ 0 <= score (validity dq) <= 100).
  { subst dq. unfold QualityMetrics.calculateDataQualityMetrics.
    cbn [score completeness accuracy timeliness consistency validity].
    pose proof (Facts.length_pos services Hne) as Hpos.
    assert (E : (0 <? List.length services)%nat = true)
      by (apply Nat.ltb_lt, Hpos).
    rewrite E.
    pose proof (Facts.num_pos _ Hpos) as Hn.
    split; [| split; [| split; [| split]]].
    - unfold QualityMetrics.completenessMetrics.
      cbn [map snd fold_left List.length].
      repeat match goal with
             | |- context [JS.num (JS.count ?p services)
                           / JS.num (List.length services)] =>
                 let H := fresh "F" in
                 pose proof (fraction_bounds (JS.count p services)
                               (List.length services) Hpos
                               (Facts.count_le_length p services)) as H;
                 revert H;
                 generalize (JS.num (JS.count p services)
                             / JS.num (List.length services))
             end.
      intros. change (JS.num 6) with 6. qlra.
    - apply Facts.percentage_bounds; [exact Hn | apply Facts.num_nonneg |].
      apply Facts.num_le, count_disjoint.
      intros s. unfold QualityMetrics.wardValid, wardIs.
      destruct (ward s) as [w |]; [| discriminate].
      intros H. apply Z.eqb_neq. intros ->. discriminate H.
    - apply Facts.percentage_bounds; [exact Hn | apply Facts.num_nonneg |].
      apply Facts.num_le, Facts.count_le_length.
    - apply Facts.percentage_bounds; [exact Hn | apply Facts.num_nonneg |].
      apply Facts.num_le, Facts.count_le_length.
    - pose proof (Facts.count_le_length QualityMetrics.resultValid services) as H1.
      pose proof (Facts.count_le_length QualityMetrics.costValid services) as H2.
      assert (Hs : (JS.count QualityMetrics.resultValid services
                    + JS.count QualityMetrics.costValid services
                    <= 2 * List.length services)%nat) by lia.
      apply Facts.num_le in Hs. rewrite Facts.num_plus in Hs.
      assert (Hd : JS.num (2 * List.length services)
                   == JS.num (List.length services) * 2).
      { replace (2 * List.length services)%nat
          with (List.length services + List.length services)%nat by lia.
        rewrite Facts.num_plus. ring. }
      rewrite Hd in Hs. rewrite Facts.num_plus.
      pose proof (Facts.num_nonneg (JS.count QualityMetrics.resultValid services)).
      pose proof (Facts.num_nonneg (JS.count QualityMetrics.costValid services)).
      apply Facts.percentage_bounds; lra. }
  destruct H5 as [A [B [C [D E]]]].
  split; [exact A |]. split; [exact B |]. split; [exact C |].
  split; [exact D |]. split; [exact E |].
  assert (Ho : overallScore dq
               == (score (completeness dq) + score (accuracy dq)
                   + score (timeliness dq) + score (consistency dq)
                   + score (validity dq)) / 5) by reflexivity.
  rewrite Ho. clear Ho.
  revert A B C D E.
  generalize (score (completeness dq)), (score (accuracy dq)),
    (score (timeliness dq)), (score (consistency dq)), (score (validity dq)).
  intros. qlra.
Qed.

Lemma dashboard_quality_scores_in_range_witness :
  0 <= overallScore
         (QualityMetrics.calculateDataQualityMetrics
            Examples.parse0 Examples.clock0
            [Examples.clean; Examples.doublyInvalid])
    <= 100.
Proof.
  apply (dashboard_quality_scores_in_range
           Examples.parse0 Examples.clock0
           [Examples.clean; Examples.doublyInvalid]).
  discriminate.
Defined.

End ReadinessProofs.

(** ** Ward analysis: totals and rates *)

Module WardTotals.

Import WardAnalysis.

Lemma sumCost_as_sum (services : list ServiceResult) (acc : Q) :
  fold_left (fun sum s => sum + JS.orZero (estimated_cost s)) services acc
  == acc + Wellformed.sumQ (fun s => JS.orZero (estimated_cost s)) services.
Proof.
  revert acc. induction services as [| s l IH]; intros acc; simpl.
  - ring.
  - rewrite IH. ring.
Qed.

Lemma validWards_keys (services : list ServiceResult) :
  map WardMetrics.ward (validWardsOf services)
  = filter (fun w => (0 <? List.length (filter (wardIs w) services))%nat)
           validWardNumbers.
Proof.
  rewrite WardProofs.validWardsOf_map, map_map.
  rewrite (map_ext _ (fun w : Z => w)) by (intros w; reflexivity).
  apply map_id.
Qed.

Lemma filter_length_le {A : Type} (p : A -> bool) (l : list A) :
  (List.length (filter p l) <= List.length l)%nat.
Proof.
  apply (Facts.count_le_length p l).
Qed.

(** X14: the valid wards come in strictly ascending ward order, each within
    1..25 and with at least one record, so there are at most 25 of them; the
    number of wards covered is their number and the coverage percentage lies
    in [0, 100]. *)
Theorem valid_wards_are_ordered_and_populated :
  forall services,
    let analysis := calculateWardAnalysis services in
    StronglySorted Z.lt (map WardMetrics.ward (validWards analysis))
    /\ Forall (fun m => (1 <= WardMetrics.ward m <= 25)%Z
                        /\ (0 < WardMetrics.totalServices m)%nat)
              (validWards analysis)
    /\ totalWardsCovered analysis = List.length (validWards analysis)
    /\ (totalWardsCovered analysis <= 25)%nat
    /\ 0 <= wardCoveragePercentage analysis <= 100.
Proof.
  intros services analysis. subst analysis. unfold calculateWardAnalysis.
  cbn [validWards totalWardsCovered wardCoveragePercentage].
  assert (Hlen : (List.length (validWardsOf services) <= 25)%nat).
  { rewrite <- (length_map WardMetrics.ward), validWards_keys.
    change 25%nat with (List.length validWardNumbers).
    apply filter_length_le. }
  split; [| split; [| split; [reflexivity | split; [exact Hlen |]]]].
  - rewrite validWards_keys.
    apply SortFacts.StronglySorted_filter, WardProofs.validWardNumbers_ascending.
  - unfold validWardsOf. apply Forall_forall. intros m Hm.
    apply filter_In in Hm. destruct Hm as [Hm Hpos].
    apply in_map_iff in Hm. destruct Hm as [w [<- Hw]].
    split; [apply WardProofs.validWardNumbers_range, Hw |].
    apply Nat.ltb_lt, Hpos.
  - pose proof (Facts.num_le _ _ Hlen) as Hq.
    pose proof (Facts.num_nonneg (List.length (validWardsOf services))) as H0.
    change (JS.num 25) with 25 in Hq. split; qlra.
Qed.

Lemma indicator_sum (v : Z) (l : list Z) :
  NoDup l ->
  Wellformed.sumNat (fun w => if Z.eqb v w then 1%nat else 0%nat) l
  = if in_dec Z.eq_dec v l then 1%nat else 0%nat.
Proof.
  induction 1 as [| x l Hx Hl IH]; simpl.
  - reflexivity.
  - rewrite IH.
    destruct (Z.eq_dec x v) as [-> | Hne].
    + rewrite Z.eqb_refl. destruct (in_dec Z.eq_dec v l); [contradiction | reflexivity].
    + assert (E : Z.eqb v x = false) by (apply Z.eqb_neq; congruence).
      rewrite E. destruct (in_dec Z.eq_dec v l); reflexivity.
Qed.

Lemma validWardNumbers_NoDup : NoDup validWardNumbers.
Proof.
  pose proof WardProofs.validWardNumbers_ascending as Hs.
  induction Hs as [| w ws Hs IH Hw]; constructor; [| exact IH].
  intros C. rewrite Forall_forall in Hw. specialize (Hw w C). lia.
Qed.

Lemma validWardNumbers_In (v : Z) :
  In v validWardNumbers <-> (1 <= v <= 25)%Z.
Proof.
  split; [apply WardProofs.validWardNumbers_range |].
  intros H. unfold validWardNumbers. apply in_map_iff.
  exists (Z.to_nat (v - 1)). split; [lia |]. apply in_seq. lia.
Qed.

Lemma ward_indicator (s : ServiceResult) :
  Wellformed.sumNat (fun w => if wardIs w s then 1%nat else 0%nat)
                    validWardNumbers
  = if QualityMetrics.wardValid s then 1%nat else 0%nat.
Proof.
  unfold wardIs, QualityMetrics.wardValid.
  destruct (ward s) as [v |].
  - rewrite (indicator_sum v _ validWardNumbers_NoDup).
    destruct (in_dec Z.eq_dec v validWardNumbers) as [Hin | Hout].
    + apply validWardNumbers_In in Hin.
      assert (E : (negb (v =? 0) && (v >=? 1) && (v <=? 25))%Z = true).
      { rewrite !andb_true_iff, negb_true_iff. repeat split.
        - apply Z.eqb_neq. lia.
        - apply Z.geb_le. lia.
        - apply Z.leb_le. lia. }
      rewrite E. reflexivity.
    + destruct (negb (v =? 0) && (v >=? 1) && (v <=? 25))%Z eqn:E;
        [| reflexivity].
      exfalso. apply Hout, validWardNumbers_In.
      rewrite !andb_true_iff in E. destruct E as [[_ E1] E2].
      apply Z.geb_le in E1. apply Z.leb_le in E2. lia.
  - induction validWardNumbers; simpl; auto.
Qed.

(** The records of the wards 1..25, counted ward by ward. *)
Lemma per_ward_counts (services : list ServiceResult) :
  Wellformed.sumNat (fun w => List.length (filter (wardIs w) services))
                    validWardNumbers
  = JS.count QualityMetrics.wardValid services.
Proof.
  unfold JS.count. induction services as [| s l IH].
  - simpl. induction validWardNumbers; simpl; [reflexivity | assumption].
  - assert (Hs : forall ws,
               Wellformed.sumNat
                 (fun w => List.length (filter (wardIs w) (s :: l))) ws
               = (Wellformed.sumNat
                    (fun w => if wardIs w s then 1%nat else 0%nat) ws
                  + Wellformed.sumNat
                      (fun w => List.length (filter (wardIs w) l)) ws)%nat).
    { induction ws as [| w ws IHw]; simpl; [reflexivity |].
      simpl in IHw. rewrite IHw. destruct (wardIs w s); simpl; lia. }
    rewrite Hs, IH, ward_indicator. cbn [filter].
    destruct (QualityMetrics.wardValid s); reflexivity.
Qed.

Lemma dropped_wards_are_empty (services : list ServiceResult) (ws : list Z) :
  Wellformed.sumNat WardMetrics.totalServices
    (filter (fun m => (0 <? WardMetrics.totalServices m)%nat)
            (map (metricsOf services) ws))
  = Wellformed.sumNat (fun w => List.length (filter (wardIs w) services)) ws.
Proof.
  induction ws as [| w ws IH]; simpl; [reflexivity |].
  destruct (0 <? List.length (filter (wardIs w) services))%nat eqn:E; simpl.
  - rewrite IH. reflexivity.
  - apply Nat.ltb_ge in E. rewrite IH. lia.
Qed.

Lemma three_way_count (services : list ServiceResult) :
  (JS.count QualityMetrics.wardValid services
   + List.length (filter (wardIs 66) services)
   + JS.count (fun s => negb (QualityMetrics.wardValid s)
                        && negb (wardIs 66 s)) services)%nat
  = List.length services.
Proof.
  unfold JS.count. induction services as [| s l IH]; [reflexivity |].
  assert (D : QualityMetrics.wardValid s = true -> wardIs 66 s = false).
  { unfold QualityMetrics.wardValid, wardIs.
    destruct (ward s) as [v |]; [| reflexivity].
    rewrite !andb_true_iff. intros [[_ _] E]. apply Z.leb_le in E.
    apply Z.eqb_neq. lia. }
  cbn [filter].
  destruct (QualityMetrics.wardValid s) eqn:E1.
  - rewrite (D eq_refl). cbn [negb andb List.length]. lia.
  - destruct (wardIs 66 s); cbn [negb andb List.length]; lia.
Qed.

(** X15: the valid-ward totals add up to the number of records whose ward
    is in 1..25; every record is in exactly one of: a valid ward, the ward-66
    anomaly block, or neither (no ward, or another out-of-range ward). *)
Theorem ward_totals_account_for_records :
  forall services,
    let analysis := calculateWardAnalysis services in
    Wellformed.sumNat WardMetrics.totalServices (validWards analysis)
    = JS.count QualityMetrics.wardValid services
    /\ (Wellformed.sumNat WardMetrics.totalServices (validWards analysis)
        + Ward66Analysis.count (invalidWard66 analysis)
        + JS.count (fun s => negb (QualityMetrics.wardValid s)
                             && negb (wardIs 66 s)) services)%nat
       = List.length services.
Proof.
  intros services analysis. subst analysis. unfold calculateWardAnalysis.
  cbn [validWards invalidWard66]. unfold invalidWard66Of.
  cbn [Ward66Analysis.count].
  assert (H : Wellformed.sumNat WardMetrics.totalServices (validWardsOf services)
              = JS.count QualityMetrics.wardValid services).
  { unfold validWardsOf. rewrite dropped_wards_are_empty. apply per_ward_counts. }
  split; [exact H |]. rewrite H. apply three_way_count.
Qed.

Lemma results_disjoint (s : ServiceResult) :
  (resultIs s "PASS" = true -> resultIs s "FAIL" = false /\ resultUnknown s = false)
  /\ (resultIs s "FAIL" = true -> resultUnknown s = false).
Proof.
  unfold resultIs, resultUnknown.
  destruct (service_result s) as [r |]; [| split; discriminate].
  split; intros H; apply String.eqb_eq in H; subst r; auto.
Qed.

Lemma three_results_le (l : list ServiceResult) :
  (JS.count (fun s => resultIs s "PASS") l
   + JS.count (fun s => resultIs s "FAIL") l
   + JS.count resultUnknown l <= List.length l)%nat.
Proof.
  unfold JS.count. induction l as [| s l IH]; [simpl; lia |].
  destruct (results_disjoint s) as [Hp Hf]. cbn [filter].
  destruct (resultIs s "PASS") eqn:E1.
  - destruct (Hp eq_refl) as [-> ->]. cbn [List.length]. lia.
  - destruct (resultIs s "FAIL") eqn:E2.
    + rewrite (Hf eq_refl). cbn [List.length]. lia.
    + destruct (resultUnknown s); cbn [List.length]; lia.
Qed.

(** X16: in every valid-ward entry the pass, fail and unknown rates are
    non-negative and add up to at most 100 (a result other than PASS, FAIL,
    empty or absent is in none of them), the average cost times the number
    of records is the total cost, and the cost efficiency is not negative. *)
Theorem ward_entry_rates :
  forall services,
    Forall (fun m =>
              0 <= WardMetrics.passRate m
              /\ 0 <= WardMetrics.failRate m
              /\ 0 <= WardMetrics.unknownRate m
              /\ WardMetrics.passRate m + WardMetrics.failRate m
                 + WardMetrics.unknownRate m <= 100
              /\ WardMetrics.avgCost m * JS.num (WardMetrics.totalServices m)
                 == WardMetrics.totalCost m
              /\ 0 <= WardMetrics.costEfficiency m)
           (validWards (calculateWardAnalysis services)).
Proof.
  intros services. unfold calculateWardAnalysis. cbn [validWards].
  unfold validWardsOf. apply Forall_forall. intros m Hm.
  apply filter_In in Hm. destruct Hm as [Hm Hpos].
  apply in_map_iff in Hm. destruct Hm as [w [<- _]].
  revert Hpos. unfold metricsOf, wardEfficiency.
  cbn [WardMetrics.passRate WardMetrics.failRate WardMetrics.unknownRate
       WardMetrics.avgCost WardMetrics.totalServices WardMetrics.totalCost
       WardMetrics.costEfficiency].
  set (group := filter (wardIs w) services).
  intros Hpos. rewrite Hpos. apply Nat.ltb_lt in Hpos.
  pose proof (Facts.num_pos _ Hpos) as Hn.
  pose proof (three_results_le group) as H3.
  apply Facts.num_le in H3. rewrite !Facts.num_plus in H3.
  set (p := JS.num (JS.count (fun s => resultIs s "PASS") group)) in *.
  set (f := JS.num (JS.count (fun s => resultIs s "FAIL") group)) in *.
  set (u := JS.num (JS.count resultUnknown group)) in *.
  assert (Hp : 0 <= p) by apply Facts.num_nonneg.
  assert (Hf : 0 <= f) by apply Facts.num_nonneg.
  assert (Hu : 0 <= u) by apply Facts.num_nonneg.
  set (n := JS.num (List.length group)) in *.
  assert (Rp : 0 <= p / n) by (apply Qle_shift_div_l; lra).
  assert (Rf : 0 <= f / n) by (apply Qle_shift_div_l; lra).
  assert (Ru : 0 <= u / n) by (apply Qle_shift_div_l; lra).
  assert (Rs : (p + f + u) / n <= 1) by (apply Qle_shift_div_r; lra).
  assert (Es : p / n + f / n + u / n == (p + f + u) / n) by (field; lra).
  split; [lra |]. split; [lra |]. split; [lra |]. split; [lra |].
  split; [field; lra |].
  cbn [andb]. destruct (JS.Qgtb (sumCost group) 0) eqn:Ec; [| lra].
  apply Facts.Qltb_lt in Ec.
  assert (0 < sumCost group / n / 1000).
  { apply Qlt_shift_div_l; [lra |]. apply Qlt_shift_div_l; lra. }
  apply Qle_shift_div_l; lra.
Qed.

Lemma sum_filter_le {A : Type} (f : A -> Q) (p : A -> bool) (l : list A) :
  Forall (fun x => 0 <= f x) l ->
  0 <= Wellformed.sumQ f (filter p l) <= Wellformed.sumQ f l.
Proof.
  induction 1 as [| x l Hx Hl IH]; simpl.
  - split; lra.
  - destruct (p x); simpl; lra.
Qed.

(** X17: the ward-66 block reports its share of the records and its pass
    rate within [0, 100]; when no cost is negative its share of the cost is
    within [0, 100] too; and when no record has ward 66 its count, costs,
    pass rate and shares are all 0. *)
Theorem ward66_block_shares :
  forall services,
    let block := invalidWard66 (calculateWardAnalysis services) in
    let impact := Ward66Analysis.impactAnalysis block in
    0 <= ImpactAnalysis.percentageOfTotalServices impact <= 100
    /\ 0 <= Ward66Analysis.passRate block <= 100
    /\ (Forall (fun s => 0 <= JS.orZero (estimated_cost s)) services ->
        0 <= ImpactAnalysis.percentageOfTotalCost impact <= 100)
    /\ (Forall (fun s => ward s <> Some 66%Z) services ->
        Ward66Analysis.count block = 0%nat
        /\ Ward66Analysis.totalCost block == 0
        /\ Ward66Analysis.avgCost block == 0
        /\ Ward66Analysis.passRate block == 0
        /\ ImpactAnalysis.percentageOfTotalServices impact == 0
        /\ ImpactAnalysis.percentageOfTotalCost impact == 0).
Proof.
  intros services block impact. subst block impact.
  unfold calculateWardAnalysis. cbn [invalidWard66]. unfold invalidWard66Of.
  cbn [Ward66Analysis.impactAnalysis Ward66Analysis.passRate
       Ward66Analysis.count Ward66Analysis.totalCost Ward66Analysis.avgCost
       ImpactAnalysis.percentageOfTotalServices
       ImpactAnalysis.percentageOfTotalCost].
  set (group := filter (wardIs 66) services).
  split; [| split; [| split]].
  - destruct (0 <? List.length services)%nat eqn:E; [| split; lra].
    apply Nat.ltb_lt in E. apply Facts.percentage_bounds.
    + apply Facts.num_pos, E.
    + apply Facts.num_nonneg.
    + apply Facts.num_le, filter_length_le.
  - destruct (0 <? List.length group)%nat eqn:E; [| split; lra].
    apply Nat.ltb_lt in E. apply Facts.percentage_bounds.
    + apply Facts.num_pos, E.
    + apply Facts.num_nonneg.
    + apply Facts.num_le, Facts.count_le_length.
  - intros Hcost.
    destruct (JS.Qgtb (sumCost services) 0) eqn:E; [| split; lra].
    apply Facts.Qltb_lt in E.
    pose proof (sum_filter_le (fun s => JS.orZero (estimated_cost s))
                  (wardIs 66) services Hcost) as Hs.
    fold group in Hs. unfold sumCost in *.
    rewrite !sumCost_as_sum in *.
    apply Facts.percentage_bounds; lra.
  - intros Hno.
    assert (Hg : group = []).
    { subst group. induction Hno as [| s l Hs Hl IH]; [reflexivity |].
      cbn [filter]. unfold wardIs at 1.
      destruct (ward s) as [v |]; [| exact IH].
      destruct (Z.eqb_spec v 66) as [-> | _]; [congruence | exact IH]. }
    rewrite Hg. cbn [List.length].
    change (0 <? 0)%nat with false. cbv iota.
    change (sumCost []) with 0.
    split; [reflexivity |]. split; [reflexivity |]. split; [reflexivity |].
    split; [reflexivity |].
    split.
    + destruct (0 <? List.length services)%nat; [| reflexivity].
      change (JS.num 0) with 0. unfold Qdiv. ring.
    + destruct (JS.Qgtb (sumCost services) 0); [| reflexivity].
      unfold Qdiv. ring.
Qed.

Lemma ward66_block_shares_witness :
  0 <= ImpactAnalysis.percentageOfTotalCost
         (Ward66Analysis.impactAnalysis
            (invalidWard66
               (calculateWardAnalysis [Examples.clean; Examples.ward30])))
    <= 100.
Proof.
  apply (proj1 (proj2 (proj2 (ward66_block_shares
                                [Examples.clean; Examples.ward30])))).
  repeat constructor; vm_compute; discriminate.
Defined.

Lemma mapi_Forall (P : WardEfficiencyItem.t -> Prop)
  (l : list WardEfficiencyItem.t) (k : nat) :
  (forall item index, P item -> P (withRank item index)) ->
  Forall P l -> Forall P (JS.mapi withRank k l).
Proof.
  intros H Hl. revert k.
  induction Hl as [| x l Hx Hl IH]; intros k; simpl; constructor; auto.
Qed.

Lemma cost_per_pass (total passes : nat) (cost : Q) :
  (0 < total)%nat ->
  let passRate := JS.num passes / JS.num total * 100 in
  match (if JS.Qgtb passRate 0
         then Some (cost / (JS.num total * (passRate / 100))) else None)
  with
  | None => passes = 0%nat
  | Some c => (0 < passes)%nat /\ c == cost / JS.num passes
  end.
Proof.
  intros Hpos passRate. subst passRate.
  pose proof (Facts.num_pos _ Hpos) as Hn.
  pose proof (Facts.num_nonneg passes) as Hp.
  assert (Hc : JS.num passes
               == (JS.num passes / JS.num total) * JS.num total)
    by (field; lra).
  destruct (JS.Qgtb (JS.num passes / JS.num total * 100) 0) eqn:E;
    unfold JS.Qgtb in E.
  - apply Facts.Qltb_lt in E.
    assert (Hpass : 0 < JS.num passes).
    { assert (0 < JS.num passes / JS.num total) by lra.
      rewrite Hc. apply Qmult_lt_0_compat; assumption. }
    split.
    + destruct passes; [change (JS.num 0) with 0 in Hpass; lra | lia].
    + field. split; lra.
  - apply Facts.Qltb_ge in E.
    apply DimensionProofs.num_inj. change (JS.num 0) with 0.
    assert (Hr : 0 <= JS.num passes / JS.num total)
      by (apply Qle_shift_div_l; lra).
    assert (Ht : JS.num passes / JS.num total == 0) by lra.
    rewrite Ht in Hc. lra.
Qed.

Lemma efficiencyScore_nonneg (passRate avgCost : Q) :
  0 <= (if JS.Qgtb passRate 0 && JS.Qgtb avgCost 0
        then (passRate / 100) / (avgCost / 1000) * 100 else 0).
Proof.
  destruct (JS.Qgtb passRate 0) eqn:Ep; [| simpl; lra].
  destruct (JS.Qgtb avgCost 0) eqn:Ea; [| simpl; lra].
  unfold JS.Qgtb in *. apply Facts.Qltb_lt in Ep. apply Facts.Qltb_lt in Ea.
  simpl.
  assert (0 < avgCost / 1000) by qlra.
  assert (0 <= passRate / 100) by qlra.
  assert (0 <= passRate / 100 / (avgCost / 1000))
    by (apply Qle_shift_div_l; lra).
  lra.
Qed.

Lemma mapi_In (l : list WardEfficiencyItem.t) (k : nat)
  (item : WardEfficiencyItem.t) :
  In item (JS.mapi withRank k l) ->
  exists item0 index, In item0 l /\ item = withRank item0 index.
Proof.
  revert k. induction l as [| x l IH]; intros k; simpl.
  - intros [].
  - intros [H | H].
    + exists x, k. split; [left; reflexivity | symmetry; exact H].
    + destruct (IH _ H) as [item0 [index [Hin E]]].
      exists item0, index. split; [right; exact Hin | exact E].
Qed.

Lemma ranked_item_cost_per_pass (services : list ServiceResult) (w : Z)
  (index : nat) :
  (0 < List.length (filter (wardIs w) services))%nat ->
  let item := withRank (efficiencyItemOf (metricsOf services w)) index in
  let passes :=
    JS.count (fun s => resultIs s "PASS")
             (filter (wardIs (WardEfficiencyItem.ward item)) services) in
  match WardEfficiencyItem.costPerPassingService item with
  | None => passes = 0%nat
  | Some c =>
      (0 < passes)%nat
      /\ c == WardEfficiencyItem.totalCost item / JS.num passes
  end
  /\ 0 <= WardEfficiencyItem.efficiencyScore item.
Proof.
  intros Hpos.
  assert (Hb : (0 <? List.length (filter (wardIs w) services))%nat = true)
    by (apply Nat.ltb_lt; exact Hpos).
  pose proof (cost_per_pass
                (List.length (filter (wardIs w) services))
                (JS.count (fun s => resultIs s "PASS")
                          (filter (wardIs w) services))
                (sumCost (filter (wardIs w) services)) Hpos) as H.
  unfold withRank, efficiencyItemOf, metricsOf.
  cbn [WardEfficiencyItem.ward WardEfficiencyItem.costPerPassingService
       WardEfficiencyItem.totalCost WardEfficiencyItem.efficiencyScore
       WardMetrics.ward WardMetrics.passRate WardMetrics.avgCost
       WardMetrics.totalServices WardMetrics.totalCost].
  rewrite Hb. split; [exact H | apply efficiencyScore_nonneg].
Qed.

Lemma ranking_unfold (services : list ServiceResult) :
  wardEfficiencyRanking (calculateWardAnalysis services)
  = rankingOf (validWardsOf services).
Proof. reflexivity. Qed.

(** X18: in every ranking item the cost per passing service is infinite
    exactly when the ward has no PASS record, and otherwise is the ward's
    total cost divided by its number of PASS records; the efficiency score
    is never negative. *)
Theorem ranking_cost_per_pass :
  forall services,
    Forall (fun item =>
              let passes :=
                JS.count (fun s => resultIs s "PASS")
                         (filter (wardIs (WardEfficiencyItem.ward item)) services) in
              match WardEfficiencyItem.costPerPassingService item with
              | None => passes = 0%nat
              | Some c =>
                  (0 < passes)%nat
                  /\ c == WardEfficiencyItem.totalCost item / JS.num passes
              end
              /\ 0 <= WardEfficiencyItem.efficiencyScore item)
           (wardEfficiencyRanking (calculateWardAnalysis services)).
Proof.
  intros services. rewrite ranking_unfold. unfold rankingOf.
  apply Forall_forall. intros item Hitem.
  apply mapi_In in Hitem. destruct Hitem as [item0 [index [Hin ->]]].
  apply (Permutation_in _ (SortFacts.sort_perm byEfficiencyDesc _)) in Hin.
  apply in_map_iff in Hin. destruct Hin as [m [<- Hm]].
  rewrite WardProofs.validWardsOf_map in Hm.
  apply in_map_iff in Hm. destruct Hm as [w [<- Hw]].
  apply filter_In in Hw. destruct Hw as [_ Hpos].
  apply ranked_item_cost_per_pass.
  apply Nat.ltb_lt. exact Hpos.
Qed.

End WardTotals.

(** ** Cost histogram: shape and coverage *)

Module HistogramProofs.

Import CostDistribution.

Lemma Qle_bool_total (a b : Q) : Qle_bool a b = true \/ Qle_bool b a = true.
Proof.
  destruct (Qlt_le_dec b a) as [L | G].
  - right. apply Qle_bool_iff. lra.
  - left. apply Qle_bool_iff. exact G.
Qed.

Lemma Qle_bool_trans (a b c : Q) :
  Qle_bool a b = true -> Qle_bool b c = true -> Qle_bool a c = true.
Proof.
  rewrite !Qle_bool_iff. intros. lra.
Qed.

Lemma positiveCosts_sorted (services : list ServiceResult) :
  StronglySorted Qle (positiveCosts services).
Proof.
  unfold positiveCosts.
  pose proof (OrderFacts.sort_StronglySorted Qle_bool Qle_bool_total
                Qle_bool_trans
                (filter (fun cost => JS.Qgtb cost 0)
                        (map (fun s => JS.orZero (estimated_cost s)) services)))
    as H.
  revert H. apply SortFacts.StronglySorted_weaken.
  intros a b _ _ Hab. apply Qle_bool_iff, Hab.
Qed.

Lemma positiveCosts_positive (services : list ServiceResult) :
  Forall (fun c => 0 < c) (positiveCosts services).
Proof.
  unfold positiveCosts. apply SortFacts.Forall_sort.
  apply Forall_forall. intros c Hc. apply filter_In in Hc.
  destruct Hc as [_ Hc]. unfold JS.Qgtb in Hc. apply Facts.Qltb_lt, Hc.
Qed.

Lemma positiveCosts_length (services : list ServiceResult) :
  List.length (positiveCosts services)
  = JS.count (fun s => JS.positive (estimated_cost s)) services.
Proof.
  unfold positiveCosts.
  rewrite (Permutation_length (SortFacts.sort_perm Qle_bool _)).
  unfold JS.count. induction services as [| s l IH]; [reflexivity |].
  cbn [map filter]. unfold JS.positive at 1, JS.orZero at 1.
  destruct (estimated_cost s) as [c |].
  - destruct (JS.Qgtb c 0); simpl; rewrite IH; reflexivity.
  - change (JS.Qgtb 0 0) with false. cbv iota. exact IH.
Qed.

(** In an ascending list the elements grow with the index. *)
Lemma sorted_nth_mono (costs : list Q) :
  StronglySorted Qle costs ->
  forall i j, (i <= j < List.length costs)%nat ->
              nth i costs 0 <= nth j costs 0.
Proof.
  induction 1 as [| x l Hs IH Hx]; intros i j Hij.
  - simpl in Hij. lia.
  - rewrite Forall_forall in Hx. cbn [List.length] in Hij.
    destruct i as [| i], j as [| j]; cbn [nth]; try lia.
    + lra.
    + apply Hx, nth_In. lia.
    + apply IH. lia.
Qed.

(** So the first element is the least and the last the greatest. *)
Lemma sorted_bounds (costs : list Q) (c : Q) :
  StronglySorted Qle costs -> In c costs ->
  nth 0 costs 0 <= c /\ c <= nth (List.length costs - 1) costs 0.
Proof.
  intros Hs Hc. destruct (In_nth _ _ 0 Hc) as [k [Hk <-]].
  split; apply sorted_nth_mono; try exact Hs; lia.
Qed.

Lemma binCount_range (n : nat) : (6 <= binCountOf n <= 12)%nat.
Proof.
  unfold binCountOf. lia.
Qed.

Lemma lowBinCount_range (b : nat) :
  (6 <= b)%nat -> (0 < lowBinCountOf b <= b)%nat.
Proof.
  intros H. unfold lowBinCountOf.
  assert (0 < (7 * Z.of_nat b + 9) / 10 <= Z.of_nat b)%Z; [| lia].
  split.
  - apply Z.div_str_pos. lia.
  - apply Z.div_le_upper_bound; lia.
Qed.

Lemma pushBin_ok (costs : list Q) (binMin binMax : Q) (p : Q -> bool) :
  Forall (Histogram.binOk costs)
         (pushBin costs binMin binMax (JS.count p costs))
  /\ (List.length (pushBin costs binMin binMax (JS.count p costs)) <= 1)%nat.
Proof.
  unfold pushBin.
  destruct (0 <? JS.count p costs)%nat eqn:E; [| split; [constructor | simpl; lia]].
  apply Nat.ltb_lt in E.
  pose proof (Facts.count_le_length p costs) as Hle.
  split; [| simpl; lia].
  constructor; [| constructor].
  unfold Histogram.binOk. cbn [count percentage].
  split; [lia |]. split; [reflexivity |].
  assert (Hn : 0 < JS.num (List.length costs)) by (apply Facts.num_pos; lia).
  pose proof (Facts.num_pos _ E) as Hc.
  destruct (Facts.percentage_bounds (JS.num (JS.count p costs))
              (JS.num (List.length costs)) Hn (Facts.num_nonneg _)
              (Facts.num_le _ _ Hle)) as [_ Hu].
  split; [| exact Hu].
  assert (0 < JS.num (JS.count p costs) / JS.num (List.length costs))
    by (apply Qlt_shift_div_l; lra).
  lra.
Qed.

Lemma flat_map_short {A B : Type} (f : A -> list B) (l : list A) :
  (forall x, (List.length (f x) <= 1)%nat) ->
  (List.length (flat_map f l) <= List.length l)%nat.
Proof.
  intros H. induction l as [| x l IH]; simpl; [lia |].
  rewrite length_app. specialize (H x). lia.
Qed.

Lemma linearBins_ok (costs : list Q) (lo hi : Q) (bins : nat) :
  Forall (Histogram.binOk costs) (linearBins costs lo hi bins)
  /\ (List.length (linearBins costs lo hi bins) <= bins)%nat.
Proof.
  unfold linearBins. cbv zeta. split.
  - apply Forall_flat_map, Forall_forall. intros i _. apply pushBin_ok.
  - eapply Nat.le_trans;
      [apply flat_map_short; intros i; apply pushBin_ok
      | rewrite length_seq; lia].
Qed.

Lemma logBins_ok (log10 pow10 : Q -> Q) (costs : list Q) (q75 hi : Q)
  (bins : nat) :
  Forall (Histogram.binOk costs) (logBins log10 pow10 costs q75 hi bins)
  /\ (List.length (logBins log10 pow10 costs q75 hi bins) <= bins)%nat.
Proof.
  unfold logBins. cbv zeta. split.
  - apply Forall_flat_map, Forall_forall. intros i _. apply pushBin_ok.
  - eapply Nat.le_trans;
      [apply flat_map_short; intros i; apply pushBin_ok
      | rewrite length_seq; lia].
Qed.

(** X19: the histogram has at most 12 bins; every bin holds at least one and
    at most all of the positive-cost records, and its percentage is its
    count over the number of positive-cost records, in (0, 100]; without a
    positive cost there is no bin. *)
Theorem histogram_bins_are_populated :
  forall (log10 pow10 : Q -> Q) services,
    let bins := calculateCostDistribution log10 pow10 services in
    let costs := positiveCosts services in
    List.length costs = JS.count (fun s => JS.positive (estimated_cost s)) services
    /\ (List.length bins <= 12)%nat
    /\ Forall (Histogram.binOk costs) bins
    /\ (List.length costs = 0%nat -> bins = []).
Proof.
  intros log10 pow10 services bins costs. subst bins costs.
  split; [apply positiveCosts_length |].
  unfold calculateCostDistribution. cbv zeta.
  set (costs := positiveCosts services).
  destruct (Nat.eqb (List.length costs) 0) eqn:E.
  { split; [simpl; lia |]. split; [constructor | reflexivity]. }
  pose proof (binCount_range (List.length costs)) as Hb.
  pose proof (lowBinCount_range _ (proj1 Hb)) as Hl.
  split; [| split].
  - destruct (JS.Qgtb _ _).
    + match goal with
      | |- context [linearBins ?c ?lo ?hi ?k] =>
          pose proof (proj2 (linearBins_ok c lo hi k)) as H1;
          set (low := linearBins c lo hi k) in *
      end.
      destruct (0 <? _)%nat.
      * rewrite length_app.
        match goal with
        | |- context [logBins ?l ?p ?c ?q ?h ?k] =>
            pose proof (proj2 (logBins_ok l p c q h k))
        end.
        lia.
      * lia.
    + match goal with
      | |- context [linearBins ?c ?lo ?hi ?k] =>
          pose proof (proj2 (linearBins_ok c lo hi k))
      end.
      lia.
  - destruct (JS.Qgtb _ _).
    + destruct (0 <? _)%nat.
      * apply Forall_app. split; [apply linearBins_ok | apply logBins_ok].
      * apply linearBins_ok.
    + apply linearBins_ok.
  - intros H. apply Nat.eqb_neq in E. contradiction.
Qed.

Lemma last_index (P : nat -> Prop) (k : nat) :
  (forall i, {P i} + {~ P i}) -> (0 < k)%nat -> P 0%nat ->
  exists i, (i < k)%nat /\ P i /\ (i = (k - 1)%nat \/ ~ P (S i)).
Proof.
  intros dec Hk H0. induction k as [| k IH]; [lia |].
  destruct k as [| k].
  - exists 0%nat. split; [lia |]. split; [exact H0 | left; reflexivity].
  - destruct IH as [i [Hi [Pi Hlast]]]; [lia |].
    destruct Hlast as [-> | Hn].
    + destruct (dec (S k)) as [Pk | Nk].
      * exists (S k). split; [lia |]. split; [exact Pk | left; lia].
      * exists (S k - 1)%nat. split; [lia |]. split; [exact Pi |].
        right. replace (S (S k - 1)) with (S k) by lia. exact Nk.
    + exists i. split; [lia |]. split; [exact Pi | right; exact Hn].
Qed.

(** The equal-width loop leaves no gap between [lo] and [hi]. *)
Lemma linearBins_cover (costs : list Q) (lo hi c : Q) (bins : nat) :
  (0 < bins)%nat -> In c costs -> lo <= c -> c <= hi ->
  exists b, In b (linearBins costs lo hi bins) /\ Histogram.covers b c.
Proof.
  intros Hk Hin Hlo Hhi.
  set (binSize := (hi - lo) / JS.num bins).
  destruct (last_index (fun i => lo + JS.num i * binSize <= c) bins)
    as [i [Hi [Hmin Hlast]]].
  - intros i. destruct (Qlt_le_dec c (lo + JS.num i * binSize)) as [L | G].
    + right. lra.
    + left. exact G.
  - exact Hk.
  - change (JS.num 0) with 0. lra.
  - set (binMin := lo + JS.num i * binSize) in *.
    set (binMax := if Nat.eqb i (bins - 1) then hi
                   else lo + JS.num (i + 1) * binSize).
    assert (Hmax : c <= binMax).
    { subst binMax. destruct (Nat.eqb i (bins - 1)) eqn:E; [exact Hhi |].
      apply Nat.eqb_neq in E. destruct Hlast as [-> | Hn]; [congruence |].
      replace (i + 1)%nat with (S i) by lia. lra. }
    set (n := JS.count (fun cost => JS.Qgeb cost binMin && Qle_bool cost binMax)
                       costs).
    assert (Hn : (0 < n)%nat).
    { subst n. unfold JS.count.
      assert (In c (filter (fun cost => JS.Qgeb cost binMin
                                        && Qle_bool cost binMax) costs)).
      { apply filter_In. split; [exact Hin |].
        apply andb_true_iff. unfold JS.Qgeb. rewrite !Qle_bool_iff.
        split; assumption. }
      destruct (filter _ costs); [contradiction | simpl; lia]. }
    exists (mkBin binMin binMax n
                  ((JS.num n / JS.num (List.length costs)) * 100)).
    split; [| split; assumption].
    unfold linearBins. cbv zeta. apply in_flat_map.
    exists i. split; [apply in_seq; lia |].
    fold binSize. fold binMin. fold binMax. fold n.
    unfold pushBin. apply Nat.ltb_lt in Hn. rewrite Hn.
    left. reflexivity.
Qed.

(** X20: in the equal-width mode every positive cost of the record set lies
    in some returned bin; in the hybrid mode this holds for every positive
    cost up to the cost at the three-quarter index, whatever the logarithm
    and power functions return. *)
Theorem histogram_linear_part_has_no_gap :
  forall (log10 pow10 : Q -> Q) services c,
    In c (positiveCosts services) ->
    Histogram.hybridMode services = false \/ c <= Histogram.q75Cost services ->
    exists b,
      In b (calculateCostDistribution log10 pow10 services)
      /\ Histogram.covers b c.
Proof.
  intros log10 pow10 services c Hin Hmode.
  unfold calculateCostDistribution. cbv zeta.
  unfold Histogram.hybridMode, Histogram.q75Cost in Hmode. cbv zeta in Hmode.
  set (costs := positiveCosts services) in *.
  pose proof (positiveCosts_sorted services) as Hs. fold costs in Hs.
  destruct (sorted_bounds costs c Hs Hin) as [Hlo Hhi].
  assert (Hlen : (0 < List.length costs)%nat).
  { destruct costs; [destruct Hin | simpl; lia]. }
  assert (E : Nat.eqb (List.length costs) 0 = false) by (apply Nat.eqb_neq; lia).
  rewrite E.
  pose proof (binCount_range (List.length costs)) as Hb.
  pose proof (lowBinCount_range _ (proj1 Hb)) as Hl.
  destruct (JS.Qgtb (nth (List.length costs - 1) costs 0 - nth 0 costs 0)
                    (nth (List.length costs / 2) costs 0 * 100)) eqn:Eh.
  - destruct Hmode as [Hmode | Hq]; [discriminate Hmode |].
    destruct (linearBins_cover costs (nth 0 costs 0)
                (nth (3 * List.length costs / 4) costs 0) c
                (lowBinCountOf (binCountOf (List.length costs))))
      as [b [Hb1 Hb2]]; try assumption; [lia |].
    exists b. split; [| exact Hb2].
    destruct (0 <? _)%nat; [apply in_or_app; left; exact Hb1 | exact Hb1].
  - destruct (linearBins_cover costs (nth 0 costs 0)
                (nth (List.length costs - 1) costs 0) c
                (binCountOf (List.length costs)))
      as [b [Hb1 Hb2]]; try assumption; [lia |].
    exists b. split; assumption.
Qed.

Lemma histogram_linear_part_has_no_gap_witness :
  exists b,
    In b (calculateCostDistribution (fun x => x) (fun x => x)
            Examples.sevenCosts)
    /\ Histogram.covers b 3.
Proof.
  apply (histogram_linear_part_has_no_gap (fun x => x) (fun x => x)
           Examples.sevenCosts 3).
  - vm_compute. right. right. left. reflexivity.
  - left. vm_compute. reflexivity.
Defined.

End HistogramProofs.

(** ** Highest expenses *)

Module ExpensesProofs.

Import HighestExpenses.

Lemma mapi_project {A B C : Type} (f : A -> nat -> B) (g : B -> C) (h : A -> C)
  (l : list A) (k : nat) :
  (forall x i, g (f x i) = h x) -> map g (JS.mapi f k l) = map h l.
Proof.
  intros H. revert k. induction l as [| x l IH]; intros k; simpl.
  - reflexivity.
  - rewrite H, IH. reflexivity.
Qed.

Lemma mapi_positions {A B : Type} (f : A -> nat -> B) (r : B -> nat)
  (l : list A) (k : nat) :
  (forall x i, r (f x i) = (i + 1)%nat) ->
  map r (JS.mapi f k l) = seq (k + 1) (List.length l).
Proof.
  intros H. revert k. induction l as [| x l IH]; intros k; simpl.
  - reflexivity.
  - rewrite H, IH. replace (S k + 1)%nat with (S (k + 1)) by lia. reflexivity.
Qed.

Lemma mapi_length {A B : Type} (f : A -> nat -> B) (l : list A) (k : nat) :
  List.length (JS.mapi f k l) = List.length l.
Proof.
  revert k. induction l as [| x l IH]; intros k; simpl; [| rewrite IH];
    reflexivity.
Qed.

Lemma mapi_member {A B : Type} (f : A -> nat -> B) (l : list A) (k : nat)
  (y : B) :
  In y (JS.mapi f k l) -> exists x i, In x l /\ y = f x i.
Proof.
  revert k. induction l as [| x l IH]; intros k; simpl.
  - intros [].
  - intros [H | H].
    + exists x, k. split; [left; reflexivity | symmetry; exact H].
    + destruct (IH _ H) as [x0 [i [Hin E]]].
      exists x0, i. split; [right; exact Hin | exact E].
Qed.

Lemma byCostDesc_total (a b : ServiceResult) :
  byCostDesc a b = true \/ byCostDesc b a = true.
Proof.
  unfold byCostDesc.
  destruct (HistogramProofs.Qle_bool_total
              (JS.orZero (estimated_cost a)) (JS.orZero (estimated_cost b)));
    auto.
Qed.

Lemma byCostDesc_trans (a b c : ServiceResult) :
  byCostDesc a b = true -> byCostDesc b c = true -> byCostDesc a c = true.
Proof.
  unfold byCostDesc. intros H1 H2.
  eapply HistogramProofs.Qle_bool_trans; eassumption.
Qed.

Lemma item_result_nonempty (s : ServiceResult) (i : nat) :
  Item.result (itemOf s i) <> "".
Proof.
  unfold itemOf, resultUnknown. cbn [Item.result].
  destruct (service_result s) as [r |]; [| discriminate].
  destruct (String.eqb r "") eqn:E; [discriminate |].
  apply String.eqb_neq in E. exact E.
Qed.

(** X21: the highest-expenses list holds the positive-cost records only, at
    most 50 of them and all of them when there are fewer; it is ranked 1, 2,
    ... in list order by non-increasing cost; no record left out costs more
    than a listed one; a listed result is never empty (an absent or empty
    result is shown as UNKNOWN). *)
Theorem highest_expenses_are_the_top_fifty :
  forall services,
    let items := calculateHighestExpenses services in
    let positive := filter (fun s => JS.positive (estimated_cost s)) services in
    List.length items = Nat.min 50 (List.length positive)
    /\ map Item.rank items = seq 1 (List.length items)
    /\ Forall (fun e => 0 < Item.cost e /\ Item.result e <> "") items
    /\ StronglySorted (fun a b => Item.cost b <= Item.cost a) items
    /\ exists rest,
         Permutation (highestOf services ++ rest) positive
         /\ Forall (fun s =>
                      Forall (fun e => JS.orZero (estimated_cost s) <= Item.cost e)
                             items)
                   rest.
Proof.
  intros services items positive. subst items.
  unfold calculateHighestExpenses, highestOf. fold positive.
  set (sorted := JS.sort byCostDesc positive).
  pose proof (SortFacts.sort_perm byCostDesc positive) as Hp. fold sorted in Hp.
  pose proof (OrderFacts.sort_StronglySorted byCostDesc byCostDesc_total
                byCostDesc_trans positive) as Hs. fold sorted in Hs.
  assert (Hcost : map Item.cost (JS.mapi itemOf 0 (firstn 50 sorted))
                  = map (fun s => JS.orZero (estimated_cost s))
                        (firstn 50 sorted)).
  { apply mapi_project. intros x i. reflexivity. }
  split; [| split; [| split; [| split]]].
  - rewrite mapi_length, length_firstn, (Permutation_length Hp). reflexivity.
  - rewrite mapi_length. apply mapi_positions. intros x i. reflexivity.
  - apply Forall_forall. intros e He.
    apply mapi_member in He. destruct He as [s [i [Hin ->]]].
    split; [| apply item_result_nonempty].
    apply OrderFacts.firstn_In in Hin.
    apply (Permutation_in _ Hp) in Hin. subst positive.
    apply filter_In in Hin. destruct Hin as [_ Hpos].
    unfold itemOf. cbn [Item.cost]. unfold JS.positive in Hpos.
    destruct (estimated_cost s) as [c |]; [| discriminate].
    unfold JS.Qgtb in Hpos. apply Facts.Qltb_lt, Hpos.
  - apply (SortFacts.StronglySorted_map Item.cost (fun x y => y <= x)).
    rewrite Hcost.
    apply (SortFacts.StronglySorted_map
             (fun s => JS.orZero (estimated_cost s)) (fun x y => y <= x)).
    apply OrderFacts.firstn_StronglySorted.
    revert Hs. apply SortFacts.StronglySorted_weaken.
    intros a b _ _ H. unfold byCostDesc in H. apply Qle_bool_iff, H.
  - exists (skipn 50 sorted). split.
    + rewrite firstn_skipn. exact Hp.
    + pose proof (OrderFacts.firstn_dominates _ 50 sorted Hs) as Hd.
      revert Hd. apply Forall_impl. intros s Hd.
      apply (proj1 (Forall_map Item.cost
                      (fun v => JS.orZero (estimated_cost s) <= v) _)).
      rewrite Hcost. apply Forall_map.
      revert Hd. apply Forall_impl. intros x H.
      unfold byCostDesc in H. apply Qle_bool_iff, H.
Qed.

End ExpensesProofs.

(** ** Overview aggregates of the dashboard handler *)

Module OverviewProofs.

Import Overview.

Lemma sumQ_app {A : Type} (f : A -> Q) (l l' : list A) :
  Wellformed.sumQ f (l ++ l') == Wellformed.sumQ f l + Wellformed.sumQ f l'.
Proof.
  induction l as [| x l IH]; simpl.
  - ring.
  - rewrite IH. ring.
Qed.

Lemma count_app {A : Type} (p : A -> bool) (l l' : list A) :
  JS.count p (l ++ l') = (JS.count p l + JS.count p l')%nat.
Proof.
  unfold JS.count. rewrite filter_app, length_app. reflexivity.
Qed.

Section Keyed.

Context {K : Type} (eqb : K -> K -> bool) (keyOf : ServiceResult -> option K).
Variable dec : forall x y : K, {x = y} + {x <> y}.
Hypothesis eqb_eq : forall a b, eqb a b = true <-> a = b.

Lemma eqb_false (a b : K) : eqb a b = false <-> a <> b.
Proof.
  split.
  - intros H E. apply eqb_eq in E. congruence.
  - intros H. destruct (eqb a b) eqn:E; [| reflexivity].
    apply eqb_eq in E. contradiction.
Qed.

(** [Map.has] / [Map.set] keep the keys a set, in order of first use. *)
Lemma upsert_keys (k : K) (s : ServiceResult) (groups : list (Group.t K)) :
  map Group.key (upsert eqb k s groups) = set_add dec k (map Group.key groups).
Proof.
  induction groups as [| g rest IH]; simpl.
  - reflexivity.
  - destruct (eqb (Group.key g) k) eqn:E; destruct (dec k (Group.key g)) as [D | D].
    + reflexivity.
    + apply eqb_eq in E. congruence.
    + apply eqb_false in E. congruence.
    + simpl. rewrite IH. reflexivity.
Qed.

Lemma step_keys (groups : list (Group.t K)) (s : ServiceResult) :
  map Group.key (Grouping.step eqb keyOf groups s)
  = fold_left (fun seen v => set_add dec v seen)
              (match keyOf s with Some k => [k] | None => [] end)
              (map Group.key groups).
Proof.
  unfold Grouping.step. destruct (keyOf s) as [k |]; simpl.
  - apply upsert_keys.
  - reflexivity.
Qed.

Lemma fold_keys (services : list ServiceResult) (groups : list (Group.t K)) :
  map Group.key (fold_left (Grouping.step eqb keyOf) services groups)
  = fold_left (fun seen v => set_add dec v seen)
              (Grouping.keysOf keyOf services) (map Group.key groups).
Proof.
  revert groups. induction services as [| s l IH]; intros groups; simpl.
  - reflexivity.
  - rewrite IH, step_keys. unfold Grouping.keysOf. simpl.
    rewrite fold_left_app. reflexivity.
Qed.

Lemma upsert_Forall (P Q : Group.t K -> Prop) (k : K) (s : ServiceResult)
  (groups : list (Group.t K)) :
  NoDup (map Group.key groups) ->
  Forall P groups ->
  (forall g, P g -> Group.key g = k -> Q (tally s g)) ->
  (forall g, P g -> Group.key g <> k -> Q g) ->
  (~ In k (map Group.key groups) -> Q (tally s (Group.mk k 0%nat 0 0%nat))) ->
  Forall Q (upsert eqb k s groups).
Proof.
  intros Hn Hp Hhit Hmiss Hnew.
  induction groups as [| g rest IH]; simpl.
  - constructor; [| constructor]. apply Hnew. intros [].
  - inversion Hn as [| ? ? Hg Hrest]; subst.
    inversion Hp as [| ? ? Pg Prest]; subst.
    destruct (eqb (Group.key g) k) eqn:E.
    + apply eqb_eq in E. constructor; [apply Hhit; assumption |].
      rewrite Forall_forall in *. intros g' Hin.
      apply Hmiss; [apply Prest, Hin |].
      intros E'. apply Hg. rewrite E, <- E'. apply in_map, Hin.
    + apply eqb_false in E. constructor; [apply Hmiss; assumption |].
      apply IH; try assumption.
      intros Hk. apply Hnew. simpl. intros [F | F]; contradiction.
Qed.

Lemma members_other (k : K) (s : ServiceResult) (done : list ServiceResult) :
  Grouping.filedUnder eqb keyOf k s = false ->
  filter (Grouping.filedUnder eqb keyOf k) (done ++ [s])
  = filter (Grouping.filedUnder eqb keyOf k) done.
Proof.
  intros H. rewrite filter_app. simpl. rewrite H. apply app_nil_r.
Qed.

Lemma members_hit (k : K) (s : ServiceResult) (done : list ServiceResult) :
  Grouping.filedUnder eqb keyOf k s = true ->
  filter (Grouping.filedUnder eqb keyOf k) (done ++ [s])
  = filter (Grouping.filedUnder eqb keyOf k) done ++ [s].
Proof.
  intros H. rewrite filter_app. simpl. rewrite H. reflexivity.
Qed.

Lemma tally_members (s : ServiceResult) (g : Group.t K)
  (members : list ServiceResult) :
  Group.count g = List.length members ->
  Group.total_cost g
  == Wellformed.sumQ (fun s => JS.orZero (estimated_cost s)) members ->
  Group.pass_count g = JS.count (fun s => resultIs s "PASS") members ->
  (0 < Group.count (tally s g))%nat
  /\ Group.count (tally s g) = List.length (members ++ [s])
  /\ Group.total_cost (tally s g)
     == Wellformed.sumQ (fun s => JS.orZero (estimated_cost s)) (members ++ [s])
  /\ Group.pass_count (tally s g)
     = JS.count (fun s => resultIs s "PASS") (members ++ [s]).
Proof.
  intros Hc Ht Hp. unfold tally. cbn [Group.count Group.total_cost Group.pass_count].
  split; [lia |]. split; [| split].
  - rewrite length_app, Hc. simpl. lia.
  - rewrite sumQ_app, Ht. simpl. ring.
  - rewrite count_app, Hp.
    assert (H1 : JS.count (fun s => resultIs s "PASS") [s]
                 = if resultIs s "PASS" then 1%nat else 0%nat).
    { unfold JS.count. cbn [filter].
      destruct (resultIs s "PASS"); reflexivity. }
    rewrite H1. destruct (resultIs s "PASS"); lia.
Qed.

Lemma upsert_grouped (done : list ServiceResult) (groups : list (Group.t K))
  (s : ServiceResult) (k : K) :
  keyOf s = Some k ->
  Grouping.grouped eqb keyOf done groups ->
  Grouping.grouped eqb keyOf (done ++ [s]) (upsert eqb k s groups).
Proof.
  intros Hk [Hn [He Hc]].
  assert (Hfiled : forall k', Grouping.filedUnder eqb keyOf k' s = eqb k k').
  { intros k'. unfold Grouping.filedUnder. rewrite Hk. reflexivity. }
  split; [| split].
  - rewrite upsert_keys. apply set_add_nodup, Hn.
  - apply (upsert_Forall (Grouping.exact eqb keyOf done)); try assumption.
    + intros g [_ [H1 [H2 H3]]] E. unfold Grouping.exact. cbv zeta.
      change (Group.key (tally s g)) with (Group.key g).
      rewrite members_hit by (rewrite Hfiled; apply eqb_eq; congruence).
      apply tally_members; assumption.
    + intros g Hg E. unfold Grouping.exact in *. cbv zeta in *.
      rewrite members_other; [exact Hg |].
      rewrite Hfiled. apply eqb_false. congruence.
    + intros Hnew. unfold Grouping.exact. cbv zeta.
      change (Group.key (tally s (Group.mk k 0%nat 0 0%nat))) with k.
      rewrite members_hit by (rewrite Hfiled; apply eqb_eq; reflexivity).
      assert (Hnone : filter (Grouping.filedUnder eqb keyOf k) done = []).
      { destruct (filter (Grouping.filedUnder eqb keyOf k) done) as [| s' l] eqn:F;
          [reflexivity |].
        assert (Hin : In s' (filter (Grouping.filedUnder eqb keyOf k) done))
          by (rewrite F; left; reflexivity).
        apply filter_In in Hin. destruct Hin as [Hin Hf].
        unfold Grouping.filedUnder in Hf.
        destruct (keyOf s') as [k' |] eqn:E'; [| discriminate].
        apply eqb_eq in Hf. subst k'.
        exfalso. apply Hnew. eapply Hc; eassumption. }
      rewrite Hnone.
      apply (tally_members s (Group.mk k 0%nat 0 0%nat) []); reflexivity.
  - intros s' k' Hin Hk'. rewrite upsert_keys. apply set_add_iff.
    apply in_app_or in Hin. destruct Hin as [Hin | [<- | []]].
    + right. eapply Hc; eassumption.
    + left. congruence.
Qed.

Lemma step_grouped (done : list ServiceResult) (groups : list (Group.t K))
  (s : ServiceResult) :
  Grouping.grouped eqb keyOf done groups ->
  Grouping.grouped eqb keyOf (done ++ [s]) (Grouping.step eqb keyOf groups s).
Proof.
  intros H. unfold Grouping.step.
  destruct (keyOf s) as [k |] eqn:Hk; [apply upsert_grouped; assumption |].
  destruct H as [Hn [He Hc]].
  assert (Hf : forall k', Grouping.filedUnder eqb keyOf k' s = false).
  { intros k'. unfold Grouping.filedUnder. rewrite Hk. reflexivity. }
  split; [exact Hn | split].
  - revert He. apply Forall_impl. intros g Hg.
    unfold Grouping.exact in *. cbv zeta in *.
    rewrite members_other by apply Hf. exact Hg.
  - intros s' k' Hin Hk'.
    apply in_app_or in Hin. destruct Hin as [Hin | [<- | []]].
    + eapply Hc; eassumption.
    + congruence.
Qed.

Lemma fold_grouped (rest done : list ServiceResult)
  (groups : list (Group.t K)) :
  Grouping.grouped eqb keyOf done groups ->
  Grouping.grouped eqb keyOf (done ++ rest)
                   (fold_left (Grouping.step eqb keyOf) rest groups).
Proof.
  revert done groups. induction rest as [| s l IH]; intros done groups H; simpl.
  - rewrite app_nil_r. exact H.
  - replace (done ++ s :: l) with ((done ++ [s]) ++ l)
      by (rewrite <- app_assoc; reflexivity).
    apply IH, step_grouped, H.
Qed.

Lemma grouped_from_empty (services : list ServiceResult) :
  Grouping.grouped eqb keyOf services
                   (fold_left (Grouping.step eqb keyOf) services []).
Proof.
  apply (fold_grouped services [] []).
  split; [constructor | split; [constructor |]].
  intros s k [].
Qed.

Lemma distinct_keys (services : list ServiceResult) :
  distinct dec (Grouping.keysOf keyOf services)
  = List.length (fold_left (Grouping.step eqb keyOf) services []).
Proof.
  unfold distinct.
  rewrite <- (length_map Group.key (fold_left _ services [])), fold_keys.
  reflexivity.
Qed.

End Keyed.

Lemma fold_left_ext {A B : Type} (f g : A -> B -> A) (l : list B) (a : A) :
  (forall a x, f a x = g a x) -> fold_left f l a = fold_left g l a.
Proof.
  intros H. revert a. induction l as [| x l IH]; intros a; simpl.
  - reflexivity.
  - rewrite H. apply IH.
Qed.

Lemma wardData_as_groups (services : list ServiceResult) :
  wardDataOf services
  = fold_left (Grouping.step Z.eqb Grouping.wardKey) services [].
Proof.
  apply fold_left_ext. intros a s.
  unfold wardStep, Grouping.step, Grouping.wardKey.
  destruct (ward s) as [w |]; [| reflexivity].
  destruct (w =? 0)%Z; reflexivity.
Qed.

Lemma divisionData_as_groups (services : list ServiceResult) :
  divisionDataOf services
  = fold_left (Grouping.step String.eqb Grouping.divisionKey) services [].
Proof.
  apply fold_left_ext. intros a s.
  unfold divisionStep, Grouping.step, Grouping.divisionKey.
  destruct (service_division_owner s) as [d |]; [| reflexivity].
  destruct (JS.truthy (Some d)); reflexivity.
Qed.

Lemma wardNumbers_as_keys (services : list ServiceResult) :
  wardNumbers services = Grouping.keysOf Grouping.wardKey services.
Proof.
  apply flat_map_ext. intros s. unfold Grouping.wardKey.
  destruct (ward s) as [w |]; [| reflexivity].
  destruct (w =? 0)%Z; reflexivity.
Qed.

Lemma divisionNames_as_keys (services : list ServiceResult) :
  divisionNames services = Grouping.keysOf Grouping.divisionKey services.
Proof.
  apply flat_map_ext. intros s. unfold Grouping.divisionKey.
  destruct (service_division_owner s) as [d |]; [| reflexivity].
  destruct (JS.truthy (Some d)); reflexivity.
Qed.

(** X22: after the two grouping loops of the handler, the ward map holds
    exactly one object per ward number in use (neither absent nor 0) and the
    division map one per division name in use (neither absent nor empty);
    each object's count, total cost and pass count are those of exactly the
    records filed under its key, and no object is empty. *)
Theorem ward_and_division_groups_are_exact :
  forall services,
    Grouping.grouped Z.eqb Grouping.wardKey services (wardDataOf services)
    /\ Grouping.grouped String.eqb Grouping.divisionKey services
                        (divisionDataOf services).
Proof.
  intros services. split.
  - rewrite wardData_as_groups.
    apply (grouped_from_empty Z.eqb Grouping.wardKey Z.eq_dec Z.eqb_eq).
  - rewrite divisionData_as_groups.
    apply (grouped_from_empty String.eqb Grouping.divisionKey string_dec
             String.eqb_eq).
Qed.

Lemma set_add_length {A : Type} (dec : forall x y : A, {x = y} + {x <> y})
  (a : A) (l : list A) :
  (List.length (set_add dec a l) <= S (List.length l))%nat.
Proof.
  induction l as [| x l IH]; simpl; [lia |].
  destruct (dec a x); simpl; lia.
Qed.

Lemma distinct_le {A : Type} (dec : forall x y : A, {x = y} + {x <> y})
  (values : list A) :
  (distinct dec values <= List.length values)%nat.
Proof.
  unfold distinct.
  assert (H : forall seen,
             (List.length (fold_left (fun seen v => set_add dec v seen) values seen)
              <= List.length seen + List.length values)%nat).
  { induction values as [| v l IH]; intros seen; simpl; [lia |].
    specialize (IH (set_add dec v seen)).
    pose proof (set_add_length dec v seen). lia. }
  apply (H []).
Qed.

Lemma keysOf_short {K : Type} (keyOf : ServiceResult -> option K)
  (services : list ServiceResult) :
  (List.length (Grouping.keysOf keyOf services) <= List.length services)%nat.
Proof.
  apply HistogramProofs.flat_map_short. intros s.
  destruct (keyOf s); simpl; lia.
Qed.

Lemma mean_times_count (total : Q) (n : nat) :
  (n = 0%nat -> total == 0) ->
  (if (0 <? n)%nat then total / JS.num n else 0) * JS.num n == total.
Proof.
  intros H0. destruct n as [| n].
  - cbn [Nat.ltb Nat.leb]. rewrite (H0 eq_refl). ring.
  - change (0 <? S n)%nat with true. cbv iota.
    pose proof (Facts.num_pos (S n) ltac:(lia)). field. lra.
Qed.

Lemma rate_bounds (part whole : nat) :
  (part <= whole)%nat ->
  0 <= (if (0 <? whole)%nat then (JS.num part / JS.num whole) * 100 else 0)
  <= 100.
Proof.
  intros H. destruct (0 <? whole)%nat eqn:E; [| split; lra].
  apply Nat.ltb_lt in E.
  pose proof (Facts.percentage_bounds (JS.num part) (JS.num whole)
                (Facts.num_pos _ E) (Facts.num_nonneg _) (Facts.num_le _ _ H)).
  tauto.
Qed.

(** X23: the overview figures of the handler: the numbers of distinct wards
    and divisions are the numbers of ward and division objects the grouping
    loops build, and neither exceeds the number of records; the average cost
    times the number of records gives back the total cost; the pass and fail
    rates are percentages that together stay within 100. *)
Theorem overview_figures :
  forall services,
    let k := kpiOf services in
    Kpi.uniqueWards k = List.length (wardDataOf services)
    /\ Kpi.uniqueDivisions k = List.length (divisionDataOf services)
    /\ (Kpi.uniqueWards k <= Kpi.totalServices k)%nat
    /\ (Kpi.uniqueDivisions k <= Kpi.totalServices k)%nat
    /\ Kpi.avgCost k * JS.num (Kpi.totalServices k) == Kpi.totalCost k
    /\ 0 <= Kpi.passRate k
    /\ 0 <= Kpi.failRate k
    /\ Kpi.passRate k + Kpi.failRate k <= 100.
Proof.
  intros services k. subst k. unfold kpiOf. cbv zeta.
  cbn [Kpi.uniqueWards Kpi.uniqueDivisions Kpi.totalServices Kpi.avgCost
       Kpi.totalCost Kpi.passRate Kpi.failRate].
  split; [| split; [| split; [| split; [| split]]]].
  - rewrite wardNumbers_as_keys, wardData_as_groups.
    apply (distinct_keys Z.eqb Grouping.wardKey Z.eq_dec Z.eqb_eq).
  - rewrite divisionNames_as_keys, divisionData_as_groups.
    apply (distinct_keys String.eqb Grouping.divisionKey string_dec
             String.eqb_eq).
  - eapply Nat.le_trans; [apply distinct_le |].
    rewrite wardNumbers_as_keys. apply keysOf_short.
  - eapply Nat.le_trans; [apply distinct_le |].
    rewrite divisionNames_as_keys. apply keysOf_short.
  - apply mean_times_count. intros H.
    apply length_zero_iff_nil in H. rewrite H. reflexivity.
  - pose proof (ReadinessProofs.count_disjoint
                  (fun s => resultIs s "PASS") (fun s => resultIs s "FAIL")
                  services
                  (fun s H => proj1 (proj1 (WardTotals.results_disjoint s) H)))
      as Hd.
    set (p := JS.count (fun s => resultIs s "PASS") services) in *.
    set (f := JS.count (fun s => resultIs s "FAIL") services) in *.
    set (n := List.length services) in *.
    destruct (0 <? n)%nat eqn:E; [| repeat split; lra].
    apply Nat.ltb_lt in E.
    pose proof (Facts.num_pos _ E) as Hn.
    assert (Hsum : JS.num p / JS.num n * 100 + JS.num f / JS.num n * 100
                   == (JS.num (p + f) / JS.num n) * 100).
    { rewrite Facts.num_plus. field. lra. }
    pose proof (Facts.percentage_bounds (JS.num p) (JS.num n) Hn
                  (Facts.num_nonneg _) (Facts.num_le p n ltac:(lia))) as Bp.
    pose proof (Facts.percentage_bounds (JS.num f) (JS.num n) Hn
                  (Facts.num_nonneg _) (Facts.num_le f n ltac:(lia))) as Bf.
    pose proof (Facts.percentage_bounds (JS.num (p + f)) (JS.num n) Hn
                  (Facts.num_nonneg _) (Facts.num_le _ _ Hd)) as Bs.
    repeat split; try tauto. rewrite Hsum. tauto.
Qed.

Lemma exact_groupOk {K : Type} (eqb : K -> K -> bool)
  (keyOf : ServiceResult -> option K) (services : list ServiceResult)
  (g : Group.t K) :
  Grouping.exact eqb keyOf services g -> Wellformed.groupOk g.
Proof.
  intros [H0 [Hc [_ Hp]]]. split; [exact H0 |].
  rewrite Hp, Hc. apply Facts.count_le_length.
Qed.

Lemma byValueDesc_total {K : Type} (a b : TopListItem.t K) :
  byValueDesc a b = true \/ byValueDesc b a = true.
Proof.
  unfold byValueDesc.
  destruct (HistogramProofs.Qle_bool_total
              (TopListItem.value a) (TopListItem.value b)); auto.
Qed.

Lemma byValueDesc_trans {K : Type} (a b c : TopListItem.t K) :
  byValueDesc a b = true -> byValueDesc b c = true -> byValueDesc a c = true.
Proof.
  unfold byValueDesc. intros H1 H2.
  eapply HistogramProofs.Qle_bool_trans; eassumption.
Qed.

Lemma topFive_topOf {K : Type} (label : K -> string)
  (groups : list (Group.t K)) :
  Forall Wellformed.groupOk groups ->
  Grouping.topOf groups (topFive label groups).
Proof.
  intros Hok. unfold Grouping.topOf, topFive.
  set (all := map (topItemOf label) groups).
  set (sorted := JS.sort byValueDesc all).
  pose proof (SortFacts.sort_perm byValueDesc all) as Hp. fold sorted in Hp.
  pose proof (OrderFacts.sort_StronglySorted byValueDesc byValueDesc_total
                byValueDesc_trans all) as Hs. fold sorted in Hs.
  assert (Hs' : StronglySorted
                  (fun a b => TopListItem.value b <= TopListItem.value a) sorted).
  { revert Hs. apply SortFacts.StronglySorted_weaken.
    intros a b _ _ H. unfold byValueDesc in H. apply Qle_bool_iff, H. }
  split; [| split; [| split]].
  - rewrite length_firstn, (Permutation_length Hp). subst all.
    rewrite length_map. reflexivity.
  - apply OrderFacts.firstn_StronglySorted, Hs'.
  - apply Forall_forall. intros e He.
    apply OrderFacts.firstn_In in He. apply (Permutation_in _ Hp) in He.
    subst all. apply in_map_iff in He. destruct He as [g [<- Hg]].
    rewrite Forall_forall in Hok. destruct (Hok g Hg) as [H0 Hle].
    unfold topItemOf.
    cbn [TopListItem.count TopListItem.avgCost TopListItem.value
         TopListItem.passRate].
    split; [exact H0 | split].
    + apply mean_times_count. intros E. lia.
    + apply rate_bounds, Hle.
  - exists (map TopListItem.value (skipn 5 sorted)). split.
    + rewrite <- map_app, firstn_skipn.
      apply perm_trans with (map TopListItem.value all).
      * apply Permutation_map, Hp.
      * subst all. rewrite map_map. apply Permutation_refl.
    + apply Forall_map.
      pose proof (OrderFacts.firstn_dominates _ 5 sorted Hs') as Hd.
      exact Hd.
Qed.

(** X24: the top-wards and top-divisions lists hold five items, or one per
    group when there are fewer; they are in order of non-increasing total
    cost and no group left out has a larger total than a listed one; every
    item counts at least one record, its average cost times its count gives
    its total, and its pass rate is a percentage. *)
Theorem top_lists_are_the_five_costliest_groups :
  forall services,
    Grouping.topOf (wardDataOf services) (topWardsOf services)
    /\ Grouping.topOf (divisionDataOf services) (topDivisionsOf services).
Proof.
  intros services. split; apply topFive_topOf.
  - rewrite wardData_as_groups.
    destruct (grouped_from_empty Z.eqb Grouping.wardKey Z.eq_dec Z.eqb_eq
                services) as [_ [Hw _]].
    revert Hw. apply Forall_impl. intros g. apply exact_groupOk.
  - rewrite divisionData_as_groups.
    destruct (grouped_from_empty String.eqb Grouping.divisionKey string_dec
                String.eqb_eq services) as [_ [Hd _]].
    revert Hd. apply Forall_impl. intros g. apply exact_groupOk.
Qed.

Lemma known_indicator (s : ServiceResult) :
  ((if resultIs s "PASS" then 1 else 0)
   + (if resultIs s "FAIL" then 1 else 0)
   + (if resultUnknown s then 1 else 0))%nat
  = if Grouping.knownResult s then 1%nat else 0%nat.
Proof.
  unfold Grouping.knownResult.
  destruct (WardTotals.results_disjoint s) as [Hp Hf].
  destruct (resultIs s "PASS") eqn:E1.
  - destruct (Hp eq_refl) as [-> ->]. reflexivity.
  - destruct (resultIs s "FAIL") eqn:E2.
    + rewrite (Hf eq_refl). reflexivity.
    + destruct (resultUnknown s); reflexivity.
Qed.

Lemma count_cons {A : Type} (p : A -> bool) (x : A) (l : list A) :
  JS.count p (x :: l) = ((if p x then 1 else 0) + JS.count p l)%nat.
Proof.
  unfold JS.count. cbn [filter]. destruct (p x); reflexivity.
Qed.

Lemma sumQ_filter_cons {A : Type} (f : A -> Q) (p : A -> bool) (x : A)
  (l : list A) :
  Wellformed.sumQ f (filter p (x :: l))
  == (if p x then f x else 0) + Wellformed.sumQ f (filter p l).
Proof.
  cbn [filter]. destruct (p x); simpl; ring.
Qed.

Lemma rows_account_for_known (services : list ServiceResult) :
  (JS.count (fun s => resultIs s "PASS") services
   + JS.count (fun s => resultIs s "FAIL") services
   + JS.count resultUnknown services)%nat
  = JS.count Grouping.knownResult services.
Proof.
  induction services as [| s l IH]; [reflexivity |].
  rewrite !count_cons, <- IH, <- known_indicator. lia.
Qed.

Lemma count_full {A : Type} (p : A -> bool) (l : list A) :
  JS.count p l = List.length l <-> forallb p l = true.
Proof.
  induction l as [| x l IH]; [simpl; split; reflexivity |].
  rewrite count_cons. cbn [forallb List.length].
  pose proof (Facts.count_le_length p l) as Hle.
  destruct (p x); cbn [andb].
  - rewrite <- IH. lia.
  - split; [lia | discriminate].
Qed.

Lemma known_costs (services : list ServiceResult) :
  forallb Grouping.knownResult services = true ->
  let cost := fun s => JS.orZero (estimated_cost s) in
  Wellformed.sumQ cost (filter (fun s => resultIs s "PASS") services)
  + Wellformed.sumQ cost (filter (fun s => resultIs s "FAIL") services)
  + Wellformed.sumQ cost (filter resultUnknown services)
  == Wellformed.sumQ cost services.
Proof.
  intros H cost. induction services as [| s l IH]; [simpl; ring |].
  cbn [forallb] in H. apply andb_prop in H. destruct H as [Hs Hl].
  specialize (IH Hl). rewrite !sumQ_filter_cons.
  cbn [Wellformed.sumQ fold_right]. fold (Wellformed.sumQ cost l).
  rewrite <- IH.
  pose proof (known_indicator s) as Hi. rewrite Hs in Hi.
  destruct (resultIs s "PASS"), (resultIs s "FAIL"), (resultUnknown s);
    simpl in Hi; try discriminate; ring.
Qed.

Lemma breakdown_row_ok (services : list ServiceResult) (name : string)
  (selected : ServiceResult -> bool) :
  let r := breakdownOf services name selected in
  0 <= percentage r <= 100
  /\ avg_cost r * JS.num (count r) == total_cost r.
Proof.
  unfold breakdownOf.
  cbn [percentage avg_cost count total_cost]. split.
  - apply rate_bounds, Facts.count_le_length.
  - apply mean_times_count. unfold JS.count. intros H.
    apply length_zero_iff_nil in H. rewrite H. reflexivity.
Qed.

(** X25: the result breakdown has the three rows PASS, FAIL and UNKNOWN in
    that order; each row's share is a percentage and its average cost times
    its count gives its total cost; the rows never count more records than
    there are, and they count every record exactly when each record's result
    is PASS, FAIL, empty or absent (a record with any other result text is
    in no row), in which case the three row totals add up to the total cost
    of all records. *)
Theorem result_breakdown_rows :
  forall services,
    let rows := servicesByResultOf services in
    map result rows = ["PASS"; "FAIL"; "UNKNOWN"]
    /\ Forall (fun r => 0 <= percentage r <= 100
                        /\ avg_cost r * JS.num (count r) == total_cost r) rows
    /\ (Wellformed.sumNat count rows <= List.length services)%nat
    /\ (Wellformed.sumNat count rows = List.length services
        <-> forallb Grouping.knownResult services = true)
    /\ (forallb Grouping.knownResult services = true ->
        Wellformed.sumQ total_cost rows == sumCost services).
Proof.
  intros services rows. subst rows. unfold servicesByResultOf.
  split; [reflexivity |]. split; [| split; [| split]].
  - repeat constructor; apply (breakdown_row_ok services).
  - cbn [Wellformed.sumNat fold_right breakdownOf count].
    pose proof (WardTotals.three_results_le services). lia.
  - cbn [Wellformed.sumNat fold_right breakdownOf count].
    rewrite <- count_full, <- rows_account_for_known. lia.
  - intros H.
    cbn [Wellformed.sumQ fold_right breakdownOf total_cost].
    unfold sumCost. rewrite !WardTotals.sumCost_as_sum.
    rewrite <- (known_costs services H). ring.
Qed.

End OverviewProofs.

(** ** Binary64: order and the sign of a difference

    Facts about the comparison and the subtraction of doubles, from the
    specification of the primitive operations. *)

Module Binary64Facts.

Import SpecFloat FloatOps FloatAxioms.
Local Open Scope Z_scope.























Lemma SFcompare_refl (x : spec_float) :
  x <> S754_nan -> SFcompare x x = Some Eq.
Proof.
  intros H. destruct x as [s | s | | s m e]; try destruct s;
    try reflexivity; try contradiction;
    cbn [SFcompare]; rewrite Z.compare_refl;
    change (Pos.compare_cont Eq m m) with (Pos.compare m m);
    rewrite Pos.compare_refl; reflexivity.
Qed.








End Binary64Facts.

(** ** The ward ranking as the code computes it *)

Module RankingProofs.

Import WardAnalysis64.

Section Relative.

Context {A : Type} (le : A -> A -> bool) (key : A -> Z) (good : A -> Prop).

Hypothesis le_total : forall a b, le a b = true \/ le b a = true.
Hypothesis le_trans :
  forall a b c, good a -> good b -> good c ->
                le a b = true -> le b c = true -> le a c = true.



End Relative.













End RankingProofs.
